(** * USB audio HAL (modules/usbaudio/audio_hw.c): a shallow embedding

    The C translation unit is embedded function by function.  Integers of
    a fixed width are values of [Z] with the conversions of C written out
    ([to_int], [to_uint], [to_size_t], [to_ssize_t]); pointers are byte
    addresses in a flat memory; the tinyalsa transport, the allocator and
    the constants of headers that are not part of the translation unit are
    parameters ([Platform], [Transport]).  Calls that leave the HAL are
    recorded as a list of [event]s.  A call of [out_write] that the
    process does not survive (a store through a null conversion buffer, a
    division by zero) ends in a [fault] instead of a return value.  The
    pthread mutexes have no effect on a single thread of control and are
    left out. *)

From Stdlib Require Import ZArith List Bool Lia.
From Stdlib Require Import Strings.Byte.
Import ListNotations.
Open Scope Z_scope.

(** ** Machine integers *)

Definition INT_MAX : Z := 2147483647.

(** Conversion to [int] and to [unsigned int] (32 bits on every Android
    ABI): reduction modulo 2^32 into the type's range. *)
Definition to_int (z : Z) : Z := (z + 2147483648) mod 4294967296 - 2147483648.

Definition to_uint (z : Z) : Z := z mod 4294967296.

(** ** The compilation target

    What audio_hw.c takes from headers outside the translation unit:
    the width of [size_t], the enumerators of tinyalsa's [enum pcm_format]
    with [pcm_format_to_bits], the framework's format and channel-mask
    constants with [audio_channel_out_mask_from_count] and
    [audio_stream_frame_size] (applied to the stream's format and channel
    mask), the errno values, and the sizes of the two stream structures. *)
Record Platform : Type := {
  size_bits : Z;
  PCM_FORMAT_S16_LE : Z;
  PCM_FORMAT_S32_LE : Z;
  PCM_FORMAT_S8 : Z;
  PCM_FORMAT_S24_LE : Z;
  PCM_FORMAT_S24_3LE : Z;
  PCM_FORMAT_MAX : Z;
  pcm_format_to_bits : Z -> Z;
  AUDIO_FORMAT_PCM_16_BIT : Z;
  AUDIO_FORMAT_PCM_8_BIT : Z;
  AUDIO_FORMAT_PCM_32_BIT : Z;
  AUDIO_FORMAT_PCM_8_24_BIT : Z;
  AUDIO_CHANNEL_OUT_STEREO : Z;
  AUDIO_CHANNEL_IN_STEREO : Z;
  AUDIO_CHANNEL_IN_MONO : Z;
  audio_channel_out_mask_from_count : Z -> Z;
  audio_stream_frame_size : Z -> Z -> Z;
  EINVAL : Z;
  ENOMEM : Z;
  ENOSYS : Z;
  sizeof_stream_out : Z;
  sizeof_stream_in : Z;
  (* size_t is at least as wide as int *)
  size_bits_ge : 32 <= size_bits;
  (* the errno macros expand to positive integers *)
  errno_positive : 0 < EINVAL /\ 0 < ENOMEM /\ 0 < ENOSYS;
  (* the enumerators used as case labels are pairwise distinct *)
  pcm_format_distinct :
    NoDup [PCM_FORMAT_S16_LE; PCM_FORMAT_S32_LE; PCM_FORMAT_S8;
           PCM_FORMAT_S24_LE; PCM_FORMAT_S24_3LE]
}.

Definition SIZE_MAX (P : Platform) : Z := 2 ^ size_bits P - 1.

Definition SSIZE_MAX (P : Platform) : Z := 2 ^ (size_bits P - 1) - 1.

Definition to_size_t (P : Platform) (z : Z) : Z := z mod 2 ^ size_bits P.

Definition to_ssize_t (P : Platform) (z : Z) : Z :=
  (z + 2 ^ (size_bits P - 1)) mod 2 ^ size_bits P - 2 ^ (size_bits P - 1).

(** ** Memory *)

Definition NULL : Z := 0.

Definition mem : Type := Z -> byte.

Definition store8 (m : mem) (p : Z) (b : byte) : mem :=
  fun a => if a =? p then b else m a.

Definition byte_to_Z (b : byte) : Z := Z.of_N (Byte.to_N b).

Definition Z_to_byte (z : Z) : byte :=
  match Byte.of_N (Z.to_N (z mod 256)) with
  | Some b => b
  | None => x00
  end.

(** [unsigned short] accesses, little-endian. *)
Definition load16 (m : mem) (p : Z) : Z :=
  byte_to_Z (m p) + 256 * byte_to_Z (m (p + 1)).

Definition store16 (m : mem) (p : Z) (v : Z) : mem :=
  store8 (store8 m p (Z_to_byte v)) (p + 1) (Z_to_byte (v / 256)).

(** The value of a packed 24-bit little-endian sample. *)
Definition load24 (m : mem) (p : Z) : Z :=
  byte_to_Z (m p) + 256 * byte_to_Z (m (p + 1)) + 65536 * byte_to_Z (m (p + 2)).

(** ** Data conversions *)

Section Conversions.

Variable P : Platform.

(** The body of the [for] loop of [convert_16_to_24_3]; [fuel] bounds the
    number of iterations. *)
Fixpoint convert_16_to_24_3_loop (fuel : nat) (num_in_samples : Z)
    (src_smpl_index : Z) (m : mem) (dst_ptr src_ptr : Z) : mem :=
  match fuel with
  | O => m
  | S fuel' =>
      if to_size_t P src_smpl_index <? num_in_samples then
        (* *dst_ptr-- = *src_ptr--;  hi-byte *)
        let m := store8 m dst_ptr (m src_ptr) in
        let dst_ptr := dst_ptr - 1 in
        let src_ptr := src_ptr - 1 in
        (* *dst_ptr-- = *src_ptr--;  low-byte *)
        let m := store8 m dst_ptr (m src_ptr) in
        let dst_ptr := dst_ptr - 1 in
        let src_ptr := src_ptr - 1 in
        (* *dst_ptr-- = 0;  zero-byte *)
        let m := store8 m dst_ptr x00 in
        let dst_ptr := dst_ptr - 1 in
        convert_16_to_24_3_loop fuel' num_in_samples
          (to_int (src_smpl_index + 1)) m dst_ptr src_ptr
      else m
  end.

(** [convert_16_to_24_3(in_buff, num_in_samples, out_buff)]: the memory
    after the call and the returned byte count. *)
Definition convert_16_to_24_3 (m : mem) (in_buff num_in_samples out_buff : Z)
    : mem * Z :=
  let in_buff_size_in_bytes := to_int (to_size_t P (num_in_samples * 2)) in
  let out_buff_size_in_bytes := Z.quot (to_int (3 * in_buff_size_in_bytes)) 2 in
  let dst_ptr := out_buff + out_buff_size_in_bytes - 1 in
  let src_ptr := in_buff + in_buff_size_in_bytes - 1 in
  let m' :=
    convert_16_to_24_3_loop (Z.to_nat num_in_samples) num_in_samples 0
      m dst_ptr src_ptr in
  (m', to_size_t P out_buff_size_in_bytes).

(** The [for] loop of [convert_2chan16_to_4chan16]; the pointers are
    [unsigned short *], so each step moves by two bytes. *)
Fixpoint convert_2chan16_to_4chan16_loop (fuel : nat) (num_in_samples : Z)
    (src_index : Z) (m : mem) (dst_ptr src_ptr : Z) : mem :=
  match fuel with
  | O => m
  | S fuel' =>
      if to_size_t P src_index <? num_in_samples then
        (* *dst_ptr-- = 0;  chan 4 *)
        let m := store16 m dst_ptr 0 in
        let dst_ptr := dst_ptr - 2 in
        (* *dst_ptr-- = 0;  chan 3 *)
        let m := store16 m dst_ptr 0 in
        let dst_ptr := dst_ptr - 2 in
        (* *dst_ptr-- = *src_ptr--;  chan 2 *)
        let m := store16 m dst_ptr (load16 m src_ptr) in
        let dst_ptr := dst_ptr - 2 in
        let src_ptr := src_ptr - 2 in
        (* *dst_ptr-- = *src_ptr--;  chan 1 *)
        let m := store16 m dst_ptr (load16 m src_ptr) in
        let dst_ptr := dst_ptr - 2 in
        let src_ptr := src_ptr - 2 in
        convert_2chan16_to_4chan16_loop fuel' num_in_samples
          (to_int (src_index + 2)) m dst_ptr src_ptr
      else m
  end.

(** [convert_2chan16_to_4chan16(in_buff, num_in_samples, out_buff)]. *)
Definition convert_2chan16_to_4chan16 (m : mem)
    (in_buff num_in_samples out_buff : Z) : mem * Z :=
  let out_buff_size := to_int (to_size_t P (num_in_samples * 2)) in
  let dst_ptr := out_buff + 2 * (out_buff_size - 1) in
  let src_ptr := in_buff + 2 * (num_in_samples - 1) in
  let m' :=
    convert_2chan16_to_4chan16_loop (Z.to_nat num_in_samples) num_in_samples 0
      m dst_ptr src_ptr in
  (m', to_size_t P (to_int (out_buff_size * 2))).

End Conversions.

(** ** tinyalsa: the transport *)

(** The direction flag handed to [pcm_params_get] and [pcm_open]. *)
Inductive io_type : Type := PCM_OUT | PCM_IN.

Inductive pcm_param : Type :=
  | PCM_PARAM_SAMPLE_BITS | PCM_PARAM_FRAME_BITS | PCM_PARAM_CHANNELS
  | PCM_PARAM_RATE | PCM_PARAM_PERIOD_TIME | PCM_PARAM_PERIOD_SIZE
  | PCM_PARAM_PERIOD_BYTES | PCM_PARAM_PERIODS | PCM_PARAM_BUFFER_TIME
  | PCM_PARAM_BUFFER_SIZE | PCM_PARAM_BUFFER_BYTES | PCM_PARAM_TICK_TIME.

(** A capability set: what [pcm_params_get_min] and [pcm_params_get_max]
    answer for each parameter (values of type [unsigned int]). *)
Record pcm_params : Type := {
  pcm_params_get_min : pcm_param -> Z;
  pcm_params_get_max : pcm_param -> Z
}.

Module PcmConfig.
Record t : Type := mk {
  channels : Z;
  rate : Z;
  period_size : Z;
  period_count : Z;
  format : Z;
  start_threshold : Z;
  stop_threshold : Z
}.
End PcmConfig.

Abbreviation pcm_config := PcmConfig.t.

(** The answers of the world outside the HAL: tinyalsa and the allocator.
    A pointer is an address, [NULL] when the call fails. *)
Record Transport : Type := {
  pcm_params_get : Z -> Z -> io_type -> option pcm_params;
  pcm_open : Z -> Z -> io_type -> pcm_config -> Z;
  pcm_is_ready : Z -> bool;
  pcm_read : Z -> Z -> Z -> Z;
  realloc : Z -> Z -> Z;
  calloc : Z -> Z -> Z
}.

(** The calls that act on the world outside the HAL, in program order. *)
Inductive event : Type :=
  | EvPcmOpen (card device : Z) (io : io_type) (config : pcm_config)
  | EvPcmClose (pcm : Z)
  | EvPcmWrite (pcm data count : Z)
  | EvPcmRead (pcm data count : Z)
  | EvRealloc (ptr size : Z)
  | EvFree (ptr : Z)
  | EvUsleep (usec : Z).

(** ** The structures of audio_hw.c *)

Module AudioConfig.
Record t : Type := mk {
  sample_rate : Z;
  channel_mask : Z;
  format : Z
}.
End AudioConfig.

Abbreviation audio_config := AudioConfig.t.

Module AudioDevice.
Record t : Type := mk {
  out_card : Z;
  out_device : Z;
  in_card : Z;
  in_device : Z;
  standby : bool
}.
End AudioDevice.

Abbreviation audio_device := AudioDevice.t.

Module StreamOut.
Record t : Type := mk {
  pcm : Z;
  standby : bool;
  conversion_buffer : Z;
  conversion_buffer_size : Z
}.
End StreamOut.

Abbreviation stream_out := StreamOut.t.

Module StreamIn.
Record t : Type := mk {
  pcm : Z;
  standby : bool;
  alsa_pcm_config : pcm_config;
  hal_pcm_config : audio_config;
  requested_rate : Z;
  buffer : Z;
  buffer_size : Z;
  frames_in : Z;
  read_status : Z
}.
End StreamIn.

Abbreviation stream_in := StreamIn.t.

(** The file-scope variables (the output configuration cache) together
    with the device they describe. *)
Record hal_state : Type := {
  adev : audio_device;
  cached_output_hardware_config : pcm_config;
  output_hardware_config_is_cached : bool
}.

Definition set_cache (g : hal_state) (c : pcm_config) (valid : bool) : hal_state :=
  {| adev := adev g;
     cached_output_hardware_config := c;
     output_hardware_config_is_cached := valid |}.

Definition set_adev (g : hal_state) (d : audio_device) : hal_state :=
  {| adev := d;
     cached_output_hardware_config := cached_output_hardware_config g;
     output_hardware_config_is_cached := output_hardware_config_is_cached g |}.

Section Hal.

Variable P : Platform.

Definition OUT_PERIOD_SIZE : Z := 1024.
Definition OUT_PERIOD_COUNT : Z := 4.
Definition OUT_SAMPLING_RATE : Z := 44100.

Definition default_alsa_out_config : pcm_config :=
  PcmConfig.mk 2 OUT_SAMPLING_RATE OUT_PERIOD_SIZE OUT_PERIOD_COUNT
    (PCM_FORMAT_S16_LE P) 0 0.

Definition IN_PERIOD_SIZE : Z := 1024.
Definition IN_PERIOD_COUNT : Z := 4.
Definition IN_SAMPLING_RATE : Z := 44100.

Definition default_alsa_in_config : pcm_config :=
  PcmConfig.mk 2 IN_SAMPLING_RATE IN_PERIOD_SIZE IN_PERIOD_COUNT
    (PCM_FORMAT_S16_LE P) 1 (IN_PERIOD_SIZE * IN_PERIOD_COUNT).

(** [alsa_to_fw_format_id]: the [switch] read as a chain of comparisons. *)
Definition alsa_to_fw_format_id (alsa_fmt_id : Z) : Z :=
  if alsa_fmt_id =? PCM_FORMAT_S8 P then AUDIO_FORMAT_PCM_8_BIT P
  else if alsa_fmt_id =? PCM_FORMAT_S24_3LE P then AUDIO_FORMAT_PCM_8_24_BIT P
  else if (alsa_fmt_id =? PCM_FORMAT_S32_LE P) || (alsa_fmt_id =? PCM_FORMAT_S24_LE P)
  then AUDIO_FORMAT_PCM_32_BIT P
  else AUDIO_FORMAT_PCM_16_BIT P.

(** The [for] loop of [bits_to_alsa_format].  [pcm_format_to_bits] returns
    an [unsigned int], so the [int] [bits_per_sample] is converted for the
    comparison. *)
Fixpoint bits_to_alsa_format_loop (fuel : nat) (format : Z)
    (bits_per_sample default_format : Z) : Z :=
  match fuel with
  | O => default_format
  | S fuel' =>
      if format <? PCM_FORMAT_MAX P then
        if pcm_format_to_bits P format =? to_uint bits_per_sample then format
        else bits_to_alsa_format_loop fuel' (format + 1) bits_per_sample default_format
      else default_format
  end.

Definition bits_to_alsa_format (bits_per_sample default_format : Z) : Z :=
  bits_to_alsa_format_loop (Z.to_nat (PCM_FORMAT_MAX P - PCM_FORMAT_S16_LE P))
    (PCM_FORMAT_S16_LE P) bits_per_sample default_format.

(** [read_alsa_device_config]: the returned status and the record behind
    [config] after the call. *)
Definition read_alsa_device_config (T : Transport) (card device : Z)
    (io : io_type) (config : pcm_config) : Z * pcm_config :=
  if (card <? 0) || (device <? 0) then (- EINVAL P, config)
  else
    match pcm_params_get T card device io with
    | None => (- EINVAL P, config)
    | Some alsa_hw_params =>
        let bits_per_sample :=
          to_int (pcm_params_get_min alsa_hw_params PCM_PARAM_SAMPLE_BITS) in
        (0,
         PcmConfig.mk
           (pcm_params_get_min alsa_hw_params PCM_PARAM_CHANNELS)
           (pcm_params_get_min alsa_hw_params PCM_PARAM_RATE)
           (pcm_params_get_max alsa_hw_params PCM_PARAM_PERIODS)
           (pcm_params_get_min alsa_hw_params PCM_PARAM_PERIODS)
           (bits_to_alsa_format bits_per_sample (PCM_FORMAT_S16_LE P))
           (PcmConfig.start_threshold config)
           (PcmConfig.stop_threshold config))
    end.

(** *** Output stream *)

Definition out_get_sample_rate (g : hal_state) : Z :=
  PcmConfig.rate (cached_output_hardware_config g).

Definition out_get_channels : Z := AUDIO_CHANNEL_OUT_STEREO P.

Definition out_get_format : Z := AUDIO_FORMAT_PCM_16_BIT P.

(** The frame size [audio_stream_frame_size] computes for an output
    stream, from the format and mask the stream reports. *)
Definition out_frame_size : Z :=
  audio_stream_frame_size P out_get_format out_get_channels.

Definition out_get_buffer_size (g : hal_state) : Z :=
  to_size_t P (PcmConfig.period_size (cached_output_hardware_config g) * out_frame_size).

Definition out_standby (out : stream_out) : Z * stream_out * list event :=
  if negb (StreamOut.standby out) then
    (0,
     StreamOut.mk NULL true
       (StreamOut.conversion_buffer out) (StreamOut.conversion_buffer_size out),
     [EvPcmClose (StreamOut.pcm out)])
  else (0, out, []).

Definition start_output_stream (T : Transport) (g : hal_state) (out : stream_out)
    : Z * stream_out * list event :=
  let card := AudioDevice.out_card (adev g) in
  let device := AudioDevice.out_device (adev g) in
  let config := cached_output_hardware_config g in
  let pcm := pcm_open T card device PCM_OUT config in
  let out :=
    StreamOut.mk pcm (StreamOut.standby out)
      (StreamOut.conversion_buffer out) (StreamOut.conversion_buffer_size out) in
  if pcm =? NULL then (- ENOMEM P, out, [EvPcmOpen card device PCM_OUT config])
  else if negb (pcm_is_ready T pcm) then
    (- ENOMEM P, out, [EvPcmOpen card device PCM_OUT config; EvPcmClose pcm])
  else
    let buffer_size := out_get_buffer_size g in
    let conversion_buffer_size :=
      to_size_t P (to_size_t P (buffer_size * 3) * 2) / 2 in
    let conversion_buffer :=
      realloc T (StreamOut.conversion_buffer out) conversion_buffer_size in
    (0,
     StreamOut.mk pcm (StreamOut.standby out) conversion_buffer conversion_buffer_size,
     [EvPcmOpen card device PCM_OUT config;
      EvRealloc (StreamOut.conversion_buffer out) conversion_buffer_size]).

(** A call that does not return: the process is stopped by a signal, on a
    store through a null output buffer in one of the converters
    ([conversion_buffer] is null until the first accepted open, and after
    it whenever [realloc] fails, which [start_output_stream] does not
    check), or on a zero divisor in the argument of [usleep]. *)
Inductive fault : Type :=
  | NullStore
  | DivideByZero.

(** How [out_write] ends. *)
Inductive outcome : Type :=
  | Returns (ret : Z)
  | Faults (why : fault).

(** The result of [out_write]: how the call ends, and the stream, the
    memory and the calls made up to the return or the fault. *)
Record out_write_result : Type := {
  ow_ret : outcome;
  ow_out : stream_out;
  ow_mem : mem;
  ow_events : list event
}.

(** A converter handed the output buffer [out_buff] stores through it as
    soon as its loop runs once, that is, when [num_in_samples] (a
    [size_t]) is not zero. *)
Definition stores_through_null (out_buff num_in_samples : Z) : bool :=
  (out_buff =? NULL) && (0 <? num_in_samples).

(** The part of [out_write] after the stream is known to be active. *)
Definition out_write_active (g : hal_state) (out : stream_out) (m : mem)
    (buffer bytes : Z) (before : list event) : out_write_result :=
  let faulted (m : mem) :=
    {| ow_ret := Faults NullStore; ow_out := out; ow_mem := m;
       ow_events := before |} in
  let write_buff := buffer in
  let num_write_buff_bytes := to_int bytes in
  (* Num Channels conversion *)
  let num_device_channels := to_int (PcmConfig.channels (cached_output_hardware_config g)) in
  let num_req_channels := 2 in
  let expand :=
    negb (num_device_channels =? num_req_channels) && (num_device_channels =? 4) in
  if expand
     && stores_through_null (StreamOut.conversion_buffer out)
          (to_size_t P (Z.quot num_write_buff_bytes 2))
  then faulted m
  else
  let '(m, write_buff, num_write_buff_bytes) :=
    if expand then
      let r := convert_2chan16_to_4chan16 P m write_buff
                 (to_size_t P (Z.quot num_write_buff_bytes 2))
                 (StreamOut.conversion_buffer out) in
      (fst r, StreamOut.conversion_buffer out, to_int (snd r))
    else (m, write_buff, num_write_buff_bytes) in
  (* 16 vs 24-bit logic *)
  let fmt := PcmConfig.format (cached_output_hardware_config g) in
  let widen := negb (fmt =? PCM_FORMAT_S16_LE P) && (fmt =? PCM_FORMAT_S24_3LE P) in
  if widen
     && stores_through_null (StreamOut.conversion_buffer out)
          (to_size_t P (Z.quot num_write_buff_bytes 2))
  then faulted m
  else
  let '(m, write_buff, num_write_buff_bytes) :=
    if fmt =? PCM_FORMAT_S16_LE P then (m, write_buff, num_write_buff_bytes)
    else if fmt =? PCM_FORMAT_S24_3LE P then
      let r := convert_16_to_24_3 P m write_buff
                 (to_size_t P (Z.quot num_write_buff_bytes 2))
                 (StreamOut.conversion_buffer out) in
      (fst r, StreamOut.conversion_buffer out, to_int (snd r))
    else (m, write_buff, num_write_buff_bytes) in
  let written :=
    if negb (write_buff =? NULL) && negb (num_write_buff_bytes =? 0) then
      [EvPcmWrite (StreamOut.pcm out) write_buff num_write_buff_bytes]
    else [] in
  {| ow_ret := Returns (to_ssize_t P bytes); ow_out := out; ow_mem := m;
     ow_events := before ++ written |}.

(** The [err:] exit of [out_write].  The argument of [usleep] is computed
    in [size_t]: the product wraps, and each of the two divisions stops
    the process when its divisor is zero. *)
Definition out_write_err (g : hal_state) (out : stream_out) (m : mem)
    (bytes ret : Z) (before : list event) : out_write_result :=
  if negb (ret =? 0) then
    if (out_frame_size =? 0) || (out_get_sample_rate g =? 0) then
      {| ow_ret := Faults DivideByZero; ow_out := out; ow_mem := m;
         ow_events := before |}
    else
      {| ow_ret := Returns (to_ssize_t P bytes); ow_out := out; ow_mem := m;
         ow_events :=
           before ++
           [EvUsleep (to_size_t P (bytes * 1000000) / out_frame_size
                      / out_get_sample_rate g)] |}
  else
    {| ow_ret := Returns (to_ssize_t P bytes); ow_out := out; ow_mem := m;
       ow_events := before |}.

Definition out_write (T : Transport) (g : hal_state) (out : stream_out) (m : mem)
    (buffer bytes : Z) : out_write_result :=
  if StreamOut.standby out then
    let '(ret, out, opened) := start_output_stream T g out in
    if negb (ret =? 0) then out_write_err g out m bytes ret opened
    else
      let out :=
        StreamOut.mk (StreamOut.pcm out) false
          (StreamOut.conversion_buffer out) (StreamOut.conversion_buffer_size out) in
      out_write_active g out m buffer bytes opened
  else out_write_active g out m buffer bytes [].

Definition out_set_parameters (T : Transport) (g : hal_state)
    (card device : option Z) : Z * hal_state :=
  let d := adev g in
  let d :=
    match card with
    | Some v =>
        AudioDevice.mk v (AudioDevice.out_device d) (AudioDevice.in_card d)
          (AudioDevice.in_device d) (AudioDevice.standby d)
    | None => d
    end in
  let d :=
    match device with
    | Some v =>
        AudioDevice.mk (AudioDevice.out_card d) v (AudioDevice.in_card d)
          (AudioDevice.in_device d) (AudioDevice.standby d)
    | None => d
    end in
  let recache_device_params :=
    match card, device with
    | None, None => false
    | _, _ => true
    end in
  let g := set_adev g d in
  if recache_device_params && (AudioDevice.out_card d >=? 0)
     && (AudioDevice.out_device d >=? 0) then
    let r := read_alsa_device_config T (AudioDevice.out_card d)
               (AudioDevice.out_device d) PCM_OUT (cached_output_hardware_config g) in
    (fst r, set_cache g (snd r) (fst r =? 0))
  else (0, g).

(** [adev_open_output_stream]: the status, the file-scope state, the
    caller's [config] and the stream stored through [stream_out] (none
    when the allocation fails). *)
Definition adev_open_output_stream (T : Transport) (g : hal_state)
    (config : audio_config) : Z * hal_state * audio_config * option stream_out :=
  if calloc T 1 (sizeof_stream_out P) =? NULL then (- ENOMEM P, g, config, None)
  else
    let '(g, config) :=
      if output_hardware_config_is_cached g then
        let sample_rate := PcmConfig.rate (cached_output_hardware_config g) in
        let fmt := alsa_to_fw_format_id (PcmConfig.format (cached_output_hardware_config g)) in
        let fmt := if negb (fmt =? AUDIO_FORMAT_PCM_16_BIT P)
                   then AUDIO_FORMAT_PCM_16_BIT P else fmt in
        let mask := audio_channel_out_mask_from_count P
                      (PcmConfig.channels (cached_output_hardware_config g)) in
        let mask := if negb (mask =? AUDIO_CHANNEL_OUT_STEREO P)
                    then AUDIO_CHANNEL_OUT_STEREO P else mask in
        (g, AudioConfig.mk sample_rate mask fmt)
      else
        let g := set_cache g default_alsa_out_config
                   (output_hardware_config_is_cached g) in
        (g, AudioConfig.mk (out_get_sample_rate g) out_get_channels out_get_format) in
    (0, g, config, Some (StreamOut.mk NULL true NULL 0)).

(** [adev_close_output_stream(dev, stream)]: [stream] is the address of
    the stream object and [out] the object behind it. *)
Definition adev_close_output_stream (stream : Z) (out : stream_out) : list event :=
  let '(_, out, closed) := out_standby out in
  closed ++ [EvFree (StreamOut.conversion_buffer out); EvFree stream].

Definition adev_close (g : hal_state) : Z * hal_state :=
  (0, set_cache g (cached_output_hardware_config g) false).

(** *** Input stream *)

Definition in_get_sample_rate (s : stream_in) : Z :=
  PcmConfig.rate (StreamIn.alsa_pcm_config s).

Definition in_set_sample_rate (s : stream_in) (rate : Z) : Z := - ENOSYS P.

Definition in_get_channels (s : stream_in) : Z :=
  if PcmConfig.channels (StreamIn.alsa_pcm_config s) =? 2
  then AUDIO_CHANNEL_IN_STEREO P else AUDIO_CHANNEL_IN_MONO P.

Definition in_get_format (s : stream_in) : Z := AUDIO_FORMAT_PCM_16_BIT P.

Definition in_get_buffer_size (s : stream_in) : Z :=
  to_size_t P (PcmConfig.period_size (StreamIn.alsa_pcm_config s)
               * audio_stream_frame_size P (in_get_format s) (in_get_channels s)).

Definition in_set_format (s : stream_in) (format : Z) : Z := - ENOSYS P.

Definition in_standby (s : stream_in) : Z * stream_in := (0, s).

Definition in_set_parameters (T : Transport) (d : audio_device) (s : stream_in)
    (card device : option Z) : Z * audio_device * stream_in :=
  let d :=
    match card with
    | Some v =>
        AudioDevice.mk (AudioDevice.out_card d) (AudioDevice.out_device d) v
          (AudioDevice.in_device d) (AudioDevice.standby d)
    | None => d
    end in
  let d :=
    match device with
    | Some v =>
        AudioDevice.mk (AudioDevice.out_card d) (AudioDevice.out_device d)
          (AudioDevice.in_card d) v (AudioDevice.standby d)
    | None => d
    end in
  if (AudioDevice.in_card d >=? 0) && (AudioDevice.in_device d >=? 0) then
    let r := read_alsa_device_config T (AudioDevice.in_card d)
               (AudioDevice.in_device d) PCM_IN (StreamIn.alsa_pcm_config s) in
    (fst r, d,
     StreamIn.mk (StreamIn.pcm s) (StreamIn.standby s) (snd r)
       (StreamIn.hal_pcm_config s) (StreamIn.requested_rate s) (StreamIn.buffer s)
       (StreamIn.buffer_size s) (StreamIn.frames_in s) (StreamIn.read_status s))
  else (0, d, s).

Definition in_set_gain (s : stream_in) : Z := 0.

Definition in_get_input_frames_lost (s : stream_in) : Z := 0.

(** [in_read]: the returned count and the calls made.  The conditional
    has type [size_t]; the function returns it as [ssize_t]. *)
Definition in_read (T : Transport) (s : stream_in) (buffer bytes : Z)
    : Z * list event :=
  let err := pcm_read T (StreamIn.pcm s) buffer bytes in
  (to_ssize_t P (if err =? 0 then bytes else 0),
   [EvPcmRead (StreamIn.pcm s) buffer bytes]).

(** [adev_open_input_stream]: the status, the caller's [hal_config] and
    the stream stored through [stream_in].  [calloc] zeroes the object. *)
Definition adev_open_input_stream (T : Transport) (hal_config : audio_config)
    : Z * audio_config * option stream_in :=
  if calloc T 1 (sizeof_stream_in P) =? NULL then (- ENOMEM P, hal_config, None)
  else
    let alsa_pcm_config := default_alsa_in_config in
    let alsa_pcm_config :=
      if negb (AudioConfig.sample_rate hal_config =? 0) then
        PcmConfig.mk (PcmConfig.channels alsa_pcm_config)
          (AudioConfig.sample_rate hal_config)
          (PcmConfig.period_size alsa_pcm_config)
          (PcmConfig.period_count alsa_pcm_config)
          (PcmConfig.format alsa_pcm_config)
          (PcmConfig.start_threshold alsa_pcm_config)
          (PcmConfig.stop_threshold alsa_pcm_config)
      else alsa_pcm_config in
    let fmt := PcmConfig.format default_alsa_in_config in
    let hal_format :=
      if fmt =? PCM_FORMAT_S32_LE P then AUDIO_FORMAT_PCM_32_BIT P
      else if fmt =? PCM_FORMAT_S8 P then AUDIO_FORMAT_PCM_8_BIT P
      else if fmt =? PCM_FORMAT_S24_LE P then AUDIO_FORMAT_PCM_8_24_BIT P
      else if fmt =? PCM_FORMAT_S24_3LE P then AUDIO_FORMAT_PCM_8_24_BIT P
      else AUDIO_FORMAT_PCM_16_BIT P in
    (0,
     AudioConfig.mk (AudioConfig.sample_rate hal_config)
       (AudioConfig.channel_mask hal_config) hal_format,
     Some (StreamIn.mk NULL true alsa_pcm_config (AudioConfig.mk 0 0 0)
             (AudioConfig.sample_rate hal_config) NULL 0 0 0)).

(** The operations the framework can invoke on an input stream through
    the function pointers installed by [adev_open_input_stream]. *)
Inductive in_call : Type :=
  | CallInGetSampleRate
  | CallInSetSampleRate (rate : Z)
  | CallInGetBufferSize
  | CallInGetChannels
  | CallInGetFormat
  | CallInSetFormat (format : Z)
  | CallInStandby
  | CallInDump (fd : Z)
  | CallInSetParameters (card device : option Z)
  | CallInGetParameters
  | CallInAddAudioEffect
  | CallInRemoveAudioEffect
  | CallInSetGain
  | CallInRead (buffer bytes : Z)
  | CallInGetInputFramesLost.

(** The effect of one call on the device and the stream.  The getters,
    the stubs and [in_read] leave both as they are; [in_get_parameters]
    only queries the transport and formats a string. *)
Definition in_dispatch (T : Transport) (c : in_call)
    (w : audio_device * stream_in) : audio_device * stream_in :=
  match c with
  | CallInStandby => (fst w, snd (in_standby (snd w)))
  | CallInSetParameters card device =>
      let '(_, d, s) := in_set_parameters T (fst w) (snd w) card device in (d, s)
  | _ => w
  end.

(** The input streams the HAL can hold: what [adev_open_input_stream]
    stores, and what any sequence of calls makes of it.  The device may
    change between calls (the output side writes its own fields). *)
Inductive in_reachable : stream_in -> Prop :=
  | in_reachable_open T hal_config ret hal_config' s :
      adev_open_input_stream T hal_config = (ret, hal_config', Some s) ->
      in_reachable s
  | in_reachable_call T c d s :
      in_reachable s ->
      in_reachable (snd (in_dispatch T c (d, s))).

End Hal.

(** ** Vocabulary of the statements *)

(** [f] is the first format, counting up from [PCM_FORMAT_S16_LE] and
    below [PCM_FORMAT_MAX], whose width is [bits]. *)
Definition first_format_with_bits (P : Platform) (bits f : Z) : Prop :=
  PCM_FORMAT_S16_LE P <= f < PCM_FORMAT_MAX P /\
  pcm_format_to_bits P f = bits /\
  forall g, PCM_FORMAT_S16_LE P <= g < f -> pcm_format_to_bits P g <> bits.

(** No format from [PCM_FORMAT_S16_LE] up has width [bits]. *)
Definition no_format_with_bits (P : Platform) (bits : Z) : Prop :=
  forall g, PCM_FORMAT_S16_LE P <= g < PCM_FORMAT_MAX P ->
            pcm_format_to_bits P g <> bits.

Definition is_pcm_open (e : event) : bool :=
  match e with EvPcmOpen _ _ _ _ => true | _ => false end.

Definition is_realloc (e : event) : bool :=
  match e with EvRealloc _ _ => true | _ => false end.

Definition is_pcm_write (e : event) : bool :=
  match e with EvPcmWrite _ _ _ => true | _ => false end.

Definition is_usleep (e : event) : bool :=
  match e with EvUsleep _ => true | _ => false end.

(** The transport accepts the output stream's open: [pcm_open] returns a
    handle and [pcm_is_ready] holds of it. *)
Definition open_succeeds (T : Transport) (g : hal_state) : Prop :=
  let pcm := pcm_open T (AudioDevice.out_card (adev g))
               (AudioDevice.out_device (adev g)) PCM_OUT
               (cached_output_hardware_config g) in
  pcm <> NULL /\ pcm_is_ready T pcm = true.

Definition open_fails (T : Transport) (g : hal_state) : Prop :=
  let pcm := pcm_open T (AudioDevice.out_card (adev g))
               (AudioDevice.out_device (adev g)) PCM_OUT
               (cached_output_hardware_config g) in
  pcm = NULL \/ pcm_is_ready T pcm = false.

(** ** A sample target and sample transports

    A 32-bit target with the enumerators numbered as in tinyalsa's
    asoundlib.h and the framework's system/audio.h, for the examples. *)

Definition popcount32 (z : Z) : Z :=
  fold_left (fun acc i => acc + Z.b2z (Z.testbit z (Z.of_nat i))) (seq 0 32) 0.

Definition android_ilp32 : Platform.
Proof.
  refine
    {| size_bits := 32;
       PCM_FORMAT_S16_LE := 0;
       PCM_FORMAT_S32_LE := 1;
       PCM_FORMAT_S8 := 2;
       PCM_FORMAT_S24_LE := 3;
       PCM_FORMAT_S24_3LE := 4;
       PCM_FORMAT_MAX := 5;
       pcm_format_to_bits := fun f =>
         if (f =? 1) || (f =? 3) then 32 else if f =? 4 then 24 else 16;
       AUDIO_FORMAT_PCM_16_BIT := 1;
       AUDIO_FORMAT_PCM_8_BIT := 2;
       AUDIO_FORMAT_PCM_32_BIT := 3;
       AUDIO_FORMAT_PCM_8_24_BIT := 4;
       AUDIO_CHANNEL_OUT_STEREO := 3;
       AUDIO_CHANNEL_IN_STEREO := 12;
       AUDIO_CHANNEL_IN_MONO := 16;
       audio_channel_out_mask_from_count := fun n =>
         if n =? 1 then 1 else if n =? 2 then 3 else if n =? 4 then 51
         else if n =? 6 then 63 else if n =? 8 then 1599 else 0;
       audio_stream_frame_size := fun format mask =>
         popcount32 mask * (if format =? 2 then 1 else if format =? 1 then 2 else 4);
       EINVAL := 22;
       ENOMEM := 12;
       ENOSYS := 38;
       sizeof_stream_out := 128;
       sizeof_stream_in := 192 |}.
  - lia.
  - lia.
  - repeat constructor; cbn; intuition discriminate.
Defined.

(** A device whose capability set has the ranges rate [8000, 48000],
    channels [1, 4], periods [2, 8] and sample bits [16, 24], and whose
    calls all succeed. *)
Definition usb_dac_params : pcm_params :=
  {| pcm_params_get_min := fun p =>
       match p with
       | PCM_PARAM_RATE => 8000
       | PCM_PARAM_CHANNELS => 1
       | PCM_PARAM_PERIODS => 2
       | PCM_PARAM_SAMPLE_BITS => 16
       | _ => 0
       end;
     pcm_params_get_max := fun p =>
       match p with
       | PCM_PARAM_RATE => 48000
       | PCM_PARAM_CHANNELS => 4
       | PCM_PARAM_PERIODS => 8
       | PCM_PARAM_SAMPLE_BITS => 24
       | _ => 0
       end |}.

Definition usb_dac : Transport :=
  {| pcm_params_get := fun _ _ _ => Some usb_dac_params;
     pcm_open := fun _ _ _ _ => 4096;
     pcm_is_ready := fun _ => true;
     pcm_read := fun _ _ _ => 0;
     realloc := fun _ _ => 65536;
     calloc := fun _ _ => 8192 |}.

(** No device: nothing is reported, nothing opens, nothing is allocated. *)
Definition no_device : Transport :=
  {| pcm_params_get := fun _ _ _ => None;
     pcm_open := fun _ _ _ _ => NULL;
     pcm_is_ready := fun _ => false;
     pcm_read := fun _ _ _ => -1;
     realloc := fun _ _ => NULL;
     calloc := fun _ _ => NULL |}.

(** A four-channel device taking packed 24-bit samples at 48 kHz. *)
Definition quad_24bit_config : pcm_config :=
  PcmConfig.mk 4 48000 1024 4 (PCM_FORMAT_S24_3LE android_ilp32) 0 0.

Definition sample_device : audio_device := AudioDevice.mk 1 0 1 0 false.

Definition sample_hal (config : pcm_config) (valid : bool) : hal_state :=
  {| adev := sample_device;
     cached_output_hardware_config := config;
     output_hardware_config_is_cached := valid |}.

Definition sample_stream_out : stream_out := StreamOut.mk NULL true NULL 0.

Definition sample_stream_in : stream_in :=
  StreamIn.mk NULL true (default_alsa_in_config android_ilp32)
    (AudioConfig.mk 0 0 0) 44100 NULL 0 0 0.

(** A memory holding the stereo frame (0x1234, 0xABCD) and then
    (0x0001, 0x8000) at address 1000, zero elsewhere. *)
Definition sample_mem : mem :=
  fun a =>
    if a =? 1000 then x34 else if a =? 1001 then x12
    else if a =? 1002 then xcd else if a =? 1003 then xab
    else if a =? 1004 then x01 else if a =? 1005 then x00
    else if a =? 1006 then x00 else if a =? 1007 then x80
    else x00.

(** ** The rest of the HAL entry points *)

Section HalRest.

Variable P : Platform.

Definition out_set_sample_rate (rate : Z) : Z := 0.

Definition out_set_format (format : Z) : Z := 0.

Definition out_dump (fd : Z) : Z := 0.

(** [out_get_latency]: [unsigned int] arithmetic throughout. *)
Definition out_get_latency (g : hal_state) : Z :=
  to_uint
    (to_uint (PcmConfig.period_size (cached_output_hardware_config g)
              * PcmConfig.period_count (cached_output_hardware_config g))
     * 1000)
  / out_get_sample_rate g.

Definition out_set_volume : Z := - ENOSYS P.

Definition out_get_render_position : Z := - EINVAL P.

Definition out_add_audio_effect : Z := 0.

Definition out_remove_audio_effect : Z := 0.

Definition out_get_next_write_timestamp : Z := - EINVAL P.

Definition adev_set_parameters : Z := 0.

Definition adev_init_check : Z := 0.

Definition adev_set_voice_volume : Z := - ENOSYS P.

Definition adev_set_master_volume : Z := - ENOSYS P.

Definition adev_set_mode : Z := 0.

Definition adev_set_mic_mute : Z := - ENOSYS P.

Definition adev_get_mic_mute : Z := - ENOSYS P.

Definition adev_get_input_buffer_size : Z := 0.

Definition in_dump (fd : Z) : Z := 0.

Definition in_add_audio_effect : Z := 0.

Definition in_remove_audio_effect : Z := 0.

Definition adev_dump (fd : Z) : Z := 0.

(** [adev_open] with a name that [strcmp] finds equal to
    [AUDIO_HARDWARE_INTERFACE] or not, and the answer of [calloc] for the
    device: the status and the device record ([calloc] zeroes it). *)
Definition adev_open (T : Transport) (name_matches : bool) (sizeof_audio_device : Z)
    : Z * option audio_device :=
  if negb name_matches then (- EINVAL P, None)
  else if calloc T 1 sizeof_audio_device =? NULL then (- ENOMEM P, None)
  else (0, Some (AudioDevice.mk 0 0 0 0 false)).

(** The states an output stream goes through, with the transport calls
    made on its behalf so far: [adev_open_output_stream] stores it, then
    [out_write] and [out_standby] are called in any order, each time with
    whatever the transport answers and whatever the cache holds.  A write
    that faults ends the process; it appears here with the stream and the
    calls up to the fault, so the relation holds of every state the code
    reaches. *)
Inductive out_reachable : stream_out -> list event -> Prop :=
  | out_reachable_open T g config ret g' config' s :
      adev_open_output_stream P T g config = (ret, g', config', Some s) ->
      out_reachable s []
  | out_reachable_write T g m buffer bytes s trace :
      out_reachable s trace ->
      out_reachable (ow_out (out_write P T g s m buffer bytes))
        (trace ++ ow_events (out_write P T g s m buffer bytes))
  | out_reachable_standby s trace :
      out_reachable s trace ->
      out_reachable (snd (fst (out_standby s))) (trace ++ snd (out_standby s)).

End HalRest.

(** The handle an event passes to the transport, for the calls that take
    one. *)
Definition event_handle (e : event) : option Z :=
  match e with
  | EvPcmClose pcm => Some pcm
  | EvPcmWrite pcm _ _ => Some pcm
  | EvPcmRead pcm _ _ => Some pcm
  | _ => None
  end.

Definition is_pcm_close (e : event) : bool :=
  match e with EvPcmClose _ => true | _ => false end.

(** A device that hands out a handle which is never ready. *)
Definition not_ready_device : Transport :=
  {| pcm_params_get := fun _ _ _ => Some usb_dac_params;
     pcm_open := fun _ _ _ _ => 4096;
     pcm_is_ready := fun _ => false;
     pcm_read := fun _ _ _ => -1;
     realloc := fun _ _ => 65536;
     calloc := fun _ _ => 8192 |}.


(** ** Proof automation *)

(** Decides reads through stacks of [store8]s by comparing addresses. *)
Ltac mem_cases :=
  unfold store8;
  repeat match goal with
    | |- context [?a =? ?b] => destruct (Z.eqb_spec a b); try lia
    end;
  try reflexivity.

(** * Properties *)

(** ** Machine integers and memory *)

Lemma to_int_id (z : Z) : - 2147483648 <= z <= INT_MAX -> to_int z = z.
Proof.
  unfold to_int, INT_MAX. intros H.
  rewrite Z.mod_small by lia. lia.
Qed.

Lemma size_pow_ge (P : Platform) : 4294967296 <= 2 ^ size_bits P.
Proof.
  change 4294967296 with (2 ^ 32).
  apply Z.pow_le_mono_r; [lia | apply size_bits_ge].
Qed.

Lemma to_size_t_id (P : Platform) (z : Z) :
  0 <= z <= SIZE_MAX P -> to_size_t P z = z.
Proof.
  unfold to_size_t, SIZE_MAX. intros H. apply Z.mod_small. lia.
Qed.

Lemma to_size_t_int (P : Platform) (z : Z) :
  0 <= z <= INT_MAX -> to_size_t P z = z.
Proof.
  intros H. apply to_size_t_id. unfold SIZE_MAX, INT_MAX in *.
  pose proof (size_pow_ge P). lia.
Qed.

(** ** Fuel *)

Section Fuel.

Variable P : Platform.

(** The fuel [convert_16_to_24_3] gives its loop is enough: the loop
    leaves through its condition, and more fuel changes nothing. *)
Lemma convert_16_to_24_3_loop_fuel (n : Z) :
  n <= INT_MAX ->
  forall (fuel extra : nat) (i : Z) (m : mem) (dst src : Z),
    0 <= i <= n -> n - i <= Z.of_nat fuel ->
    convert_16_to_24_3_loop P (fuel + extra) n i m dst src =
    convert_16_to_24_3_loop P fuel n i m dst src.
Proof.
  intros Hn fuel extra.
  induction fuel as [|fuel IH]; intros i m dst src Hi Hfuel.
  - cbn [Nat.add convert_16_to_24_3_loop].
    destruct extra as [|extra]; [reflexivity|].
    cbn [convert_16_to_24_3_loop].
    rewrite to_size_t_int by lia.
    destruct (Z.ltb_spec i n); [lia | reflexivity].
  - cbn [Nat.add convert_16_to_24_3_loop].
    rewrite to_size_t_int by lia.
    destruct (Z.ltb_spec i n) as [Hlt|Hge]; [|reflexivity].
    rewrite to_int_id by (unfold INT_MAX in *; lia).
    apply IH; lia.
Qed.

Lemma convert_2chan16_to_4chan16_loop_fuel (n : Z) :
  n < INT_MAX ->
  forall (fuel extra : nat) (i : Z) (m : mem) (dst src : Z),
    0 <= i -> i <= n + 1 -> n - i <= Z.of_nat fuel ->
    convert_2chan16_to_4chan16_loop P (fuel + extra) n i m dst src =
    convert_2chan16_to_4chan16_loop P fuel n i m dst src.
Proof.
  intros Hn fuel extra.
  induction fuel as [|fuel IH]; intros i m dst src Hi Hin Hfuel.
  - cbn [Nat.add convert_2chan16_to_4chan16_loop].
    destruct extra as [|extra]; [reflexivity|].
    cbn [convert_2chan16_to_4chan16_loop].
    rewrite to_size_t_int by (unfold INT_MAX in *; lia).
    destruct (Z.ltb_spec i n); [lia | reflexivity].
  - cbn [Nat.add convert_2chan16_to_4chan16_loop].
    rewrite to_size_t_int by (unfold INT_MAX in *; lia).
    destruct (Z.ltb_spec i n) as [Hlt|Hge]; [|reflexivity].
    rewrite to_int_id by (unfold INT_MAX in *; lia).
    apply IH; lia.
Qed.

Lemma bits_to_alsa_format_loop_fuel (bits default_format : Z) :
  forall (fuel extra : nat) (f0 : Z),
    PCM_FORMAT_MAX P - f0 <= Z.of_nat fuel ->
    bits_to_alsa_format_loop P (fuel + extra) f0 bits default_format =
    bits_to_alsa_format_loop P fuel f0 bits default_format.
Proof.
  induction fuel as [|fuel IH]; intros extra f0 Hfuel.
  - cbn [Nat.add bits_to_alsa_format_loop].
    destruct extra as [|extra]; [reflexivity|].
    cbn [bits_to_alsa_format_loop].
    destruct (Z.ltb_spec f0 (PCM_FORMAT_MAX P)); [lia | reflexivity].
  - cbn [Nat.add bits_to_alsa_format_loop].
    destruct (Z.ltb_spec f0 (PCM_FORMAT_MAX P)); [|reflexivity].
    destruct (pcm_format_to_bits P f0 =? to_uint bits); [reflexivity|].
    apply IH. lia.
Qed.

End Fuel.

(** ** 16-bit to packed 24-bit *)

Section Widening.

Variable P : Platform.

Lemma convert_16_to_24_3_loop_spec (n in_buff out_buff : Z) :
  n <= INT_MAX ->
  in_buff <= out_buff \/ out_buff + 3 * n <= in_buff ->
  forall (fuel : nat) (i : Z) (m0 : mem),
    0 <= i <= n ->
    n - i <= Z.of_nat fuel ->
    let k := n - i in
    let m' := convert_16_to_24_3_loop P fuel n i m0
                (out_buff + 3 * k - 1) (in_buff + 2 * k - 1) in
    (forall j, 0 <= j < k ->
       m' (out_buff + 3 * j) = x00 /\
       m' (out_buff + 3 * j + 1) = m0 (in_buff + 2 * j) /\
       m' (out_buff + 3 * j + 2) = m0 (in_buff + 2 * j + 1)) /\
    (forall a, a < out_buff \/ out_buff + 3 * k <= a -> m' a = m0 a).
Proof.
  intros Hn Hsafe fuel.
  induction fuel as [|fuel IH]; intros i m0 Hi Hfuel k m'.
  - subst m'. simpl. split; [intros j Hj; lia | reflexivity].
  - subst m'. cbn [convert_16_to_24_3_loop].
    rewrite to_size_t_int by lia.
    destruct (Z.ltb_spec i n) as [Hlt|Hge].
    + rewrite to_int_id by (unfold INT_MAX in *; lia).
      set (d := out_buff + 3 * k - 1).
      set (s := in_buff + 2 * k - 1).
      set (m3 := store8 _ (d - 1 - 1) x00).
      specialize (IH (i + 1) m3 ltac:(lia) ltac:(lia)).
      cbv zeta in IH.
      replace (out_buff + 3 * (n - (i + 1)) - 1) with (d - 1 - 1 - 1) in IH by (subst d k; lia).
      replace (in_buff + 2 * (n - (i + 1)) - 1) with (s - 1 - 1) in IH by (subst s k; lia).
      destruct IH as [IHgroups IHframe].
      split.
      * intros j Hj.
        destruct (Z.eq_dec j (k - 1)) as [->|Hne].
        -- rewrite !IHframe by (subst k; lia).
           subst m3 d s k. repeat split; mem_cases; f_equal; lia.
        -- destruct (IHgroups j ltac:(subst k; lia)) as (H0 & H1 & H2).
           rewrite H0, H1, H2.
           subst m3 d s k. repeat split; mem_cases.
      * intros a Ha. rewrite IHframe by (subst k; lia).
        subst m3 d s k. mem_cases.
    + assert (k = 0) by (subst k; lia).
      split; [intros j Hj; lia | reflexivity].
Qed.

(** [convert_16_to_24_3] on buffers that do not clobber each other. *)
Lemma convert_16_to_24_3_spec (m : mem) (in_buff n out_buff : Z) :
  0 <= n -> 6 * n <= INT_MAX ->
  in_buff <= out_buff \/ out_buff + 3 * n <= in_buff ->
  let r := convert_16_to_24_3 P m in_buff n out_buff in
  snd r = 3 * n /\
  (forall j, 0 <= j < n ->
     fst r (out_buff + 3 * j) = x00 /\
     fst r (out_buff + 3 * j + 1) = m (in_buff + 2 * j) /\
     fst r (out_buff + 3 * j + 2) = m (in_buff + 2 * j + 1)) /\
  (forall a, a < out_buff \/ out_buff + 3 * n <= a -> fst r a = m a).
Proof.
  intros Hn Hmax Hsafe r. subst r. unfold convert_16_to_24_3. cbn [fst snd].
  unfold INT_MAX in Hmax.
  rewrite (to_size_t_int P (n * 2)) by (unfold INT_MAX; lia).
  rewrite (to_int_id (n * 2)) by (unfold INT_MAX; lia).
  rewrite (to_int_id (3 * (n * 2))) by (unfold INT_MAX; lia).
  replace (3 * (n * 2)) with (3 * n * 2) by lia.
  rewrite Z.quot_mul by lia.
  rewrite to_size_t_int by (unfold INT_MAX; lia).
  split; [reflexivity|].
  pose proof (convert_16_to_24_3_loop_spec n in_buff out_buff
                ltac:(unfold INT_MAX; lia) Hsafe (Z.to_nat n) 0 m
                ltac:(lia) ltac:(lia)) as H.
  cbv zeta in H. rewrite Z.sub_0_r in H.
  replace (n * 2) with (2 * n) by lia.
  exact H.
Qed.


(** C1. [convert_16_to_24_3] turns [n] 16-bit little-endian samples into
    [n] groups of three bytes and returns [3 * n], the input byte length
    [2 * n] times 3/2.  On an output buffer disjoint from the input, each
    group holds a zero low-order byte followed by the two bytes of the
    sample, so that the 24-bit value is the sample shifted by eight bits;
    and run with the output buffer equal to the input buffer it returns
    the same count and leaves the same bytes in the output.  The sizes
    are those the function's [int] locals hold. *)
Theorem convert_16_to_24_3_correct (m : mem) (in_buff n out_buff : Z) :
  0 <= n -> 6 * n <= INT_MAX ->
  out_buff + 3 * n <= in_buff \/ in_buff + 2 * n <= out_buff ->
  let separate := convert_16_to_24_3 P m in_buff n out_buff in
  let in_place := convert_16_to_24_3 P m in_buff n in_buff in
  snd separate = 3 * n /\
  2 * snd separate = 3 * (2 * n) /\
  (forall j, 0 <= j < n ->
     fst separate (out_buff + 3 * j) = x00 /\
     fst separate (out_buff + 3 * j + 1) = m (in_buff + 2 * j) /\
     fst separate (out_buff + 3 * j + 2) = m (in_buff + 2 * j + 1) /\
     load24 (fst separate) (out_buff + 3 * j) = 256 * load16 m (in_buff + 2 * j)) /\
  snd in_place = snd separate /\
  (forall a, 0 <= a < 3 * n ->
     fst in_place (in_buff + a) = fst separate (out_buff + a)).
Proof.
  intros Hn Hmax Hdisj separate in_place.
  destruct (convert_16_to_24_3_spec m in_buff n out_buff Hn Hmax ltac:(lia))
    as (Hret & Hgroups & _).
  destruct (convert_16_to_24_3_spec m in_buff n in_buff Hn Hmax ltac:(lia))
    as (Hret' & Hgroups' & _).
  fold separate in Hret, Hgroups. fold in_place in Hret', Hgroups'.
  split; [exact Hret|]. split; [lia|].
  split.
  - intros j Hj. destruct (Hgroups j Hj) as (H0 & H1 & H2).
    repeat split; try assumption.
    unfold load24, load16.
    replace (out_buff + 3 * j + 1 + 1) with (out_buff + 3 * j + 2) by lia.
    rewrite H0, H1, H2. change (byte_to_Z x00) with 0. lia.
  - split; [congruence|].
    intros a Ha.
    assert (Hj : 0 <= a / 3 < n)
      by (split; [apply Z.div_pos; lia | apply Z.div_lt_upper_bound; lia]).
    pose proof (Z.mod_pos_bound a 3 ltac:(lia)) as Hr.
    pose proof (Z.div_mod a 3 ltac:(lia)) as Ha3.
    destruct (Hgroups _ Hj) as (H0 & H1 & H2).
    destruct (Hgroups' _ Hj) as (H0' & H1' & H2').
    assert (Hcase : a mod 3 = 0 \/ a mod 3 = 1 \/ a mod 3 = 2) by lia.
    destruct Hcase as [Hc|[Hc|Hc]]; rewrite Hc in Ha3.
    + replace (in_buff + a) with (in_buff + 3 * (a / 3)) by lia.
      replace (out_buff + a) with (out_buff + 3 * (a / 3)) by lia.
      congruence.
    + replace (in_buff + a) with (in_buff + 3 * (a / 3) + 1) by lia.
      replace (out_buff + a) with (out_buff + 3 * (a / 3) + 1) by lia.
      congruence.
    + replace (in_buff + a) with (in_buff + 3 * (a / 3) + 2) by lia.
      replace (out_buff + a) with (out_buff + 3 * (a / 3) + 2) by lia.
      congruence.
Qed.

End Widening.

(** ** Stereo to four channels *)

Lemma byte_to_Z_range (b : byte) : 0 <= byte_to_Z b < 256.
Proof.
  unfold byte_to_Z. pose proof (Byte.to_N_bounded b). lia.
Qed.

Lemma Z_to_byte_to_Z (b : byte) : Z_to_byte (byte_to_Z b) = b.
Proof.
  unfold Z_to_byte. pose proof (byte_to_Z_range b) as Hb.
  rewrite Z.mod_small by exact Hb.
  unfold byte_to_Z. rewrite N2Z.id, Byte.of_to_N. reflexivity.
Qed.

Lemma Z_to_byte_mod (z : Z) : Z_to_byte (z mod 256) = Z_to_byte z.
Proof. unfold Z_to_byte. now rewrite Z.mod_mod by lia. Qed.

(** Copying a sample with [load16] and [store16] copies its two bytes. *)
Lemma store16_load16 (m m' : mem) (d s : Z) :
  store16 m d (load16 m' s) = store8 (store8 m d (m' s)) (d + 1) (m' (s + 1)).
Proof.
  unfold store16, load16.
  pose proof (byte_to_Z_range (m' s)) as H0.
  pose proof (byte_to_Z_range (m' (s + 1))) as H1.
  set (x := byte_to_Z (m' s)) in *. set (y := byte_to_Z (m' (s + 1))) in *.
  assert (Hmod : (x + 256 * y) mod 256 = x).
  { rewrite (Z.mul_comm 256), Z.mod_add by lia.
    apply Z.mod_small; lia. }
  assert (Hdiv : (x + 256 * y) / 256 = y).
  { rewrite (Z.mul_comm 256), Z.div_add by lia.
    rewrite Z.div_small by lia. lia. }
  rewrite Hdiv, <- (Z_to_byte_mod (x + 256 * y)), Hmod.
  subst x y. now rewrite !Z_to_byte_to_Z.
Qed.

Lemma store16_zero (m : mem) (d : Z) :
  store16 m d 0 = store8 (store8 m d x00) (d + 1) x00.
Proof. reflexivity. Qed.

Lemma load16_ext (m m' : mem) (p q : Z) :
  m p = m' q -> m (p + 1) = m' (q + 1) -> load16 m p = load16 m' q.
Proof. unfold load16. intros -> ->. reflexivity. Qed.

Section Expansion.

Variable P : Platform.

(** The loop invariant: with [k] frames still to convert, the loop fills
    the first [k] output frames (eight bytes each) from the first [k]
    input frames (four bytes each) and writes nowhere else. *)
Lemma convert_2chan16_to_4chan16_loop_spec (n in_buff out_buff : Z) :
  n <= INT_MAX ->
  in_buff <= out_buff \/ out_buff + 4 * n <= in_buff ->
  forall (fuel : nat) (k : Z) (m0 : mem),
    0 <= k -> 2 * k <= n ->
    k <= Z.of_nat fuel ->
    let m' := convert_2chan16_to_4chan16_loop P fuel n (n - 2 * k) m0
                (out_buff + 2 * (4 * k - 1)) (in_buff + 2 * (2 * k - 1)) in
    (forall f, 0 <= f < k ->
       (forall t, 0 <= t < 4 ->
          m' (out_buff + 8 * f + t) = m0 (in_buff + 4 * f + t)) /\
       (forall t, 4 <= t < 8 -> m' (out_buff + 8 * f + t) = x00)) /\
    (forall a, a < out_buff \/ out_buff + 8 * k <= a -> m' a = m0 a).
Proof.
  intros Hn Hsafe fuel.
  induction fuel as [|fuel IH]; intros k m0 Hk Hkn Hfuel m'.
  - subst m'. cbn [convert_2chan16_to_4chan16_loop].
    split; [intros f Hf; lia | reflexivity].
  - subst m'. cbn [convert_2chan16_to_4chan16_loop].
    rewrite to_size_t_int by lia.
    destruct (Z.ltb_spec (n - 2 * k) n) as [Hlt|Hge].
    + rewrite to_int_id by (unfold INT_MAX in *; lia).
      rewrite !store16_zero, !store16_load16.
      set (d := out_buff + 2 * (4 * k - 1)).
      set (s := in_buff + 2 * (2 * k - 1)).
      match goal with
      | |- context [convert_2chan16_to_4chan16_loop P fuel n _ ?m _ _] =>
          set (m4 := m)
      end.
      specialize (IH (k - 1) m4 ltac:(lia) ltac:(lia) ltac:(lia)).
      cbv zeta in IH.
      replace (n - 2 * (k - 1)) with (n - 2 * k + 2) in IH by lia.
      replace (out_buff + 2 * (4 * (k - 1) - 1)) with (d - 2 - 2 - 2 - 2) in IH
        by (subst d; lia).
      replace (in_buff + 2 * (2 * (k - 1) - 1)) with (s - 2 - 2) in IH
        by (subst s; lia).
      destruct IH as [IHframes IHframe].
      split.
      * intros f Hf.
        destruct (Z.eq_dec f (k - 1)) as [->|Hne].
        -- split; intros t Ht; rewrite IHframe by lia;
             subst m4 d s; mem_cases; f_equal; lia.
        -- destruct (IHframes f ltac:(lia)) as (Hcopy & Hzero).
           split; intros t Ht.
           ++ rewrite Hcopy by lia. subst m4 d s. mem_cases.
           ++ apply Hzero; lia.
      * intros a Ha. rewrite IHframe by lia.
        subst m4 d s. mem_cases.
    + assert (k = 0) by lia. subst k.
      split; [intros f Hf; lia | reflexivity].
Qed.


(** [convert_2chan16_to_4chan16] on an even number of samples and buffers
    that do not clobber each other. *)
Lemma convert_2chan16_to_4chan16_spec (m : mem) (in_buff n out_buff : Z) :
  0 <= n -> n mod 2 = 0 -> 4 * n <= INT_MAX ->
  in_buff <= out_buff \/ out_buff + 4 * n <= in_buff ->
  let r := convert_2chan16_to_4chan16 P m in_buff n out_buff in
  snd r = 4 * n /\
  (forall f, 0 <= f < n / 2 ->
     (forall t, 0 <= t < 4 ->
        fst r (out_buff + 8 * f + t) = m (in_buff + 4 * f + t)) /\
     (forall t, 4 <= t < 8 -> fst r (out_buff + 8 * f + t) = x00)) /\
  (forall a, a < out_buff \/ out_buff + 4 * n <= a -> fst r a = m a).
Proof.
  intros Hn Heven Hmax Hsafe r. subst r.
  unfold convert_2chan16_to_4chan16. cbn [fst snd].
  unfold INT_MAX in Hmax.
  pose proof (Z.div_mod n 2 ltac:(lia)) as Hn2. rewrite Heven in Hn2.
  rewrite (to_size_t_int P (n * 2)) by (unfold INT_MAX; lia).
  rewrite (to_int_id (n * 2)) by (unfold INT_MAX; lia).
  rewrite (to_int_id (n * 2 * 2)) by (unfold INT_MAX; lia).
  rewrite to_size_t_int by (unfold INT_MAX; lia).
  split; [lia|].
  pose proof (convert_2chan16_to_4chan16_loop_spec n in_buff out_buff
                ltac:(unfold INT_MAX; lia) Hsafe (Z.to_nat n) (n / 2) m
                ltac:(lia) ltac:(lia) ltac:(lia)) as H.
  cbv zeta in H.
  replace (n - 2 * (n / 2)) with 0 in H by lia.
  replace (out_buff + 2 * (4 * (n / 2) - 1)) with (out_buff + 2 * (n * 2 - 1)) in H by lia.
  replace (in_buff + 2 * (2 * (n / 2) - 1)) with (in_buff + 2 * (n - 1)) in H by lia.
  replace (out_buff + 8 * (n / 2)) with (out_buff + 4 * n) in H by lia.
  exact H.
Qed.

(** C2. On an even number [n] of interleaved stereo 16-bit samples,
    [convert_2chan16_to_4chan16] returns [4 * n] bytes, twice the input
    byte length [2 * n].  On an output buffer disjoint from the input,
    channels 1 and 2 of every output frame are the two samples of the
    input frame and channels 3 and 4 are zero; and run with the output
    buffer equal to the input buffer it returns the same count and
    leaves the same bytes in the output.  The sizes are those the
    function's [int] locals hold. *)
Theorem convert_2chan16_to_4chan16_correct (m : mem) (in_buff n out_buff : Z) :
  0 <= n -> n mod 2 = 0 -> 4 * n <= INT_MAX ->
  out_buff + 4 * n <= in_buff \/ in_buff + 2 * n <= out_buff ->
  let separate := convert_2chan16_to_4chan16 P m in_buff n out_buff in
  let in_place := convert_2chan16_to_4chan16 P m in_buff n in_buff in
  snd separate = 2 * (2 * n) /\
  (forall f, 0 <= f < n / 2 ->
     load16 (fst separate) (out_buff + 8 * f) = load16 m (in_buff + 4 * f) /\
     load16 (fst separate) (out_buff + 8 * f + 2) = load16 m (in_buff + 4 * f + 2) /\
     load16 (fst separate) (out_buff + 8 * f + 4) = 0 /\
     load16 (fst separate) (out_buff + 8 * f + 6) = 0) /\
  snd in_place = snd separate /\
  (forall a, 0 <= a < 4 * n ->
     fst in_place (in_buff + a) = fst separate (out_buff + a)).
Proof.
  intros Hn Heven Hmax Hdisj separate in_place.
  destruct (convert_2chan16_to_4chan16_spec m in_buff n out_buff
              Hn Heven Hmax ltac:(lia)) as (Hret & Hframes & _).
  destruct (convert_2chan16_to_4chan16_spec m in_buff n in_buff
              Hn Heven Hmax ltac:(lia)) as (Hret' & Hframes' & _).
  fold separate in Hret, Hframes. fold in_place in Hret', Hframes'.
  split; [lia|]. split.
  - intros f Hf. destruct (Hframes f Hf) as (Hcopy & Hzero).
    pose proof (Hcopy 0 ltac:(lia)) as C0. pose proof (Hcopy 1 ltac:(lia)) as C1.
    pose proof (Hcopy 2 ltac:(lia)) as C2. pose proof (Hcopy 3 ltac:(lia)) as C3.
    pose proof (Hzero 4 ltac:(lia)) as Z4. pose proof (Hzero 5 ltac:(lia)) as Z5.
    pose proof (Hzero 6 ltac:(lia)) as Z6. pose proof (Hzero 7 ltac:(lia)) as Z7.
    rewrite !Z.add_0_r in C0.
    repeat split.
    + apply load16_ext; [exact C0 | exact C1].
    + apply load16_ext; [exact C2|].
      replace (out_buff + 8 * f + 2 + 1) with (out_buff + 8 * f + 3) by lia.
      replace (in_buff + 4 * f + 2 + 1) with (in_buff + 4 * f + 3) by lia.
      exact C3.
    + unfold load16.
      replace (out_buff + 8 * f + 4 + 1) with (out_buff + 8 * f + 5) by lia.
      now rewrite Z4, Z5.
    + unfold load16.
      replace (out_buff + 8 * f + 6 + 1) with (out_buff + 8 * f + 7) by lia.
      now rewrite Z6, Z7.
  - split; [congruence|].
    intros a Ha.
    pose proof (Z.div_mod n 2 ltac:(lia)) as Hn2. rewrite Heven in Hn2.
    assert (Hf : 0 <= a / 8 < n / 2)
      by (split; [apply Z.div_pos; lia | apply Z.div_lt_upper_bound; lia]).
    pose proof (Z.mod_pos_bound a 8 ltac:(lia)) as Hr.
    pose proof (Z.div_mod a 8 ltac:(lia)) as Ha8.
    destruct (Hframes _ Hf) as (Hcopy & Hzero).
    destruct (Hframes' _ Hf) as (Hcopy' & Hzero').
    replace (in_buff + a) with (in_buff + 8 * (a / 8) + a mod 8) by lia.
    replace (out_buff + a) with (out_buff + 8 * (a / 8) + a mod 8) by lia.
    destruct (Z.lt_ge_cases (a mod 8) 4) as [Hlo|Hhi].
    + rewrite Hcopy, Hcopy' by lia. reflexivity.
    + rewrite Hzero, Hzero' by lia. reflexivity.
Qed.

End Expansion.

(** ** The configuration resolver *)

Lemma to_uint_to_int (z : Z) : 0 <= z < 4294967296 -> to_uint (to_int z) = z.
Proof.
  unfold to_uint, to_int. intros H.
  destruct (Z.lt_ge_cases z 2147483648) as [Hlo|Hhi].
  - rewrite (Z.mod_small (z + 2147483648)) by lia.
    rewrite Z.mod_small by lia. lia.
  - replace (z + 2147483648) with (z - 2147483648 + 1 * 4294967296) by lia.
    rewrite Z.mod_add by lia.
    rewrite (Z.mod_small (z - 2147483648)) by lia.
    replace (z - 2147483648 - 2147483648) with (z + (-1) * 4294967296) by lia.
    rewrite Z.mod_add by lia. apply Z.mod_small. lia.
Qed.

Section Resolver.

Variable P : Platform.

(** The scan of [bits_to_alsa_format], started at [f0] with every format
    below [f0] already rejected. *)
Lemma bits_to_alsa_format_loop_spec (bits default_format : Z) :
  forall (fuel : nat) (f0 : Z),
    PCM_FORMAT_S16_LE P <= f0 ->
    PCM_FORMAT_MAX P - f0 <= Z.of_nat fuel ->
    (forall g, PCM_FORMAT_S16_LE P <= g < f0 ->
               pcm_format_to_bits P g <> to_uint bits) ->
    let r := bits_to_alsa_format_loop P fuel f0 bits default_format in
    first_format_with_bits P (to_uint bits) r \/
    (no_format_with_bits P (to_uint bits) /\ r = default_format).
Proof.
  induction fuel as [|fuel IH]; intros f0 Hlo Hfuel Hbelow r; subst r;
    cbn [bits_to_alsa_format_loop].
  - right. split; [|reflexivity].
    intros g Hg. apply Hbelow. lia.
  - destruct (Z.ltb_spec f0 (PCM_FORMAT_MAX P)) as [Hlt|Hge].
    + destruct (Z.eqb_spec (pcm_format_to_bits P f0) (to_uint bits)) as [Heq|Hne].
      * left. repeat split; try assumption; try lia.
      * apply IH; [lia | lia |].
        intros g Hg. destruct (Z.eq_dec g f0) as [->|Hgf]; [exact Hne|].
        apply Hbelow. lia.
    + right. split; [|reflexivity].
      intros g Hg. apply Hbelow. lia.
Qed.

Lemma bits_to_alsa_format_spec (bits default_format : Z) :
  let r := bits_to_alsa_format P bits default_format in
  first_format_with_bits P (to_uint bits) r \/
  (no_format_with_bits P (to_uint bits) /\ r = default_format).
Proof.
  unfold bits_to_alsa_format.
  apply bits_to_alsa_format_loop_spec; [lia | lia |].
  intros g Hg. lia.
Qed.

(** When [PCM_FORMAT_S16_LE] itself has the width asked for, or no format
    has, the result is [PCM_FORMAT_S16_LE]. *)
Lemma bits_to_alsa_format_s16 (bits : Z) :
  pcm_format_to_bits P (PCM_FORMAT_S16_LE P) = to_uint bits ->
  bits_to_alsa_format P bits (PCM_FORMAT_S16_LE P) = PCM_FORMAT_S16_LE P.
Proof.
  intros H16.
  destruct (bits_to_alsa_format_spec bits (PCM_FORMAT_S16_LE P))
    as [(Hrange & _ & Hfirst) | (_ & Hr)]; [|exact Hr].
  destruct (Z.eq_dec (bits_to_alsa_format P bits (PCM_FORMAT_S16_LE P))
              (PCM_FORMAT_S16_LE P)) as [Heq|Hne]; [exact Heq|].
  exfalso. apply (Hfirst (PCM_FORMAT_S16_LE P)); [lia | exact H16].
Qed.

(** C3. With non-negative coordinates and a capability set reported,
    [read_alsa_device_config] returns 0 and stores: the minimum channel
    count, the minimum rate, the maximum of PERIODS as the period size,
    the minimum of PERIODS as the period count, and as format the first
    format from [PCM_FORMAT_S16_LE] up whose width is the minimum of
    SAMPLE_BITS, or [PCM_FORMAT_S16_LE] when there is none.  For the
    ranges rate [8000, 48000], channels [1, 4], periods [2, 8] and bits
    [16, 24], with [PCM_FORMAT_S16_LE] 16 bits wide, the result is rate
    8000, one channel, period size 8, period count 2 and
    [PCM_FORMAT_S16_LE]. *)
Theorem read_alsa_device_config_resolves (T : Transport) (card device : Z)
    (io : io_type) (config : pcm_config) (caps : pcm_params) :
  0 <= card -> 0 <= device ->
  pcm_params_get T card device io = Some caps ->
  0 <= pcm_params_get_min caps PCM_PARAM_SAMPLE_BITS < 4294967296 ->
  let r := read_alsa_device_config P T card device io config in
  fst r = 0 /\
  PcmConfig.channels (snd r) = pcm_params_get_min caps PCM_PARAM_CHANNELS /\
  PcmConfig.rate (snd r) = pcm_params_get_min caps PCM_PARAM_RATE /\
  PcmConfig.period_size (snd r) = pcm_params_get_max caps PCM_PARAM_PERIODS /\
  PcmConfig.period_count (snd r) = pcm_params_get_min caps PCM_PARAM_PERIODS /\
  (first_format_with_bits P (pcm_params_get_min caps PCM_PARAM_SAMPLE_BITS)
     (PcmConfig.format (snd r)) \/
   (no_format_with_bits P (pcm_params_get_min caps PCM_PARAM_SAMPLE_BITS) /\
    PcmConfig.format (snd r) = PCM_FORMAT_S16_LE P)) /\
  (pcm_format_to_bits P (PCM_FORMAT_S16_LE P) = 16 ->
   pcm_params_get_min caps PCM_PARAM_RATE = 8000 ->
   pcm_params_get_max caps PCM_PARAM_RATE = 48000 ->
   pcm_params_get_min caps PCM_PARAM_CHANNELS = 1 ->
   pcm_params_get_max caps PCM_PARAM_CHANNELS = 4 ->
   pcm_params_get_min caps PCM_PARAM_PERIODS = 2 ->
   pcm_params_get_max caps PCM_PARAM_PERIODS = 8 ->
   pcm_params_get_min caps PCM_PARAM_SAMPLE_BITS = 16 ->
   pcm_params_get_max caps PCM_PARAM_SAMPLE_BITS = 24 ->
   PcmConfig.rate (snd r) = 8000 /\
   PcmConfig.channels (snd r) = 1 /\
   PcmConfig.period_size (snd r) = 8 /\
   PcmConfig.period_count (snd r) = 2 /\
   PcmConfig.format (snd r) = PCM_FORMAT_S16_LE P).
Proof.
  intros Hcard Hdevice Hcaps Hbits r. subst r.
  unfold read_alsa_device_config.
  destruct (Z.ltb_spec card 0) as [Hc0|Hc0]; [lia|].
  destruct (Z.ltb_spec device 0) as [Hd0|Hd0]; [lia|].
  cbn [orb]. rewrite Hcaps. cbn [fst snd PcmConfig.channels PcmConfig.rate
    PcmConfig.period_size PcmConfig.period_count PcmConfig.format].
  repeat (split; [reflexivity|]).
  split.
  - pose proof (bits_to_alsa_format_spec
                  (to_int (pcm_params_get_min caps PCM_PARAM_SAMPLE_BITS))
                  (PCM_FORMAT_S16_LE P)) as H.
    cbv zeta in H. rewrite to_uint_to_int in H by exact Hbits. exact H.
  - intros H16 Hr _ Hc _ Hp Hpmax Hb _.
    rewrite Hr, Hc, Hp, Hpmax. repeat (split; [reflexivity|]).
    apply bits_to_alsa_format_s16.
    rewrite to_uint_to_int by exact Hbits. rewrite Hb. exact H16.
Qed.

(** C7, as the code has it.  [read_alsa_device_config] returns [-EINVAL]
    when the card or the device is negative, and the same [-EINVAL] when
    the transport reports no capability set; in both cases the
    configuration record is left as it was. *)
Theorem read_alsa_device_config_fails (T : Transport) (card device : Z)
    (io : io_type) (config : pcm_config) :
  card < 0 \/ device < 0 \/ pcm_params_get T card device io = None ->
  read_alsa_device_config P T card device io config = (- EINVAL P, config) /\
  - EINVAL P <> 0.
Proof.
  intros H. split.
  - unfold read_alsa_device_config.
    destruct (Z.ltb_spec card 0) as [Hc0|Hc0]; [reflexivity|].
    destruct (Z.ltb_spec device 0) as [Hd0|Hd0]; [reflexivity|].
    cbn [orb]. destruct H as [H|[H|H]]; [lia | lia |].
    rewrite H. reflexivity.
  - pose proof (errno_positive P). lia.
Qed.

End Resolver.

(** The resolver on the sample device. *)
Lemma read_alsa_device_config_resolves_witness :
  (0 <= 1 /\ 0 <= 0 /\
   pcm_params_get usb_dac 1 0 PCM_OUT = Some usb_dac_params /\
   0 <= pcm_params_get_min usb_dac_params PCM_PARAM_SAMPLE_BITS < 4294967296) /\
  let r := read_alsa_device_config android_ilp32 usb_dac 1 0 PCM_OUT
             (default_alsa_out_config android_ilp32) in
  fst r = 0 /\
  PcmConfig.rate (snd r) = 8000 /\
  PcmConfig.channels (snd r) = 1 /\
  PcmConfig.period_size (snd r) = 8 /\
  PcmConfig.period_count (snd r) = 2 /\
  PcmConfig.format (snd r) = PCM_FORMAT_S16_LE android_ilp32.
Proof.
  assert (Hhyp : 0 <= 1 /\ 0 <= 0 /\
     pcm_params_get usb_dac 1 0 PCM_OUT = Some usb_dac_params /\
     0 <= pcm_params_get_min usb_dac_params PCM_PARAM_SAMPLE_BITS < 4294967296).
  { repeat split; try reflexivity; cbn; lia. }
  split; [exact Hhyp|].
  destruct Hhyp as (H1 & H2 & H3 & H4).
  pose proof (read_alsa_device_config_resolves android_ilp32 usb_dac 1 0 PCM_OUT
                (default_alsa_out_config android_ilp32) usb_dac_params
                H1 H2 H3 H4) as H.
  cbv zeta in H. destruct H as (Hret & _ & _ & _ & _ & _ & Hexample).
  split; [exact Hret|].
  apply Hexample; reflexivity.
Defined.

(** C7 as stated fails: with no capability set reported the resolver
    returns the very code it returns for a negative card, [-EINVAL]. *)
Lemma read_alsa_device_config_errors_not_distinct :
  fst (read_alsa_device_config android_ilp32 no_device 0 0 PCM_OUT
         (default_alsa_out_config android_ilp32))
  = - EINVAL android_ilp32 /\
  fst (read_alsa_device_config android_ilp32 no_device (-1) 0 PCM_OUT
         (default_alsa_out_config android_ilp32))
  = - EINVAL android_ilp32 /\
  ~ (fst (read_alsa_device_config android_ilp32 no_device 0 0 PCM_OUT
            (default_alsa_out_config android_ilp32))
     <> fst (read_alsa_device_config android_ilp32 no_device (-1) 0 PCM_OUT
               (default_alsa_out_config android_ilp32))).
Proof.
  repeat split. intros H. apply H. reflexivity.
Qed.

Lemma read_alsa_device_config_fails_witness :
  (0 < 0 \/ 0 < 0 \/ pcm_params_get no_device 0 0 PCM_IN = None) /\
  read_alsa_device_config android_ilp32 no_device 0 0 PCM_IN
    (default_alsa_in_config android_ilp32)
  = (- 22, default_alsa_in_config android_ilp32).
Proof.
  assert (Hhyp : 0 < 0 \/ 0 < 0 \/ pcm_params_get no_device 0 0 PCM_IN = None)
    by (right; right; reflexivity).
  split; [exact Hhyp|].
  exact (proj1 (read_alsa_device_config_fails android_ilp32 no_device 0 0 PCM_IN
                  (default_alsa_in_config android_ilp32) Hhyp)).
Defined.

(** ** The output stream *)

Lemma to_ssize_t_id (P : Platform) (z : Z) :
  0 <= z <= SSIZE_MAX P -> to_ssize_t P z = z.
Proof.
  unfold to_ssize_t, SSIZE_MAX. intros H.
  pose proof (size_bits_ge P) as Hsb.
  replace (2 ^ size_bits P) with (2 * 2 ^ (size_bits P - 1)).
  - rewrite Z.mod_small by lia. lia.
  - rewrite <- Z.pow_succ_r by lia. f_equal. lia.
Qed.

Section OutputStream.

Variable P : Platform.

Lemma ENOMEM_nonzero : (- ENOMEM P =? 0) = false.
Proof. pose proof (errno_positive P). apply Z.eqb_neq. lia. Qed.

(** What [start_output_stream] does when the transport accepts the open. *)
Lemma start_output_stream_ok (T : Transport) (g : hal_state) (out : stream_out) :
  open_succeeds T g ->
  let card := AudioDevice.out_card (adev g) in
  let device := AudioDevice.out_device (adev g) in
  let config := cached_output_hardware_config g in
  let size := to_size_t P (to_size_t P (out_get_buffer_size P g * 3) * 2) / 2 in
  start_output_stream P T g out =
    (0,
     StreamOut.mk (pcm_open T card device PCM_OUT config) (StreamOut.standby out)
       (realloc T (StreamOut.conversion_buffer out) size) size,
     [EvPcmOpen card device PCM_OUT config;
      EvRealloc (StreamOut.conversion_buffer out) size]).
Proof.
  unfold open_succeeds. cbv zeta. intros [Hpcm Hready].
  unfold start_output_stream. cbv zeta.
  destruct (Z.eqb_spec (pcm_open T (AudioDevice.out_card (adev g))
              (AudioDevice.out_device (adev g)) PCM_OUT
              (cached_output_hardware_config g)) NULL) as [Heq|_];
    [contradiction|].
  rewrite Hready. reflexivity.
Qed.

(** What it does when the transport refuses: the status is [-ENOMEM], the
    stream keeps its standby flag and its conversion buffer, and nothing
    is written or allocated. *)
Lemma start_output_stream_fails (T : Transport) (g : hal_state) (out : stream_out) :
  open_fails T g ->
  exists pcm opened,
    start_output_stream P T g out =
      (- ENOMEM P,
       StreamOut.mk pcm (StreamOut.standby out)
         (StreamOut.conversion_buffer out) (StreamOut.conversion_buffer_size out),
       opened) /\
    filter is_pcm_write opened = [] /\
    filter is_usleep opened = [] /\
    filter is_realloc opened = [].
Proof.
  unfold open_fails. cbv zeta. intros Hfail.
  unfold start_output_stream. cbv zeta.
  destruct (Z.eqb_spec (pcm_open T (AudioDevice.out_card (adev g))
              (AudioDevice.out_device (adev g)) PCM_OUT
              (cached_output_hardware_config g)) NULL) as [Heq|Hne].
  - eexists _, _. split; [reflexivity|]. repeat split.
  - destruct Hfail as [Hnull|Hnr]; [contradiction|].
    rewrite Hnr. eexists _, _. split; [reflexivity|]. repeat split.
Qed.

(** The active part of [out_write] returns the count unless a converter
    stores through a null conversion buffer; it leaves the stream record
    alone and makes at most one call, a [pcm_write] on the stream's
    handle. *)
Lemma out_write_active_shape (g : hal_state) (out : stream_out) (m : mem)
    (buffer bytes : Z) (before : list event) :
  let r := out_write_active P g out m buffer bytes before in
  (ow_ret r = Returns (to_ssize_t P bytes) \/ ow_ret r = Faults NullStore) /\
  ow_out r = out /\
  exists written,
    ow_events r = before ++ written /\
    (written = [] \/
     exists data count, written = [EvPcmWrite (StreamOut.pcm out) data count]).
Proof.
  unfold out_write_active. cbv zeta.
  repeat match goal with
    | |- context [if ?c then _ else _] => destruct c
    end;
    cbn [ow_ret ow_out ow_events];
    (split; [auto|]; split; [reflexivity|]);
    first
      [ exists []; split; [symmetry; apply app_nil_r | left; reflexivity]
      | eexists; (split; [reflexivity|]);
        solve [left; reflexivity | right; eexists _, _; reflexivity] ].
Qed.

(** The [err:] exit leaves the stream record and the memory alone and
    makes at most one call, a [usleep]. *)
Lemma out_write_err_shape (g : hal_state) (out : stream_out) (m : mem)
    (bytes ret : Z) (before : list event) :
  let r := out_write_err P g out m bytes ret before in
  ow_out r = out /\
  ow_mem r = m /\
  exists slept,
    ow_events r = before ++ slept /\
    (slept = [] \/ exists usec, slept = [EvUsleep usec]).
Proof.
  unfold out_write_err. cbv zeta.
  repeat match goal with
    | |- context [if ?c then _ else _] => destruct c
    end;
    cbn [ow_out ow_mem ow_events];
    (split; [reflexivity|]; split; [reflexivity|]);
    first
      [ exists []; split; [symmetry; apply app_nil_r | left; reflexivity]
      | eexists; (split; [reflexivity|]); right; eexists; reflexivity ].
Qed.

(** With a conversion buffer that is not null the active part of
    [out_write] returns. *)
Lemma out_write_active_returns (g : hal_state) (out : stream_out) (m : mem)
    (buffer bytes : Z) (before : list event) :
  StreamOut.conversion_buffer out <> NULL ->
  ow_ret (out_write_active P g out m buffer bytes before)
  = Returns (to_ssize_t P bytes).
Proof.
  intros Hcb. unfold out_write_active, stores_through_null. cbv zeta.
  destruct (Z.eqb_spec (StreamOut.conversion_buffer out) NULL) as [Heq|_];
    [contradiction|].
  cbn [andb]. rewrite !andb_false_r.
  repeat match goal with
    | |- context [if ?c then _ else _] => destruct c
    end; reflexivity.
Qed.

(** How [out_write] ends.  On a stream that is or becomes active it never
    sleeps, and it returns the byte count it was given unless a converter
    stores through a null conversion buffer.  When the transport refuses
    the open the stream stays in standby and nothing is written; the call
    is then stopped by the division when the frame size or the rate is
    zero, and otherwise returns the count after one [usleep] of
    [bytes * 1000000 / frame_size / sample_rate] microseconds, computed
    in [size_t].  The count is one the return type [ssize_t] can hold. *)
Lemma out_write_outcome (T : Transport) (g : hal_state)
    (out : stream_out) (m : mem) (buffer bytes : Z) :
  0 <= bytes <= SSIZE_MAX P ->
  let r := out_write P T g out m buffer bytes in
  (StreamOut.standby out = false \/ open_succeeds T g ->
   (ow_ret r = Returns bytes \/ ow_ret r = Faults NullStore) /\
   (StreamOut.conversion_buffer (ow_out r) <> NULL -> ow_ret r = Returns bytes) /\
   filter is_usleep (ow_events r) = []) /\
  (StreamOut.standby out = true -> open_fails T g ->
   StreamOut.standby (ow_out r) = true /\
   ow_mem r = m /\
   filter is_pcm_write (ow_events r) = [] /\
   (out_frame_size P = 0 \/ out_get_sample_rate g = 0 ->
    ow_ret r = Faults DivideByZero /\ filter is_usleep (ow_events r) = []) /\
   (out_frame_size P <> 0 -> out_get_sample_rate g <> 0 ->
    ow_ret r = Returns bytes /\
    filter is_usleep (ow_events r) =
      [EvUsleep (to_size_t P (bytes * 1000000) / out_frame_size P
                 / out_get_sample_rate g)] /\
    (bytes * 1000000 <= SIZE_MAX P ->
     filter is_usleep (ow_events r) =
       [EvUsleep (bytes * 1000000 / out_frame_size P / out_get_sample_rate g)]))).
Proof.
  intros Hbytes r.
  pose proof (to_ssize_t_id P bytes Hbytes) as Hid.
  assert (Hact : forall o before,
            filter is_usleep before = [] ->
            let a := out_write_active P g o m buffer bytes before in
            (ow_ret a = Returns bytes \/ ow_ret a = Faults NullStore) /\
            (StreamOut.conversion_buffer (ow_out a) <> NULL -> ow_ret a = Returns bytes) /\
            filter is_usleep (ow_events a) = []).
  { intros o before Hb a.
    destruct (out_write_active_shape g o m buffer bytes before)
      as (Hret & Hout & written & Hev & Hw).
    fold a in Hret, Hout, Hev.
    rewrite Hid in Hret. split; [exact Hret|]. split.
    - rewrite Hout. intros Hcb. subst a.
      rewrite (out_write_active_returns g o m buffer bytes before Hcb).
      now rewrite Hid.
    - rewrite Hev, filter_app, Hb.
      destruct Hw as [->|(data & count & ->)]; reflexivity. }
  split.
  - intros Hactive. subst r. unfold out_write.
    destruct (StreamOut.standby out) eqn:Hsb.
    + destruct Hactive as [Hf|Hok]; [discriminate|].
      rewrite (start_output_stream_ok T g out Hok). cbn [negb Z.eqb].
      apply Hact. reflexivity.
    + apply Hact. reflexivity.
  - intros Hsb Hfail. subst r. unfold out_write. rewrite Hsb.
    destruct (start_output_stream_fails T g out Hfail)
      as (pcm & opened & Hstart & Hnw & Hns & _).
    rewrite Hstart, ENOMEM_nonzero. cbn [negb].
    unfold out_write_err. rewrite ENOMEM_nonzero. cbn [negb].
    destruct (Z.eqb_spec (out_frame_size P) 0) as [Hfs|Hfs];
      destruct (Z.eqb_spec (out_get_sample_rate g) 0) as [Hrate|Hrate];
      cbn [orb ow_ret ow_out ow_mem ow_events StreamOut.standby];
      rewrite ?filter_app, ?Hnw, ?Hns; cbn [filter is_pcm_write is_usleep app];
      (split; [exact Hsb|]); (split; [reflexivity|]); (split; [reflexivity|]);
      split; try (intros; split; reflexivity); try (intros; contradiction);
      try (intros [?|?]; contradiction).
    intros _ _. rewrite Hid. split; [reflexivity|]. split; [reflexivity|].
    intros Hnowrap. rewrite to_size_t_id by lia. reflexivity.
Qed.


(** C6. A write on a stream in standby whose open the transport accepts
    opens the transport once, with the cached configuration, reallocates
    the conversion buffer once and leaves the stream active; a write on
    an active stream opens nothing, allocates nothing and leaves the
    stream record as it is; [out_standby] closes the handle of an active
    stream and puts it in standby, does nothing to a stream in standby,
    and so does nothing when called a second time. *)
Theorem out_write_activates_once :
  (forall (T : Transport) (g : hal_state) (out : stream_out) (m : mem)
          (buffer bytes : Z),
     StreamOut.standby out = true -> open_succeeds T g ->
     let r := out_write P T g out m buffer bytes in
     let card := AudioDevice.out_card (adev g) in
     let device := AudioDevice.out_device (adev g) in
     let config := cached_output_hardware_config g in
     let size := to_size_t P (to_size_t P (out_get_buffer_size P g * 3) * 2) / 2 in
     ow_out r =
       StreamOut.mk (pcm_open T card device PCM_OUT config) false
         (realloc T (StreamOut.conversion_buffer out) size) size /\
     filter is_pcm_open (ow_events r) = [EvPcmOpen card device PCM_OUT config] /\
     filter is_realloc (ow_events r) =
       [EvRealloc (StreamOut.conversion_buffer out) size] /\
     forall (T' : Transport) (g' : hal_state) (m' : mem) (buffer' bytes' : Z),
       let r' := out_write P T' g' (ow_out r) m' buffer' bytes' in
       ow_out r' = ow_out r /\
       filter is_pcm_open (ow_events r') = [] /\
       filter is_realloc (ow_events r') = []) /\
  (forall (T : Transport) (g : hal_state) (out : stream_out) (m : mem)
          (buffer bytes : Z),
     StreamOut.standby out = false ->
     let r := out_write P T g out m buffer bytes in
     ow_out r = out /\
     filter is_pcm_open (ow_events r) = [] /\
     filter is_realloc (ow_events r) = []) /\
  (forall out : stream_out,
     (StreamOut.standby out = false ->
      out_standby out =
        (0,
         StreamOut.mk NULL true (StreamOut.conversion_buffer out)
           (StreamOut.conversion_buffer_size out),
         [EvPcmClose (StreamOut.pcm out)])) /\
     (StreamOut.standby out = true -> out_standby out = (0, out, [])) /\
     out_standby (snd (fst (out_standby out))) =
       (0, snd (fst (out_standby out)), [])).
Proof.
  assert (Hactive :
    forall (T : Transport) (g : hal_state) (out : stream_out) (m : mem)
           (buffer bytes : Z),
      StreamOut.standby out = false ->
      let r := out_write P T g out m buffer bytes in
      ow_out r = out /\
      filter is_pcm_open (ow_events r) = [] /\
      filter is_realloc (ow_events r) = []).
  { intros T g out m buffer bytes Hsb r. subst r. unfold out_write. rewrite Hsb.
    destruct (out_write_active_shape g out m buffer bytes [])
      as (_ & Hout & written & Hev & Hw).
    rewrite Hout, Hev.
    destruct Hw as [->|(data & count & ->)]; repeat split. }
  split; [|split; [exact Hactive|]].
  - intros T g out m buffer bytes Hsb Hok r card device config size.
    assert (Hr : ow_out r =
                 StreamOut.mk (pcm_open T card device PCM_OUT config) false
                   (realloc T (StreamOut.conversion_buffer out) size) size /\
                 filter is_pcm_open (ow_events r) =
                   [EvPcmOpen card device PCM_OUT config] /\
                 filter is_realloc (ow_events r) =
                   [EvRealloc (StreamOut.conversion_buffer out) size]).
    { subst r. unfold out_write. rewrite Hsb.
      rewrite (start_output_stream_ok T g out Hok). cbn [negb Z.eqb].
      cbn [StreamOut.pcm StreamOut.conversion_buffer StreamOut.conversion_buffer_size].
      match goal with
      | |- context [out_write_active P g ?o m buffer bytes ?b] =>
          destruct (out_write_active_shape g o m buffer bytes b)
            as (_ & Hout & written & Hev & Hw)
      end.
      rewrite Hout, Hev, !filter_app.
      destruct Hw as [->|(data & count & ->)]; repeat split. }
    destruct Hr as (Hout & Hopen & Hrealloc).
    repeat split; try assumption;
      apply Hactive; rewrite Hout; reflexivity.
  - intros out. unfold out_standby.
    destruct (StreamOut.standby out) eqn:Hsb; cbn [negb fst snd].
    + repeat split; try discriminate. now rewrite Hsb.
    + repeat split; discriminate.
Qed.

End OutputStream.

Section EndToEnd.

Variable P : Platform.

Lemma pcm_format_s24_3le_not_s16 : PCM_FORMAT_S24_3LE P <> PCM_FORMAT_S16_LE P.
Proof.
  pose proof (pcm_format_distinct P) as H.
  inversion H as [|? ? Hnotin _]. subst.
  intros Heq. apply Hnotin. rewrite <- Heq. cbn. auto.
Qed.

Lemma convert_2chan16_to_4chan16_ret (m : mem) (in_buff n out_buff : Z) :
  0 <= n -> 4 * n <= INT_MAX ->
  snd (convert_2chan16_to_4chan16 P m in_buff n out_buff) = 4 * n.
Proof.
  intros Hn Hmax. unfold convert_2chan16_to_4chan16. cbn [snd].
  unfold INT_MAX in Hmax.
  rewrite (to_size_t_int P (n * 2)) by (unfold INT_MAX; lia).
  rewrite (to_int_id (n * 2)) by (unfold INT_MAX; lia).
  rewrite (to_int_id (n * 2 * 2)) by (unfold INT_MAX; lia).
  rewrite to_size_t_int by (unfold INT_MAX; lia). lia.
Qed.

Lemma convert_16_to_24_3_ret (m : mem) (in_buff n out_buff : Z) :
  0 <= n -> 6 * n <= INT_MAX ->
  snd (convert_16_to_24_3 P m in_buff n out_buff) = 3 * n.
Proof.
  intros Hn Hmax. unfold convert_16_to_24_3. cbn [snd].
  unfold INT_MAX in Hmax.
  rewrite (to_size_t_int P (n * 2)) by (unfold INT_MAX; lia).
  rewrite (to_int_id (n * 2)) by (unfold INT_MAX; lia).
  rewrite (to_int_id (3 * (n * 2))) by (unfold INT_MAX; lia).
  replace (3 * (n * 2)) with (3 * n * 2) by lia.
  rewrite Z.quot_mul by lia.
  apply to_size_t_int. unfold INT_MAX. lia.
Qed.

(** [start_output_stream] keeps the standby flag and writes nothing. *)
Lemma start_output_stream_frame (T : Transport) (g : hal_state) (out : stream_out) :
  StreamOut.standby (snd (fst (start_output_stream P T g out))) = StreamOut.standby out /\
  filter is_pcm_write (snd (start_output_stream P T g out)) = [].
Proof.
  unfold start_output_stream. cbv zeta.
  repeat match goal with
    | |- context [if ?c then _ else _] => destruct c
    end; split; reflexivity.
Qed.




End EndToEnd.

(** ** The input stream *)

Section InputStream.

Variable P : Platform.

Lemma SSIZE_MAX_nonneg : 0 <= SSIZE_MAX P.
Proof.
  unfold SSIZE_MAX. pose proof (size_bits_ge P).
  pose proof (Z.pow_pos_nonneg 2 (size_bits P - 1) ltac:(lia) ltac:(lia)). lia.
Qed.

(** C8. [in_read] makes exactly one call, [pcm_read] on the stream's
    handle with the caller's buffer and count, and returns the count when
    that call returns zero and 0 otherwise.  The count is one the return
    type [ssize_t] can hold. *)
Theorem in_read_all_or_nothing (T : Transport) (s : stream_in) (buffer bytes : Z) :
  0 <= bytes <= SSIZE_MAX P ->
  let r := in_read P T s buffer bytes in
  (pcm_read T (StreamIn.pcm s) buffer bytes = 0 -> fst r = bytes) /\
  (pcm_read T (StreamIn.pcm s) buffer bytes <> 0 -> fst r = 0) /\
  snd r = [EvPcmRead (StreamIn.pcm s) buffer bytes].
Proof.
  intros Hbytes r. subst r. unfold in_read. cbn [fst snd].
  repeat split.
  - intros ->. cbn [Z.eqb]. apply to_ssize_t_id. exact Hbytes.
  - intros Herr.
    destruct (Z.eqb_spec (pcm_read T (StreamIn.pcm s) buffer bytes) 0) as [H0|_];
      [contradiction|].
    apply to_ssize_t_id. pose proof SSIZE_MAX_nonneg. lia.
Qed.

(** [adev_open_input_stream] stores a stream whose handle is null. *)
Lemma adev_open_input_stream_pcm (T : Transport) (hal_config hal_config' : audio_config)
    (ret : Z) (s : stream_in) :
  adev_open_input_stream P T hal_config = (ret, hal_config', Some s) ->
  StreamIn.pcm s = NULL.
Proof.
  unfold adev_open_input_stream.
  destruct (calloc T 1 (sizeof_stream_in P) =? NULL); [discriminate|].
  intros H. injection H as _ _ <-. reflexivity.
Qed.

(** No call on an input stream assigns its handle. *)
Lemma in_dispatch_pcm (T : Transport) (c : in_call) (d : audio_device) (s : stream_in) :
  StreamIn.pcm (snd (in_dispatch P T c (d, s))) = StreamIn.pcm s.
Proof.
  destruct c; try reflexivity.
  cbn [in_dispatch fst snd]. unfold in_set_parameters.
  repeat match goal with
    | |- context [match ?o with Some _ => _ | None => _ end] => destruct o
    end;
    cbn [AudioDevice.in_card AudioDevice.in_device];
    match goal with
    | |- context [if ?c then _ else _] => destruct c
    end; reflexivity.
Qed.

(** C9. The handle of an input stream is null from the moment
    [adev_open_input_stream] stores the stream and after every sequence
    of calls on it, so every [in_read] calls [pcm_read] with a null
    handle. *)
Theorem in_stream_pcm_always_null (s : stream_in) :
  in_reachable P s ->
  StreamIn.pcm s = NULL /\
  forall (T : Transport) (buffer bytes : Z),
    snd (in_read P T s buffer bytes) = [EvPcmRead NULL buffer bytes].
Proof.
  intros Hreach.
  assert (Hnull : StreamIn.pcm s = NULL).
  { induction Hreach as [T hal_config ret hal_config' s Hopen | T c d s _ IH].
    - exact (adev_open_input_stream_pcm T hal_config hal_config' ret s Hopen).
    - rewrite in_dispatch_pcm. exact IH. }
  split; [exact Hnull|].
  intros T buffer bytes. unfold in_read. cbn [snd]. now rewrite Hnull.
Qed.

End InputStream.

(** ** The output configuration cache *)

Section Cache.

Variable P : Platform.

(** C10, as the code has it.  [adev_open_output_stream] never touches the
    device record or the validity flag.  When the stream object cannot be
    allocated it returns [-ENOMEM] and leaves the cache as it is.  When
    it is allocated and the flag is false, the cached configuration
    becomes the default one (two channels, 44100 Hz, period size 1024,
    period count 4, [PCM_FORMAT_S16_LE]) and the flag stays false; when
    the flag is true the cached configuration is left as it is. *)
Theorem adev_open_output_stream_cache (T : Transport) (g : hal_state)
    (config : audio_config) :
  let r := adev_open_output_stream P T g config in
  let g' := snd (fst (fst r)) in
  adev g' = adev g /\
  output_hardware_config_is_cached g' = output_hardware_config_is_cached g /\
  (calloc T 1 (sizeof_stream_out P) = NULL ->
   r = (- ENOMEM P, g, config, None)) /\
  (calloc T 1 (sizeof_stream_out P) <> NULL ->
   output_hardware_config_is_cached g = false ->
   cached_output_hardware_config g' = default_alsa_out_config P) /\
  (output_hardware_config_is_cached g = true ->
   cached_output_hardware_config g' = cached_output_hardware_config g) /\
  default_alsa_out_config P = PcmConfig.mk 2 44100 1024 4 (PCM_FORMAT_S16_LE P) 0 0.
Proof.
  cbv zeta. unfold adev_open_output_stream.
  destruct (Z.eqb_spec (calloc T 1 (sizeof_stream_out P)) NULL) as [Hnull|Hok].
  - cbn [fst snd]. repeat split; auto. intros; contradiction.
  - destruct (output_hardware_config_is_cached g) eqn:Hflag; cbn [fst snd].
    + repeat split; auto; try discriminate. intros; contradiction.
    + repeat split; auto; try discriminate. intros; contradiction.
Qed.

End Cache.

(** C10 as stated fails: with the flag false and no memory for the
    stream object, the cached configuration is not overwritten with the
    default one. *)
Lemma adev_open_output_stream_keeps_cache_when_calloc_fails :
  output_hardware_config_is_cached (sample_hal quad_24bit_config false) = false /\
  cached_output_hardware_config
    (snd (fst (fst (adev_open_output_stream android_ilp32 no_device
                      (sample_hal quad_24bit_config false)
                      (AudioConfig.mk 44100 3 1)))))
  = quad_24bit_config /\
  quad_24bit_config <> default_alsa_out_config android_ilp32.
Proof.
  repeat split. discriminate.
Qed.

(** ** Examples on the sample target *)

(** Four samples widened from address 1000 to address 2000, and in place. *)
Lemma convert_16_to_24_3_example :
  (0 <= 4 /\ 6 * 4 <= INT_MAX /\
   (2000 + 3 * 4 <= 1000 \/ 1000 + 2 * 4 <= 2000)) /\
  let separate := convert_16_to_24_3 android_ilp32 sample_mem 1000 4 2000 in
  let in_place := convert_16_to_24_3 android_ilp32 sample_mem 1000 4 1000 in
  snd separate = 12 /\
  fst separate 2000 = x00 /\
  fst separate 2001 = x34 /\
  fst separate 2002 = x12 /\
  load24 (fst separate) 2003 = 256 * 43981 /\
  snd in_place = 12 /\
  fst in_place 1001 = x34.
Proof.
  assert (Hhyp : 0 <= 4 /\ 6 * 4 <= INT_MAX /\
                 (2000 + 3 * 4 <= 1000 \/ 1000 + 2 * 4 <= 2000))
    by (unfold INT_MAX; lia).
  split; [exact Hhyp|].
  destruct Hhyp as (H1 & H2 & H3).
  pose proof (convert_16_to_24_3_correct android_ilp32 sample_mem 1000 4 2000
                H1 H2 H3) as H.
  cbv zeta in H. destruct H as (Hret & _ & Hgroups & Hret' & Hsame).
  destruct (Hgroups 0 ltac:(lia)) as (G0 & G1 & G2 & _).
  destruct (Hgroups 1 ltac:(lia)) as (_ & _ & _ & G24).
  cbv zeta.
  exact (conj Hret (conj G0 (conj G1 (conj G2 (conj G24
          (conj (eq_trans Hret' Hret)
                (eq_trans (Hsame 1 ltac:(lia)) G1))))))).
Defined.

(** Two stereo frames expanded from address 1000 to address 2000, and in
    place. *)
Lemma convert_2chan16_to_4chan16_example :
  (0 <= 4 /\ 4 mod 2 = 0 /\ 4 * 4 <= INT_MAX /\
   (2000 + 4 * 4 <= 1000 \/ 1000 + 2 * 4 <= 2000)) /\
  let separate := convert_2chan16_to_4chan16 android_ilp32 sample_mem 1000 4 2000 in
  let in_place := convert_2chan16_to_4chan16 android_ilp32 sample_mem 1000 4 1000 in
  snd separate = 16 /\
  load16 (fst separate) 2000 = 4660 /\
  load16 (fst separate) 2002 = 43981 /\
  load16 (fst separate) 2004 = 0 /\
  load16 (fst separate) 2006 = 0 /\
  load16 (fst separate) 2008 = 1 /\
  snd in_place = 16 /\
  fst in_place 1008 = fst separate 2008.
Proof.
  assert (Hhyp : 0 <= 4 /\ 4 mod 2 = 0 /\ 4 * 4 <= INT_MAX /\
                 (2000 + 4 * 4 <= 1000 \/ 1000 + 2 * 4 <= 2000))
    by (unfold INT_MAX; repeat split; try reflexivity; lia).
  split; [exact Hhyp|].
  destruct Hhyp as (H1 & H2 & H3 & H4).
  pose proof (convert_2chan16_to_4chan16_correct android_ilp32 sample_mem 1000 4 2000
                H1 H2 H3 H4) as H.
  cbv zeta in H. destruct H as (Hret & Hframes & Hret' & Hsame).
  destruct (Hframes 0 ltac:(cbn; lia)) as (F0 & F1 & F2 & F3).
  destruct (Hframes 1 ltac:(cbn; lia)) as (F4 & _).
  cbv zeta.
  exact (conj Hret (conj F0 (conj F1 (conj F2 (conj F3 (conj F4
          (conj (eq_trans Hret' Hret) (Hsame 8 ltac:(lia))))))))).
Defined.

(** A write of 4096 bytes when nothing opens: the count comes back, the
    stream stays in standby and the call sleeps for 23219 microseconds,
    the playback time of 1024 stereo frames at 44100 Hz. *)
Lemma out_write_outcome_example :
  0 <= 4096 <= SSIZE_MAX android_ilp32 /\
  let g := sample_hal (default_alsa_out_config android_ilp32) false in
  let r := out_write android_ilp32 no_device g sample_stream_out sample_mem 1000 4096 in
  ow_ret r = Returns 4096 /\
  StreamOut.standby (ow_out r) = true /\
  filter is_usleep (ow_events r) = [EvUsleep 23219].
Proof.
  assert (Hhyp : 0 <= 4096 <= SSIZE_MAX android_ilp32)
    by (unfold SSIZE_MAX; cbn; lia).
  split; [exact Hhyp|].
  pose proof (out_write_outcome android_ilp32 no_device
                (sample_hal (default_alsa_out_config android_ilp32) false)
                sample_stream_out sample_mem 1000 4096 Hhyp) as H.
  cbv zeta in H. destruct H as (_ & Hfail).
  destruct (Hfail eq_refl (or_introl eq_refl)) as (Hsb & _ & _ & _ & Hsleep).
  assert (Hfs : out_frame_size android_ilp32 <> 0) by (vm_compute; discriminate).
  assert (Hrate : out_get_sample_rate
                    (sample_hal (default_alsa_out_config android_ilp32) false) <> 0)
    by (vm_compute; discriminate).
  destruct (Hsleep Hfs Hrate) as (Hret & _ & Hdur).
  assert (Hnowrap : 4096 * 1000000 <= SIZE_MAX android_ilp32)
    by (unfold SIZE_MAX; cbn; lia).
  cbv zeta.
  exact (conj Hret (conj Hsb (Hdur Hnowrap))).
Defined.

(** C4. On the 32-bit target the sleep of a refused write is not the
    playback time of the bytes it dropped.  A write of 8192 bytes of
    stereo 16-bit frames at 44100 Hz on a stream in standby whose open the
    transport refuses returns 8192 and leaves the stream in standby, but
    it sleeps for 22092 microseconds where the playback time
    [8192 * 1000000 / 4 / 44100] is 46439: the product [bytes * 1000000]
    does not fit the 32-bit [size_t] and wraps. *)
Theorem out_write_sleep_wraps :
  let g := sample_hal (default_alsa_out_config android_ilp32) false in
  let r := out_write android_ilp32 no_device g sample_stream_out sample_mem 1000 8192 in
  StreamOut.standby sample_stream_out = true /\
  open_fails no_device g /\
  out_frame_size android_ilp32 = 4 /\
  out_get_sample_rate g = 44100 /\
  8192 * 1000000 / out_frame_size android_ilp32 / out_get_sample_rate g = 46439 /\
  SIZE_MAX android_ilp32 < 8192 * 1000000 /\
  ow_ret r = Returns 8192 /\
  StreamOut.standby (ow_out r) = true /\
  filter is_usleep (ow_events r) = [EvUsleep 22092].
Proof.
  cbv zeta.
  split; [reflexivity|].
  split; [left; reflexivity|].
  repeat (split; [vm_compute; reflexivity|]).
  vm_compute. reflexivity.
Qed.


(** The first write opens the device and allocates 12288 bytes; the
    second opens nothing; standby closes the handle. *)
Lemma out_write_activates_once_example :
  let g := sample_hal quad_24bit_config true in
  let r := out_write android_ilp32 usb_dac g sample_stream_out sample_mem 1000 8 in
  let r' := out_write android_ilp32 usb_dac g (ow_out r) sample_mem 1000 8 in
  ow_out r = StreamOut.mk 4096 false 65536 12288 /\
  filter is_pcm_open (ow_events r) = [EvPcmOpen 1 0 PCM_OUT quad_24bit_config] /\
  filter is_realloc (ow_events r) = [EvRealloc NULL 12288] /\
  ow_out r' = ow_out r /\
  filter is_pcm_open (ow_events r') = [] /\
  out_standby (StreamOut.mk 4096 false 65536 12288)
  = (0, StreamOut.mk NULL true 65536 12288, [EvPcmClose 4096]).
Proof.
  cbv zeta.
  assert (Hok : open_succeeds usb_dac (sample_hal quad_24bit_config true))
    by (split; [discriminate | reflexivity]).
  destruct (out_write_activates_once android_ilp32) as (Hfirst & _ & Hstandby).
  pose proof (Hfirst usb_dac (sample_hal quad_24bit_config true) sample_stream_out
                sample_mem 1000 8 eq_refl Hok) as H.
  cbv zeta in H. destruct H as (Hout & Hopen & Hrealloc & Hsecond).
  destruct (Hsecond usb_dac (sample_hal quad_24bit_config true) sample_mem 1000 8)
    as (Hout' & Hopen' & _).
  destruct (Hstandby (StreamOut.mk 4096 false 65536 12288)) as (Hclose & _).
  exact (conj Hout (conj Hopen (conj Hrealloc (conj Hout' (conj Hopen'
          (Hclose eq_refl)))))).
Defined.

(** A read of 512 bytes: the count when the transport reports success,
    zero when it reports an error; one [pcm_read] either way. *)
Lemma in_read_all_or_nothing_example :
  0 <= 512 <= SSIZE_MAX android_ilp32 /\
  in_read android_ilp32 usb_dac sample_stream_in 3000 512
  = (512, [EvPcmRead NULL 3000 512]) /\
  in_read android_ilp32 no_device sample_stream_in 3000 512
  = (0, [EvPcmRead NULL 3000 512]).
Proof.
  assert (Hhyp : 0 <= 512 <= SSIZE_MAX android_ilp32)
    by (unfold SSIZE_MAX; cbn; lia).
  split; [exact Hhyp|].
  pose proof (in_read_all_or_nothing android_ilp32 usb_dac sample_stream_in
                3000 512 Hhyp) as H.
  pose proof (in_read_all_or_nothing android_ilp32 no_device sample_stream_in
                3000 512 Hhyp) as H'.
  cbv zeta in H, H'.
  destruct H as (Hok & _ & Hev). destruct H' as (_ & Herr & Hev').
  assert (Hneq : pcm_read no_device (StreamIn.pcm sample_stream_in) 3000 512 <> 0)
    by discriminate.
  split.
  - rewrite (surjective_pairing (in_read android_ilp32 usb_dac sample_stream_in 3000 512)).
    rewrite (Hok eq_refl), Hev. reflexivity.
  - rewrite (surjective_pairing (in_read android_ilp32 no_device sample_stream_in 3000 512)).
    rewrite (Herr Hneq), Hev'. reflexivity.
Defined.

(** An input stream as opened, after a [set_parameters] call: its handle
    is null and a read passes the null handle to the transport. *)
Lemma in_stream_pcm_always_null_example :
  let s := snd (in_dispatch android_ilp32 usb_dac
                  (CallInSetParameters (Some 1) (Some 0))
                  (sample_device, sample_stream_in)) in
  in_reachable android_ilp32 s /\
  StreamIn.pcm s = NULL /\
  PcmConfig.rate (StreamIn.alsa_pcm_config s) = 8000 /\
  snd (in_read android_ilp32 usb_dac s 3000 512) = [EvPcmRead NULL 3000 512].
Proof.
  cbv zeta.
  assert (Hopen : in_reachable android_ilp32 sample_stream_in).
  { apply (in_reachable_open android_ilp32 usb_dac (AudioConfig.mk 44100 12 1) 0
             (AudioConfig.mk 44100 12 1)).
    reflexivity. }
  assert (Hreach :
    in_reachable android_ilp32
      (snd (in_dispatch android_ilp32 usb_dac
              (CallInSetParameters (Some 1) (Some 0))
              (sample_device, sample_stream_in))))
    by (apply in_reachable_call; exact Hopen).
  split; [exact Hreach|].
  destruct (in_stream_pcm_always_null android_ilp32 _ Hreach) as (Hnull & Hread).
  exact (conj Hnull (conj eq_refl (Hread usb_dac 3000 512))).
Defined.

(** Opening an output stream before any device was selected installs the
    default configuration; with a cached configuration nothing changes. *)
Lemma adev_open_output_stream_cache_example :
  cached_output_hardware_config
    (snd (fst (fst (adev_open_output_stream android_ilp32 usb_dac
                      (sample_hal quad_24bit_config false)
                      (AudioConfig.mk 48000 51 4)))))
  = PcmConfig.mk 2 44100 1024 4 0 0 0 /\
  cached_output_hardware_config
    (snd (fst (fst (adev_open_output_stream android_ilp32 usb_dac
                      (sample_hal quad_24bit_config true)
                      (AudioConfig.mk 48000 51 4)))))
  = quad_24bit_config.
Proof.
  pose proof (adev_open_output_stream_cache android_ilp32 usb_dac
                (sample_hal quad_24bit_config false) (AudioConfig.mk 48000 51 4)) as H.
  pose proof (adev_open_output_stream_cache android_ilp32 usb_dac
                (sample_hal quad_24bit_config true) (AudioConfig.mk 48000 51 4)) as H'.
  cbv zeta in H, H'.
  destruct H as (_ & _ & _ & Hdefault & _ & Hvalue).
  destruct H' as (_ & _ & _ & _ & Hkept & _).
  assert (Halloc : calloc usb_dac 1 (sizeof_stream_out android_ilp32) <> NULL)
    by discriminate.
  exact (conj (eq_trans (Hdefault Halloc eq_refl) Hvalue) (Hkept eq_refl)).
Defined.

(** * Further properties *)

(** ** The converters on overlapping buffers and outside their output *)

Section ConvertersFrame.

Variable P : Platform.

(** X1. [convert_16_to_24_3] is correct for every destination that
    starts at or after the source, or ends before it, and it stores
    nowhere outside the [3 * n] bytes of the destination; with no samples
    it leaves the whole memory as it is. *)
Theorem convert_16_to_24_3_overlap_and_frame (m : mem) (in_buff n out_buff : Z) :
  0 <= n -> 6 * n <= INT_MAX ->
  in_buff <= out_buff \/ out_buff + 3 * n <= in_buff ->
  let r := convert_16_to_24_3 P m in_buff n out_buff in
  (forall j, 0 <= j < n ->
     fst r (out_buff + 3 * j) = x00 /\
     fst r (out_buff + 3 * j + 1) = m (in_buff + 2 * j) /\
     fst r (out_buff + 3 * j + 2) = m (in_buff + 2 * j + 1)) /\
  (forall a, a < out_buff \/ out_buff + 3 * n <= a -> fst r a = m a) /\
  (n = 0 -> forall a, fst r a = m a).
Proof.
  intros Hn Hmax Hsafe r.
  destruct (convert_16_to_24_3_spec P m in_buff n out_buff Hn Hmax Hsafe)
    as (_ & Hgroups & Hframe).
  fold r in Hgroups, Hframe.
  split; [exact Hgroups|]. split; [exact Hframe|].
  intros -> a. apply Hframe. lia.
Qed.

(** X2. [convert_2chan16_to_4chan16], on an even number of samples, is
    correct for every destination that starts at or after the source, or
    ends before it, and it stores nowhere outside the [4 * n] bytes of
    the destination. *)
Theorem convert_2chan16_to_4chan16_overlap_and_frame (m : mem)
    (in_buff n out_buff : Z) :
  0 <= n -> n mod 2 = 0 -> 4 * n <= INT_MAX ->
  in_buff <= out_buff \/ out_buff + 4 * n <= in_buff ->
  let r := convert_2chan16_to_4chan16 P m in_buff n out_buff in
  (forall f, 0 <= f < n / 2 ->
     (forall t, 0 <= t < 4 ->
        fst r (out_buff + 8 * f + t) = m (in_buff + 4 * f + t)) /\
     (forall t, 4 <= t < 8 -> fst r (out_buff + 8 * f + t) = x00)) /\
  (forall a, a < out_buff \/ out_buff + 4 * n <= a -> fst r a = m a) /\
  (n = 0 -> forall a, fst r a = m a).
Proof.
  intros Hn Heven Hmax Hsafe r.
  destruct (convert_2chan16_to_4chan16_spec P m in_buff n out_buff
              Hn Heven Hmax Hsafe) as (_ & Hframes & Hframe).
  fold r in Hframes, Hframe.
  split; [exact Hframes|]. split; [exact Hframe|].
  intros -> a. apply Hframe. lia.
Qed.

(** With an odd bound and an even index, the loop of
    [convert_2chan16_to_4chan16] runs as with the bound one higher. *)
Lemma convert_2chan16_to_4chan16_loop_odd_bound (n : Z) :
  n mod 2 = 1 -> n < INT_MAX ->
  forall (fuel : nat) (i : Z) (m : mem) (dst src : Z),
    0 <= i <= n + 1 -> i mod 2 = 0 ->
    convert_2chan16_to_4chan16_loop P fuel n i m dst src =
    convert_2chan16_to_4chan16_loop P fuel (n + 1) i m dst src.
Proof.
  intros Hodd Hmax fuel.
  induction fuel as [|fuel IH]; intros i m dst src Hi Hieven; [reflexivity|].
  cbn [convert_2chan16_to_4chan16_loop].
  rewrite to_size_t_int by (unfold INT_MAX in *; lia).
  assert (Hne : i <> n) by (intros ->; lia).
  destruct (Z.ltb_spec i n) as [Hlt|Hge];
    destruct (Z.ltb_spec i (n + 1)) as [Hlt'|Hge']; try lia; [|reflexivity].
  rewrite to_int_id by (unfold INT_MAX in *; lia).
  apply IH; [lia|].
  rewrite <- Z.add_mod_idemp_l by lia. rewrite Hieven. reflexivity.
Qed.

(** The loop advances by two samples: half the fuel is enough. *)
Lemma convert_2chan16_to_4chan16_loop_half_fuel (n : Z) :
  n < INT_MAX ->
  forall (fuel extra : nat) (i : Z) (m : mem) (dst src : Z),
    0 <= i -> i <= n + 1 -> n - i <= 2 * Z.of_nat fuel ->
    convert_2chan16_to_4chan16_loop P (fuel + extra) n i m dst src =
    convert_2chan16_to_4chan16_loop P fuel n i m dst src.
Proof.
  intros Hn fuel extra.
  induction fuel as [|fuel IH]; intros i m dst src Hi Hin Hfuel.
  - cbn [Nat.add convert_2chan16_to_4chan16_loop].
    destruct extra as [|extra]; [reflexivity|].
    cbn [convert_2chan16_to_4chan16_loop].
    rewrite to_size_t_int by (unfold INT_MAX in *; lia).
    destruct (Z.ltb_spec i n); [lia | reflexivity].
  - cbn [Nat.add convert_2chan16_to_4chan16_loop].
    rewrite to_size_t_int by (unfold INT_MAX in *; lia).
    destruct (Z.ltb_spec i n) as [Hlt|Hge]; [|reflexivity].
    rewrite to_int_id by (unfold INT_MAX in *; lia).
    apply IH; lia.
Qed.

(** X3. On an odd number of samples [convert_2chan16_to_4chan16] leaves
    the memory it would leave on [n + 1] samples taken one sample before
    [in_buff] and stored two samples before [out_buff], and still returns
    [4 * n].  With buffers apart it therefore copies the sample before
    [in_buff] and the first sample to the four bytes before [out_buff],
    and the first output frame starts with two silent channels. *)
Theorem convert_2chan16_to_4chan16_odd_count (m : mem) (in_buff n out_buff : Z) :
  0 < n -> n mod 2 = 1 -> 4 * (n + 1) <= INT_MAX ->
  in_buff + 2 <= out_buff \/ out_buff + 4 * n + 2 <= in_buff ->
  let r := convert_2chan16_to_4chan16 P m in_buff n out_buff in
  snd r = 4 * n /\
  fst r = fst (convert_2chan16_to_4chan16 P m (in_buff - 2) (n + 1) (out_buff - 4)) /\
  fst r (out_buff - 4) = m (in_buff - 2) /\
  fst r (out_buff - 3) = m (in_buff - 1) /\
  fst r (out_buff - 2) = m in_buff /\
  fst r (out_buff - 1) = m (in_buff + 1) /\
  load16 (fst r) out_buff = 0 /\
  load16 (fst r) (out_buff + 2) = 0.
Proof.
  intros Hn Hodd Hmax Hsafe r.
  unfold INT_MAX in Hmax.
  assert (Hret : snd r = 4 * n).
  { subst r. apply convert_2chan16_to_4chan16_ret; unfold INT_MAX; lia. }
  assert (Hmem : fst r =
                 fst (convert_2chan16_to_4chan16 P m (in_buff - 2) (n + 1) (out_buff - 4))).
  { subst r. unfold convert_2chan16_to_4chan16. cbn [fst].
    rewrite (to_size_t_int P (n * 2)) by (unfold INT_MAX; lia).
    rewrite (to_int_id (n * 2)) by (unfold INT_MAX; lia).
    rewrite (to_size_t_int P ((n + 1) * 2)) by (unfold INT_MAX; lia).
    rewrite (to_int_id ((n + 1) * 2)) by (unfold INT_MAX; lia).
    rewrite convert_2chan16_to_4chan16_loop_odd_bound
      by (try reflexivity; unfold INT_MAX; lia).
    replace (Z.to_nat (n + 1)) with (Z.to_nat n + 1)%nat by lia.
    rewrite convert_2chan16_to_4chan16_loop_half_fuel by (unfold INT_MAX; lia).
    f_equal; lia. }
  split; [exact Hret|]. split; [exact Hmem|].
  assert (Heven : (n + 1) mod 2 = 0).
  { rewrite <- Z.add_mod_idemp_l by lia. rewrite Hodd. reflexivity. }
  destruct (convert_2chan16_to_4chan16_spec P m (in_buff - 2) (n + 1) (out_buff - 4)
              ltac:(lia) Heven ltac:(unfold INT_MAX; lia) ltac:(lia))
    as (_ & Hframes & _).
  rewrite <- Hmem in Hframes.
  assert (Hf0 : 0 <= 0 < (n + 1) / 2).
  { split; [lia|]. apply Z.div_str_pos. lia. }
  destruct (Hframes 0 Hf0) as (Hcopy & Hzero).
  pose proof (Hcopy 0 ltac:(lia)) as C0. pose proof (Hcopy 1 ltac:(lia)) as C1.
  pose proof (Hcopy 2 ltac:(lia)) as C2. pose proof (Hcopy 3 ltac:(lia)) as C3.
  pose proof (Hzero 4 ltac:(lia)) as Z4. pose proof (Hzero 5 ltac:(lia)) as Z5.
  pose proof (Hzero 6 ltac:(lia)) as Z6. pose proof (Hzero 7 ltac:(lia)) as Z7.
  replace (out_buff - 4 + 8 * 0 + 0) with (out_buff - 4) in C0 by lia.
  replace (in_buff - 2 + 4 * 0 + 0) with (in_buff - 2) in C0 by lia.
  replace (out_buff - 4 + 8 * 0 + 1) with (out_buff - 3) in C1 by lia.
  replace (in_buff - 2 + 4 * 0 + 1) with (in_buff - 1) in C1 by lia.
  replace (out_buff - 4 + 8 * 0 + 2) with (out_buff - 2) in C2 by lia.
  replace (in_buff - 2 + 4 * 0 + 2) with in_buff in C2 by lia.
  replace (out_buff - 4 + 8 * 0 + 3) with (out_buff - 1) in C3 by lia.
  replace (in_buff - 2 + 4 * 0 + 3) with (in_buff + 1) in C3 by lia.
  replace (out_buff - 4 + 8 * 0 + 4) with out_buff in Z4 by lia.
  replace (out_buff - 4 + 8 * 0 + 5) with (out_buff + 1) in Z5 by lia.
  replace (out_buff - 4 + 8 * 0 + 6) with (out_buff + 2) in Z6 by lia.
  replace (out_buff - 4 + 8 * 0 + 7) with (out_buff + 2 + 1) in Z7 by lia.
  repeat (split; [assumption|]).
  unfold load16. rewrite Z4, Z5, Z6, Z7. split; reflexivity.
Qed.

End ConvertersFrame.

(** ** [out_write] on every device configuration *)

Section OutWriteCases.

Variable P : Platform.

(** The active part of [out_write], conversion by conversion: the
    expansion runs exactly when the device has four channels, the
    widening exactly when its format is [PCM_FORMAT_S24_3LE]; the first
    that runs on a null conversion buffer with a sample to convert stops
    the process, before anything is stored or written. *)
Lemma out_write_active_cases (g : hal_state) (out : stream_out) (m : mem)
    (buffer bytes : Z) (before : list event) :
  0 <= bytes -> 6 * bytes <= INT_MAX ->
  let cfg := cached_output_hardware_config g in
  let cb := StreamOut.conversion_buffer out in
  let quad := to_int (PcmConfig.channels cfg) =? 4 in
  let wide := PcmConfig.format cfg =? PCM_FORMAT_S24_3LE P in
  let m1 := if quad then fst (convert_2chan16_to_4chan16 P m buffer (bytes / 2) cb)
            else m in
  let buf1 := if quad then cb else buffer in
  let n1 := if quad then 4 * (bytes / 2) else bytes in
  let m2 := if wide then fst (convert_16_to_24_3 P m1 buf1 (n1 / 2) cb) else m1 in
  let data := if wide then cb else buf1 in
  let count := if wide then 3 * (n1 / 2) else n1 in
  out_write_active P g out m buffer bytes before =
    if (quad || wide) && stores_through_null cb (bytes / 2) then
      {| ow_ret := Faults NullStore;
         ow_out := out;
         ow_mem := m;
         ow_events := before |}
    else
      {| ow_ret := Returns (to_ssize_t P bytes);
         ow_out := out;
         ow_mem := m2;
         ow_events :=
           before ++
           (if negb (data =? NULL) && negb (count =? 0)
            then [EvPcmWrite (StreamOut.pcm out) data count] else []) |}.
Proof.
  intros Hbytes Hmax. cbv zeta.
  unfold INT_MAX in Hmax.
  assert (Hhalf : 0 <= bytes / 2 <= bytes).
  { split; [apply Z.div_pos; lia|]. apply Z.div_le_upper_bound; lia. }
  unfold out_write_active, stores_through_null. cbv zeta.
  rewrite (to_int_id bytes) by (unfold INT_MAX; lia).
  rewrite Z.quot_div_nonneg by lia.
  rewrite (to_size_t_int P (bytes / 2)) by (unfold INT_MAX; lia).
  set (cfg := cached_output_hardware_config g).
  set (cb := StreamOut.conversion_buffer out).
  assert (Hquad : negb (to_int (PcmConfig.channels cfg) =? 2)
                  && (to_int (PcmConfig.channels cfg) =? 4)
                  = (to_int (PcmConfig.channels cfg) =? 4)).
  { destruct (Z.eqb_spec (to_int (PcmConfig.channels cfg)) 4) as [->|_];
      [reflexivity | apply andb_false_r]. }
  rewrite Hquad.
  assert (Hwide : negb (PcmConfig.format cfg =? PCM_FORMAT_S16_LE P)
                  && (PcmConfig.format cfg =? PCM_FORMAT_S24_3LE P)
                  = (PcmConfig.format cfg =? PCM_FORMAT_S24_3LE P)).
  { destruct (Z.eqb_spec (PcmConfig.format cfg) (PCM_FORMAT_S24_3LE P)) as [->|_];
      [|apply andb_false_r].
    destruct (Z.eqb_spec (PCM_FORMAT_S24_3LE P) (PCM_FORMAT_S16_LE P)) as [Heq|_];
      [exfalso; exact (pcm_format_s24_3le_not_s16 P Heq) | reflexivity]. }
  rewrite Hwide.
  assert (Hn1 : 0 <= 4 * (bytes / 2) / 2 <= bytes).
  { replace (4 * (bytes / 2)) with (2 * (bytes / 2) * 2) by lia.
    rewrite Z.div_mul by lia.
    pose proof (Z.mul_div_le bytes 2 ltac:(lia)). lia. }
  assert (Hn1z : (0 <? bytes / 2) = false -> (0 <? 4 * (bytes / 2) / 2) = false).
  { intros Hz. apply Z.ltb_ge in Hz. apply Z.ltb_ge.
    replace (bytes / 2) with 0 by lia. reflexivity. }
  destruct (to_int (PcmConfig.channels cfg) =? 4); cbn [andb orb].
  - destruct (Z.eqb_spec cb NULL) as [Hnull|Hnn];
      destruct (0 <? bytes / 2) eqn:Hpos; cbn [andb]; try reflexivity.
    all: cbn [fst snd].
    all: rewrite convert_2chan16_to_4chan16_ret by (unfold INT_MAX; lia).
    all: rewrite (to_int_id (4 * (bytes / 2))) by (unfold INT_MAX; lia).
    all: rewrite Z.quot_div_nonneg by lia.
    all: rewrite (to_size_t_int P (4 * (bytes / 2) / 2)) by (unfold INT_MAX; lia).
    all: rewrite ?(Hn1z eq_refl), ?andb_false_r.
    all: destruct (Z.eqb_spec (PcmConfig.format cfg) (PCM_FORMAT_S24_3LE P)) as [Hw|Hw].
    all: try (rewrite Hw;
      destruct (Z.eqb_spec (PCM_FORMAT_S24_3LE P) (PCM_FORMAT_S16_LE P)) as [Heq|_];
        [exfalso; exact (pcm_format_s24_3le_not_s16 P Heq)|];
      cbn [fst snd];
      rewrite convert_16_to_24_3_ret by (unfold INT_MAX; lia);
      rewrite (to_int_id (3 * (4 * (bytes / 2) / 2))) by (unfold INT_MAX; lia);
      reflexivity).
    all: destruct (PcmConfig.format cfg =? PCM_FORMAT_S16_LE P); reflexivity.
  - destruct (Z.eqb_spec (PcmConfig.format cfg) (PCM_FORMAT_S24_3LE P)) as [Hw|Hw];
      cbn [andb].
    + rewrite Hw.
      destruct (Z.eqb_spec (PCM_FORMAT_S24_3LE P) (PCM_FORMAT_S16_LE P)) as [Heq|_];
        [exfalso; exact (pcm_format_s24_3le_not_s16 P Heq)|].
      rewrite Z.quot_div_nonneg by lia.
      rewrite (to_size_t_int P (bytes / 2)) by (unfold INT_MAX; lia).
      destruct (Z.eqb_spec cb NULL) as [Hnull|Hnn];
        destruct (0 <? bytes / 2) eqn:Hpos; cbn [andb]; try reflexivity.
      all: cbn [fst snd].
      all: rewrite convert_16_to_24_3_ret by (unfold INT_MAX; lia).
      all: rewrite (to_int_id (3 * (bytes / 2))) by (unfold INT_MAX; lia).
      all: reflexivity.
    + destruct (PcmConfig.format cfg =? PCM_FORMAT_S16_LE P); reflexivity.
Qed.

(** What the active part hands the transport; on a null conversion buffer
    that is nothing, whether a converter faulted or none had a sample to
    convert. *)
Lemma out_write_active_events (g : hal_state) (out : stream_out) (m : mem)
    (buffer bytes : Z) (before : list event) :
  0 <= bytes -> 6 * bytes <= INT_MAX ->
  let cfg := cached_output_hardware_config g in
  let cb := StreamOut.conversion_buffer out in
  let quad := to_int (PcmConfig.channels cfg) =? 4 in
  let wide := PcmConfig.format cfg =? PCM_FORMAT_S24_3LE P in
  let buf1 := if quad then cb else buffer in
  let n1 := if quad then 4 * (bytes / 2) else bytes in
  let data := if wide then cb else buf1 in
  let count := if wide then 3 * (n1 / 2) else n1 in
  ow_events (out_write_active P g out m buffer bytes before) =
    before ++
    (if negb (data =? NULL) && negb (count =? 0)
     then [EvPcmWrite (StreamOut.pcm out) data count] else []).
Proof.
  intros Hbytes Hmax. cbv zeta.
  rewrite (out_write_active_cases g out m buffer bytes before Hbytes Hmax).
  unfold stores_through_null.
  destruct (to_int (PcmConfig.channels (cached_output_hardware_config g)) =? 4);
    destruct (PcmConfig.format (cached_output_hardware_config g)
              =? PCM_FORMAT_S24_3LE P);
    destruct (Z.eqb_spec (StreamOut.conversion_buffer out) NULL) as [Hnull|Hnn];
    destruct (0 <? bytes / 2);
    cbn [orb andb negb ow_events]; try reflexivity;
    now rewrite app_nil_r.
Qed.

(** The memory the active part leaves. *)
Lemma out_write_active_mem (g : hal_state) (out : stream_out) (m : mem)
    (buffer bytes : Z) (before : list event) :
  0 <= bytes -> 6 * bytes <= INT_MAX ->
  let cfg := cached_output_hardware_config g in
  let cb := StreamOut.conversion_buffer out in
  let quad := to_int (PcmConfig.channels cfg) =? 4 in
  let wide := PcmConfig.format cfg =? PCM_FORMAT_S24_3LE P in
  let m1 := if quad then fst (convert_2chan16_to_4chan16 P m buffer (bytes / 2) cb)
            else m in
  let buf1 := if quad then cb else buffer in
  let n1 := if quad then 4 * (bytes / 2) else bytes in
  let m2 := if wide then fst (convert_16_to_24_3 P m1 buf1 (n1 / 2) cb) else m1 in
  ow_mem (out_write_active P g out m buffer bytes before) =
    if (quad || wide) && stores_through_null cb (bytes / 2) then m else m2.
Proof.
  intros Hbytes Hmax. cbv zeta.
  rewrite (out_write_active_cases g out m buffer bytes before Hbytes Hmax).
  match goal with
  | |- context [if ?c then _ else _] => destruct c
  end; reflexivity.
Qed.

(** [out_write] either leaves the memory alone (the open was refused) or
    went through its active part on the stream record it returns. *)
Lemma out_write_mem_cases (T : Transport) (g : hal_state) (out : stream_out)
    (m : mem) (buffer bytes : Z) :
  let r := out_write P T g out m buffer bytes in
  (ow_mem r = m /\ filter is_pcm_write (ow_events r) = []) \/
  (exists before,
     r = out_write_active P g (ow_out r) m buffer bytes before /\
     filter is_pcm_write before = []).
Proof.
  cbv zeta. unfold out_write.
  destruct (StreamOut.standby out) eqn:Hsb.
  - pose proof (start_output_stream_frame P T g out) as [_ Hnw].
    destruct (start_output_stream P T g out) as [[ret out1] opened].
    cbn [fst snd] in Hnw.
    destruct (negb (ret =? 0)).
    + left.
      destruct (out_write_err_shape P g out1 m bytes ret opened)
        as (_ & Hm & slept & Hev & Hs).
      split; [exact Hm|]. rewrite Hev, filter_app, Hnw.
      destruct Hs as [->|(usec & ->)]; reflexivity.
    + right. exists opened. split; [|exact Hnw].
      rewrite (proj1 (proj2 (out_write_active_shape P g _ m buffer bytes opened))).
      reflexivity.
  - right. exists []. split; [|reflexivity].
    rewrite (proj1 (proj2 (out_write_active_shape P g out m buffer bytes []))).
    reflexivity.
Qed.


(** X5. On a device that has not four channels and whose format is not
    [PCM_FORMAT_S24_3LE] (the 16-bit format, or one the HAL does not know),
    [out_write] converts nothing: it never changes the memory, and on an
    active stream it hands the transport the caller's buffer with the
    caller's count, or nothing when the buffer is null or the count zero. *)
Theorem out_write_pass_through (T : Transport) (g : hal_state)
    (out : stream_out) (m : mem) (buffer bytes : Z) :
  to_int (PcmConfig.channels (cached_output_hardware_config g)) <> 4 ->
  PcmConfig.format (cached_output_hardware_config g) <> PCM_FORMAT_S24_3LE P ->
  let r := out_write P T g out m buffer bytes in
  ow_mem r = m /\
  (StreamOut.standby (ow_out r) = false ->
   filter is_pcm_write (ow_events r) =
     (if negb (buffer =? NULL) && negb (to_int bytes =? 0)
      then [EvPcmWrite (StreamOut.pcm (ow_out r)) buffer (to_int bytes)]
      else [])).
Proof.
  intros Hch Hfmt r.
  assert (Hactive : forall o before,
    out_write_active P g o m buffer bytes before =
      {| ow_ret := Returns (to_ssize_t P bytes); ow_out := o; ow_mem := m;
         ow_events :=
           before ++
           (if negb (buffer =? NULL) && negb (to_int bytes =? 0)
            then [EvPcmWrite (StreamOut.pcm o) buffer (to_int bytes)] else []) |}).
  { intros o before. unfold out_write_active. cbv zeta.
    destruct (Z.eqb_spec (to_int (PcmConfig.channels (cached_output_hardware_config g))) 4)
      as [H4|_]; [contradiction|].
    destruct (Z.eqb_spec (PcmConfig.format (cached_output_hardware_config g))
                (PCM_FORMAT_S24_3LE P)) as [Hw|_]; [contradiction|].
    rewrite !andb_false_r. cbn [andb].
    destruct (PcmConfig.format (cached_output_hardware_config g) =? PCM_FORMAT_S16_LE P);
      reflexivity. }
  subst r. unfold out_write.
  destruct (StreamOut.standby out) eqn:Hout.
  - pose proof (start_output_stream_frame P T g out) as [Hflag Hnw].
    destruct (start_output_stream P T g out) as [[ret out1] opened].
    cbn [fst snd] in Hflag, Hnw.
    destruct (negb (ret =? 0)).
    + destruct (out_write_err_shape P g out1 m bytes ret opened) as (Ho & Hm & _).
      rewrite Ho, Hm. split; [reflexivity|]. congruence.
    + rewrite Hactive. cbn [ow_out ow_mem ow_events]. split; [reflexivity|].
      intros _. rewrite filter_app, Hnw.
      destruct (negb (buffer =? NULL) && negb (to_int bytes =? 0)); reflexivity.
  - rewrite Hactive. cbn [ow_out ow_mem ow_events]. split; [reflexivity|].
    intros _.
    destruct (negb (buffer =? NULL) && negb (to_int bytes =? 0)); reflexivity.
Qed.

(** X6. A write of whole stereo frames stores only inside the first
    [3 * bytes] bytes of the stream's conversion buffer, whatever the
    cached configuration and whether or not the stream opens; when the
    caller's buffer lies apart from that region it is left as it was. *)
Theorem out_write_stores_only_in_conversion_buffer (T : Transport) (g : hal_state)
    (out : stream_out) (m : mem) (buffer bytes : Z) :
  0 <= bytes -> bytes mod 4 = 0 -> 6 * bytes <= INT_MAX ->
  let r := out_write P T g out m buffer bytes in
  let cb := StreamOut.conversion_buffer (ow_out r) in
  cb + 3 * bytes <= buffer \/ buffer + bytes <= cb ->
  (forall a, a < cb \/ cb + 3 * bytes <= a -> ow_mem r a = m a) /\
  (forall a, buffer <= a < buffer + bytes -> ow_mem r a = m a).
Proof.
  intros Hbytes Hmod Hmax r cb Hdisj.
  assert (Hframe : forall a, a < cb \/ cb + 3 * bytes <= a -> ow_mem r a = m a).
  { destruct (out_write_mem_cases T g out m buffer bytes)
      as [[Hmem _]|(before & Hr & _)].
    { fold r in Hmem. intros a _. now rewrite Hmem. }
    fold r in Hr.
    pose proof (f_equal ow_mem Hr) as Hmem.
    rewrite (out_write_active_mem g (ow_out r) m buffer bytes before Hbytes Hmax) in Hmem.
    fold cb in Hmem.
    match type of Hmem with
    | _ = if ?c then _ else _ => destruct c
    end; [intros a _; now rewrite Hmem|].
    unfold INT_MAX in Hmax.
    pose proof (Z.div_mod bytes 4 ltac:(lia)) as Hb4. rewrite Hmod in Hb4.
    assert (Hhalf : bytes / 2 = 2 * (bytes / 4)).
    { rewrite Hb4 at 1. replace (4 * (bytes / 4) + 0) with (2 * (bytes / 4) * 2) by lia.
      apply Z.div_mul. lia. }
    assert (Hhalf_even : (bytes / 2) mod 2 = 0).
    { rewrite Hhalf, Z.mul_comm. apply Z.mod_mul. lia. }
    assert (Hquarter : 0 <= bytes / 4) by (apply Z.div_pos; lia).
    assert (H4 : 4 * (bytes / 2) / 2 = bytes).
    { rewrite Hhalf. replace (4 * (2 * (bytes / 4))) with (bytes * 2) by lia.
      apply Z.div_mul. lia. }
    intros a Ha. rewrite Hmem.
    destruct (to_int (PcmConfig.channels (cached_output_hardware_config g)) =? 4);
      destruct (PcmConfig.format (cached_output_hardware_config g) =? PCM_FORMAT_S24_3LE P).
    - rewrite H4.
      destruct (convert_16_to_24_3_spec P
                  (fst (convert_2chan16_to_4chan16 P m buffer (bytes / 2) cb))
                  cb bytes cb ltac:(lia) ltac:(unfold INT_MAX; lia) ltac:(lia))
        as (_ & _ & Hf2).
      rewrite Hf2 by lia.
      destruct (convert_2chan16_to_4chan16_spec P m buffer (bytes / 2) cb
                  ltac:(lia) Hhalf_even ltac:(unfold INT_MAX; lia) ltac:(lia))
        as (_ & _ & Hf1).
      apply Hf1. lia.
    - destruct (convert_2chan16_to_4chan16_spec P m buffer (bytes / 2) cb
                  ltac:(lia) Hhalf_even ltac:(unfold INT_MAX; lia) ltac:(lia))
        as (_ & _ & Hf1).
      apply Hf1. lia.
    - destruct (convert_16_to_24_3_spec P m buffer (bytes / 2) cb
                  ltac:(lia) ltac:(unfold INT_MAX; lia) ltac:(lia))
        as (_ & _ & Hf2).
      apply Hf2. lia.
    - reflexivity. }
  split; [exact Hframe|].
  intros a Ha. apply Hframe. lia.
Qed.

End OutWriteCases.

(** ** The conversion buffer and the transport handle *)

Section OutputResources.

Variable P : Platform.

(** X7. The write that activates a stream allocates three times the
    stream's buffer size for the conversion buffer, and hands the
    transport at most three times the bytes it was given: a write of up
    to one buffer of whole samples never passes more than the conversion
    buffer holds.  The buffer size is one whose sixfold [size_t] holds. *)
Theorem conversion_buffer_holds_a_full_write (T : Transport) (g : hal_state)
    (out : stream_out) (m : mem) (buffer bytes : Z) :
  StreamOut.standby out = true -> open_succeeds T g ->
  6 * out_get_buffer_size P g <= SIZE_MAX P ->
  0 <= bytes <= out_get_buffer_size P g ->
  bytes mod 2 = 0 -> 6 * bytes <= INT_MAX ->
  let r := out_write P T g out m buffer bytes in
  StreamOut.conversion_buffer_size (ow_out r) = 3 * out_get_buffer_size P g /\
  forall pcm data count,
    In (EvPcmWrite pcm data count) (ow_events r) ->
    count <= 3 * bytes /\
    count <= StreamOut.conversion_buffer_size (ow_out r).
Proof.
  intros Hsb Hok Hnowrap Hbytes Heven Hmax r.
  assert (Hb0 : 0 <= out_get_buffer_size P g).
  { unfold out_get_buffer_size, to_size_t.
    apply Z.mod_pos_bound. pose proof (size_pow_ge P). lia. }
  assert (Hsize : to_size_t P (to_size_t P (out_get_buffer_size P g * 3) * 2) / 2
                  = 3 * out_get_buffer_size P g).
  { rewrite (to_size_t_id P (out_get_buffer_size P g * 3)) by lia.
    rewrite to_size_t_id by lia.
    replace (out_get_buffer_size P g * 3 * 2) with (3 * out_get_buffer_size P g * 2) by lia.
    apply Z.div_mul. lia. }
  assert (Hr : r = out_write P T g out m buffer bytes) by reflexivity.
  unfold out_write in Hr. rewrite Hsb in Hr.
  rewrite (start_output_stream_ok P T g out Hok) in Hr.
  cbn [negb Z.eqb StreamOut.pcm StreamOut.conversion_buffer
       StreamOut.conversion_buffer_size] in Hr.
  rewrite Hsize in Hr.
  assert (Hout : StreamOut.conversion_buffer_size (ow_out r)
                 = 3 * out_get_buffer_size P g).
  { rewrite Hr.
    rewrite (proj1 (proj2 (out_write_active_shape P g _ m buffer bytes _))).
    reflexivity. }
  split; [exact Hout|].
  intros pcm data count Hin. rewrite Hout.
  pose proof (f_equal ow_events Hr) as Hev.
  rewrite (out_write_active_events P g _ m buffer bytes _ (proj1 Hbytes) Hmax) in Hev.
  cbn [StreamOut.pcm StreamOut.conversion_buffer] in Hev.
  rewrite Hev in Hin.
  unfold INT_MAX in Hmax.
  pose proof (Z.div_mod bytes 2 ltac:(lia)) as Hb2. rewrite Heven in Hb2.
  assert (H42 : 4 * (bytes / 2) / 2 = bytes).
  { replace (4 * (bytes / 2)) with (bytes * 2) by lia. apply Z.div_mul. lia. }
  assert (Hcount : count <= 3 * bytes).
  { cbn [app In] in Hin.
    destruct Hin as [Hin|[Hin|Hin]]; try discriminate.
    destruct (to_int (PcmConfig.channels (cached_output_hardware_config g)) =? 4);
      destruct (PcmConfig.format (cached_output_hardware_config g)
                =? PCM_FORMAT_S24_3LE P);
      match type of Hin with
      | In _ (if ?c then _ else _) => destruct c
      end; cbn [In] in Hin; try contradiction;
      destruct Hin as [Hin|[]];
      apply (f_equal (fun e => match e with EvPcmWrite _ _ c => c | _ => 0 end)) in Hin;
      cbv beta iota in Hin; lia. }
  split; [exact Hcount | lia].
Qed.

(** [is_pcm_close] and [is_pcm_open] counts over the calls of one
    [out_write] and one [out_standby]. *)
Lemma out_standby_effect (out : stream_out) :
  (StreamOut.standby out = true /\ out_standby out = (0, out, [])) \/
  (StreamOut.standby out = false /\
   out_standby out =
     (0,
      StreamOut.mk NULL true (StreamOut.conversion_buffer out)
        (StreamOut.conversion_buffer_size out),
      [EvPcmClose (StreamOut.pcm out)])).
Proof.
  unfold out_standby. destruct (StreamOut.standby out); [left | right];
    split; reflexivity.
Qed.

(** What one [out_write] does to the handle: on an active stream nothing;
    in standby either the open is accepted and the stream holds the new,
    non-null handle, or it is refused and any handle obtained is closed
    at once. *)
Lemma out_write_handle_effect (T : Transport) (g : hal_state) (out : stream_out)
    (m : mem) (buffer bytes : Z) :
  let r := out_write P T g out m buffer bytes in
  let opened := pcm_open T (AudioDevice.out_card (adev g))
                  (AudioDevice.out_device (adev g)) PCM_OUT
                  (cached_output_hardware_config g) in
  (StreamOut.standby out = false /\ ow_out r = out /\
   filter is_pcm_open (ow_events r) = [] /\
   filter is_pcm_close (ow_events r) = [] /\
   forall e, In e (ow_events r) ->
     event_handle e = None \/ event_handle e = Some (StreamOut.pcm out)) \/
  (StreamOut.standby out = true /\ StreamOut.standby (ow_out r) = false /\
   StreamOut.pcm (ow_out r) = opened /\ opened <> NULL /\
   length (filter is_pcm_open (ow_events r)) = 1%nat /\
   filter is_pcm_close (ow_events r) = [] /\
   forall e, In e (ow_events r) ->
     event_handle e = None \/ event_handle e = Some opened) \/
  (StreamOut.standby out = true /\ StreamOut.standby (ow_out r) = true /\
   length (filter is_pcm_open (ow_events r)) = 1%nat /\
   (opened = NULL /\ filter is_pcm_close (ow_events r) = [] \/
    opened <> NULL /\ filter is_pcm_close (ow_events r) = [EvPcmClose opened]) /\
   filter is_pcm_write (ow_events r) = [] /\
   forall e, In e (ow_events r) ->
     event_handle e = None \/ (event_handle e = Some opened /\ opened <> NULL)).
Proof.
  cbv zeta. unfold out_write.
  destruct (StreamOut.standby out) eqn:Hsb.
  - right.
    unfold start_output_stream. cbv zeta.
    set (opened := pcm_open T _ _ PCM_OUT _).
    destruct (Z.eqb_spec opened NULL) as [Hnull|Hnn].
    + right. rewrite ENOMEM_nonzero. cbn [negb].
      unfold out_write_err. rewrite ENOMEM_nonzero. cbn [negb].
      destruct ((out_frame_size P =? 0) || (out_get_sample_rate g =? 0));
        cbn [ow_out ow_events StreamOut.standby app filter is_pcm_open
             is_pcm_close is_pcm_write length];
        (repeat split; auto);
        intros e Hin; cbn [In] in Hin; left;
        repeat (destruct Hin as [<-|Hin]; [reflexivity|]); contradiction.
    + destruct (pcm_is_ready T opened) eqn:Hready; cbn [negb].
      * left. cbn [Z.eqb negb].
        match goal with
        | |- context [out_write_active P g ?o m buffer bytes ?b] =>
            destruct (out_write_active_shape P g o m buffer bytes b)
              as (_ & Hout & written & Hev & Hw)
        end.
        rewrite Hout, Hev. cbn [StreamOut.standby StreamOut.pcm] in *.
        rewrite !filter_app.
        repeat split; auto.
        -- destruct Hw as [->|(data & count & ->)]; reflexivity.
        -- destruct Hw as [->|(data & count & ->)]; reflexivity.
        -- intros e Hin. apply in_app_or in Hin.
           destruct Hin as [Hin|Hin].
           ++ left. cbn [In] in Hin.
              destruct Hin as [<-|[<-|[]]]; reflexivity.
           ++ destruct Hw as [->|(data & count & ->)]; cbn [In] in Hin;
                [contradiction|].
              destruct Hin as [<-|[]]. right. reflexivity.
      * right. rewrite ENOMEM_nonzero. cbn [negb].
        unfold out_write_err. rewrite ENOMEM_nonzero. cbn [negb].
        destruct ((out_frame_size P =? 0) || (out_get_sample_rate g =? 0));
          cbn [ow_out ow_events StreamOut.standby app filter is_pcm_open
               is_pcm_close is_pcm_write length];
          (repeat split; auto);
          intros e Hin; cbn [In] in Hin;
          repeat (destruct Hin as [<-|Hin]; [cbn [event_handle]; auto|]);
          contradiction.
  - left.
    destruct (out_write_active_shape P g out m buffer bytes [])
      as (_ & Hout & written & Hev & Hw).
    rewrite Hout, Hev. cbn [app].
    repeat split; auto.
    + destruct Hw as [->|(data & count & ->)]; reflexivity.
    + destruct Hw as [->|(data & count & ->)]; reflexivity.
    + intros e Hin.
      destruct Hw as [->|(data & count & ->)]; cbn [In] in Hin; [contradiction|].
      destruct Hin as [<-|[]]. right. reflexivity.
Qed.

(** X8. Over every sequence of writes and standbys on an output stream,
    an active stream holds a non-null handle, [pcm_close] and [pcm_write]
    are never called with a null handle, and the stream never closes
    more often than it opened: the closes, plus one while the stream is
    active, do not exceed the opens. *)
Theorem out_stream_handle_discipline (s : stream_out) (trace : list event) :
  out_reachable P s trace ->
  (StreamOut.standby s = false -> StreamOut.pcm s <> NULL) /\
  (forall e h, In e trace -> event_handle e = Some h -> h <> NULL) /\
  (length (filter is_pcm_close trace)
   + (if StreamOut.standby s then 0 else 1)
   <= length (filter is_pcm_open trace))%nat.
Proof.
  intros Hreach.
  induction Hreach as [T g config ret g' config' s Hopen
                      | T g m buffer bytes s trace _ IH
                      | s trace _ IH].
  - unfold adev_open_output_stream in Hopen.
    destruct (calloc T 1 (sizeof_stream_out P) =? NULL); [discriminate|].
    destruct (output_hardware_config_is_cached g);
      injection Hopen as _ _ _ <-; cbn;
      (split; [discriminate|]); (split; [intros e h []|]); lia.
  - destruct IH as (Hpcm & Hhandles & Hbalance).
    pose proof (out_write_handle_effect T g s m buffer bytes) as Heff.
    cbv zeta in Heff.
    set (r := out_write P T g s m buffer bytes) in *.
    set (opened := pcm_open T _ _ PCM_OUT _) in *.
    rewrite !filter_app, !length_app.
    destruct Heff as [(Hsb & Hout & Hop & Hcl & Hev)
                     |[(Hsb & Hsb' & Hp & Hnn & Hop & Hcl & Hev)
                      |(Hsb & Hsb' & Hop & Hcl & _ & Hev)]].
    + rewrite Hout, Hop, Hcl. cbn [length].
      split; [exact Hpcm|]. split; [|lia].
      intros e h Hin Hh. apply in_app_or in Hin. destruct Hin as [Hin|Hin].
      * exact (Hhandles e h Hin Hh).
      * destruct (Hev e Hin) as [Hn|Hs]; [congruence|].
        rewrite Hs in Hh. injection Hh as <-. exact (Hpcm Hsb).
    + rewrite Hsb in Hbalance. rewrite Hsb', Hop, Hcl, Hp. cbn [length].
      split; [intros _; exact Hnn|]. split; [|lia].
      intros e h Hin Hh. apply in_app_or in Hin. destruct Hin as [Hin|Hin].
      * exact (Hhandles e h Hin Hh).
      * destruct (Hev e Hin) as [Hn|Hs]; [congruence|].
        rewrite Hs in Hh. injection Hh as <-. exact Hnn.
    + rewrite Hsb in Hbalance. rewrite Hsb', Hop.
      split; [discriminate|]. split.
      * intros e h Hin Hh. apply in_app_or in Hin. destruct Hin as [Hin|Hin].
        -- exact (Hhandles e h Hin Hh).
        -- destruct (Hev e Hin) as [Hn|[Hs Hnn]]; [congruence|].
           rewrite Hs in Hh. injection Hh as <-. exact Hnn.
      * destruct Hcl as [[_ Hcl]|[_ Hcl]]; rewrite Hcl; cbn [length]; lia.
  - destruct IH as (Hpcm & Hhandles & Hbalance).
    destruct (out_standby_effect s) as [[Hsb Heq]|[Hsb Heq]]; rewrite Heq;
      cbn [fst snd].
    + rewrite app_nil_r. repeat split; assumption.
    + rewrite Hsb in Hbalance.
      cbn [StreamOut.standby]. rewrite !filter_app, !length_app.
      cbn [filter is_pcm_close is_pcm_open length].
      split; [discriminate|]. split; [|lia].
      intros e h Hin Hh. apply in_app_or in Hin. destruct Hin as [Hin|Hin].
      * exact (Hhandles e h Hin Hh).
      * cbn [In] in Hin. destruct Hin as [<-|[]].
        cbn [event_handle] in Hh. injection Hh as <-. exact (Hpcm Hsb).
Qed.

(** X9. A write whose open the transport refuses cleans up after itself
    and is not final: a handle that was obtained is closed exactly once,
    the conversion buffer is not touched, a following [out_standby]
    makes no call, and a later write whose open is accepted activates the
    stream on the new handle. *)
Theorem out_write_refused_open_is_retried (T : Transport) (g : hal_state)
    (out : stream_out) (m : mem) (buffer bytes : Z) :
  StreamOut.standby out = true -> open_fails T g ->
  let r := out_write P T g out m buffer bytes in
  let opened := pcm_open T (AudioDevice.out_card (adev g))
                  (AudioDevice.out_device (adev g)) PCM_OUT
                  (cached_output_hardware_config g) in
  filter is_pcm_close (ow_events r) =
    (if opened =? NULL then [] else [EvPcmClose opened]) /\
  StreamOut.conversion_buffer (ow_out r) = StreamOut.conversion_buffer out /\
  StreamOut.conversion_buffer_size (ow_out r) = StreamOut.conversion_buffer_size out /\
  out_standby (ow_out r) = (0, ow_out r, []) /\
  forall (T' : Transport) (g' : hal_state) (m' : mem) (buffer' bytes' : Z),
    open_succeeds T' g' ->
    let r' := out_write P T' g' (ow_out r) m' buffer' bytes' in
    StreamOut.standby (ow_out r') = false /\
    StreamOut.pcm (ow_out r') =
      pcm_open T' (AudioDevice.out_card (adev g'))
        (AudioDevice.out_device (adev g')) PCM_OUT
        (cached_output_hardware_config g').
Proof.
  intros Hsb Hfail r opened.
  assert (Hr : r = out_write_err P g
                 (StreamOut.mk opened true (StreamOut.conversion_buffer out)
                    (StreamOut.conversion_buffer_size out))
                 m bytes (- ENOMEM P)
                 (if opened =? NULL
                  then [EvPcmOpen (AudioDevice.out_card (adev g))
                          (AudioDevice.out_device (adev g)) PCM_OUT
                          (cached_output_hardware_config g)]
                  else [EvPcmOpen (AudioDevice.out_card (adev g))
                          (AudioDevice.out_device (adev g)) PCM_OUT
                          (cached_output_hardware_config g);
                        EvPcmClose opened])).
  { subst r. unfold out_write. rewrite Hsb.
    unfold start_output_stream. cbv zeta. fold opened. rewrite Hsb.
    unfold open_fails in Hfail. cbv zeta in Hfail. fold opened in Hfail.
    destruct (Z.eqb_spec opened NULL) as [Hnull|Hnn].
    - rewrite ENOMEM_nonzero. reflexivity.
    - destruct Hfail as [Hnull|Hnr]; [contradiction|].
      rewrite Hnr. cbn [negb]. rewrite ENOMEM_nonzero. reflexivity. }
  assert (Hout : ow_out r =
                 StreamOut.mk opened true (StreamOut.conversion_buffer out)
                   (StreamOut.conversion_buffer_size out))
    by (rewrite Hr; apply (proj1 (out_write_err_shape P g _ m bytes _ _))).
  assert (Hev : filter is_pcm_close (ow_events r) =
                (if opened =? NULL then [] else [EvPcmClose opened])).
  { rewrite Hr.
    destruct (out_write_err_shape P g
                (StreamOut.mk opened true (StreamOut.conversion_buffer out)
                   (StreamOut.conversion_buffer_size out))
                m bytes (- ENOMEM P)
                (if opened =? NULL
                 then [EvPcmOpen (AudioDevice.out_card (adev g))
                         (AudioDevice.out_device (adev g)) PCM_OUT
                         (cached_output_hardware_config g)]
                 else [EvPcmOpen (AudioDevice.out_card (adev g))
                         (AudioDevice.out_device (adev g)) PCM_OUT
                         (cached_output_hardware_config g);
                       EvPcmClose opened]))
      as (_ & _ & slept & Hev & Hs).
    rewrite Hev, filter_app.
    destruct Hs as [->|(usec & ->)]; destruct (opened =? NULL); reflexivity. }
  split; [exact Hev|]. rewrite Hout.
  cbn [StreamOut.conversion_buffer StreamOut.conversion_buffer_size].
  do 3 (split; [reflexivity|]).
  intros T' g' m' buffer' bytes' Hok.
  unfold out_write. cbn [StreamOut.standby].
  rewrite (start_output_stream_ok P T' g' _ Hok). cbn [negb Z.eqb].
  rewrite (proj1 (proj2 (out_write_active_shape P g' _ m' buffer' bytes' _))).
  split; reflexivity.
Qed.

(** X18. [adev_close_output_stream] releases what the stream holds and
    then the stream object itself, in this order: on a stream in standby
    it frees the conversion buffer and then the stream; called after the
    write that activated the stream has returned, it first closes the
    handle that write opened, then frees the buffer that write allocated,
    then the stream. *)
Theorem adev_close_output_stream_releases :
  (forall (stream : Z) (out : stream_out),
     StreamOut.standby out = true ->
     adev_close_output_stream stream out =
       [EvFree (StreamOut.conversion_buffer out); EvFree stream]) /\
  (forall (T : Transport) (g : hal_state) (stream : Z) (out : stream_out)
          (m : mem) (buffer bytes ret : Z),
     StreamOut.standby out = true -> open_succeeds T g ->
     ow_ret (out_write P T g out m buffer bytes) = Returns ret ->
     adev_close_output_stream stream (ow_out (out_write P T g out m buffer bytes)) =
       [EvPcmClose
          (pcm_open T (AudioDevice.out_card (adev g))
             (AudioDevice.out_device (adev g)) PCM_OUT
             (cached_output_hardware_config g));
        EvFree
          (realloc T (StreamOut.conversion_buffer out)
             (to_size_t P (to_size_t P (out_get_buffer_size P g * 3) * 2) / 2));
        EvFree stream]).
Proof.
  split.
  - intros stream out Hsb. unfold adev_close_output_stream, out_standby.
    rewrite Hsb. reflexivity.
  - intros T g stream out m buffer bytes ret Hsb Hok _.
    unfold out_write. rewrite Hsb.
    rewrite (start_output_stream_ok P T g out Hok). cbn [negb Z.eqb].
    rewrite (proj1 (proj2 (out_write_active_shape P g _ m buffer bytes _))).
    reflexivity.
Qed.

End OutputResources.

(** ** The cache across device selection, open and close *)

Section CacheLifecycle.

Variable P : Platform.

Lemma set_adev_same (g : hal_state) : set_adev g (adev g) = g.
Proof. destruct g; reflexivity. Qed.

(** A successful [out_set_parameters] with both keys. *)
Lemma out_set_parameters_resolved (T : Transport) (g : hal_state)
    (card device : Z) (caps : pcm_params) :
  0 <= card -> 0 <= device ->
  pcm_params_get T card device PCM_OUT = Some caps ->
  out_set_parameters P T g (Some card) (Some device) =
    (0,
     {| adev :=
          AudioDevice.mk card device (AudioDevice.in_card (adev g))
            (AudioDevice.in_device (adev g)) (AudioDevice.standby (adev g));
        cached_output_hardware_config :=
          PcmConfig.mk
            (pcm_params_get_min caps PCM_PARAM_CHANNELS)
            (pcm_params_get_min caps PCM_PARAM_RATE)
            (pcm_params_get_max caps PCM_PARAM_PERIODS)
            (pcm_params_get_min caps PCM_PARAM_PERIODS)
            (bits_to_alsa_format P
               (to_int (pcm_params_get_min caps PCM_PARAM_SAMPLE_BITS))
               (PCM_FORMAT_S16_LE P))
            (PcmConfig.start_threshold (cached_output_hardware_config g))
            (PcmConfig.stop_threshold (cached_output_hardware_config g));
        output_hardware_config_is_cached := true |}).
Proof.
  intros Hc Hd Hcaps.
  unfold out_set_parameters. cbv zeta.
  cbn [AudioDevice.out_card AudioDevice.out_device AudioDevice.in_card
       AudioDevice.in_device AudioDevice.standby andb].
  destruct (Z.geb_spec card 0) as [_|Hlt]; [|lia].
  destruct (Z.geb_spec device 0) as [_|Hlt]; [|lia].
  cbn [andb]. unfold read_alsa_device_config.
  destruct (Z.ltb_spec card 0) as [Hlt|_]; [lia|].
  destruct (Z.ltb_spec device 0) as [Hlt|_]; [lia|].
  cbn [orb]. rewrite Hcaps. reflexivity.
Qed.

(** What [adev_open_output_stream] reports when the stream is allocated. *)
Lemma adev_open_output_stream_allocated (T : Transport) (g : hal_state)
    (config : audio_config) :
  calloc T 1 (sizeof_stream_out P) <> NULL ->
  adev_open_output_stream P T g config =
    (0,
     (if output_hardware_config_is_cached g then g
      else set_cache g (default_alsa_out_config P) false),
     AudioConfig.mk
       (if output_hardware_config_is_cached g
        then PcmConfig.rate (cached_output_hardware_config g) else 44100)
       (AUDIO_CHANNEL_OUT_STEREO P) (AUDIO_FORMAT_PCM_16_BIT P),
     Some (StreamOut.mk NULL true NULL 0)).
Proof.
  intros Halloc. unfold adev_open_output_stream.
  destruct (Z.eqb_spec (calloc T 1 (sizeof_stream_out P)) NULL) as [H|_];
    [contradiction|].
  destruct (output_hardware_config_is_cached g) eqn:Hflag.
  - repeat f_equal.
    + destruct (Z.eqb_spec
                  (audio_channel_out_mask_from_count P
                     (PcmConfig.channels (cached_output_hardware_config g)))
                  (AUDIO_CHANNEL_OUT_STEREO P)) as [->|_]; reflexivity.
    + destruct (Z.eqb_spec
                  (alsa_to_fw_format_id P
                     (PcmConfig.format (cached_output_hardware_config g)))
                  (AUDIO_FORMAT_PCM_16_BIT P)) as [->|_]; reflexivity.
  - reflexivity.
Qed.

(** X10. When the stream object is allocated, [adev_open_output_stream]
    returns 0 with a stream in standby that holds no handle and no
    conversion buffer, and always reports stereo, 16-bit PCM and the
    rate of the cache (44100 Hz when nothing is cached), whatever the
    cached channel count and format are and whatever configuration the
    caller asked for. *)
Theorem adev_open_output_stream_reports_boundary_format (T : Transport)
    (g : hal_state) (config : audio_config) :
  calloc T 1 (sizeof_stream_out P) <> NULL ->
  let r := adev_open_output_stream P T g config in
  fst (fst (fst r)) = 0 /\
  snd r = Some (StreamOut.mk NULL true NULL 0) /\
  AudioConfig.channel_mask (snd (fst r)) = out_get_channels P /\
  AudioConfig.format (snd (fst r)) = out_get_format P /\
  AudioConfig.sample_rate (snd (fst r)) = out_get_sample_rate (snd (fst (fst r))) /\
  AudioConfig.sample_rate (snd (fst r)) =
    (if output_hardware_config_is_cached g
     then PcmConfig.rate (cached_output_hardware_config g) else 44100) /\
  forall config' : audio_config, adev_open_output_stream P T g config' = r.
Proof.
  intros Halloc r. subst r.
  rewrite (adev_open_output_stream_allocated T g config Halloc). cbn [fst snd].
  repeat (split; [reflexivity|]).
  split; [destruct (output_hardware_config_is_cached g); reflexivity|].
  split; [reflexivity|].
  intros config'. apply adev_open_output_stream_allocated. exact Halloc.
Qed.

(** X11. After [out_set_parameters] has selected a card and device whose
    capability set the transport reports, the cache is valid and a
    following [adev_open_output_stream] leaves it alone and reports the
    device's minimum rate with stereo and 16-bit PCM; the stream's buffer
    size is the device's maximum of PERIODS times the frame size. *)
Theorem out_set_parameters_then_open (T T' : Transport) (g : hal_state)
    (card device : Z) (caps : pcm_params) (config : audio_config) :
  0 <= card -> 0 <= device ->
  pcm_params_get T card device PCM_OUT = Some caps ->
  calloc T' 1 (sizeof_stream_out P) <> NULL ->
  let selected := out_set_parameters P T g (Some card) (Some device) in
  let r := adev_open_output_stream P T' (snd selected) config in
  fst selected = 0 /\
  output_hardware_config_is_cached (snd selected) = true /\
  snd (fst (fst r)) = snd selected /\
  snd (fst r) =
    AudioConfig.mk (pcm_params_get_min caps PCM_PARAM_RATE)
      (AUDIO_CHANNEL_OUT_STEREO P) (AUDIO_FORMAT_PCM_16_BIT P) /\
  out_get_buffer_size P (snd (fst (fst r))) =
    to_size_t P (pcm_params_get_max caps PCM_PARAM_PERIODS * out_frame_size P).
Proof.
  intros Hc Hd Hcaps Halloc selected r. subst r selected.
  rewrite (out_set_parameters_resolved T g card device caps Hc Hd Hcaps).
  cbn [fst snd].
  rewrite (adev_open_output_stream_allocated T' _ config Halloc).
  cbn [fst snd output_hardware_config_is_cached cached_output_hardware_config
       PcmConfig.rate].
  repeat split.
Qed.

(** X12. A successful [out_set_parameters] replaces whatever an earlier
    [out_set_parameters] left: the state after selecting a second device
    is the state selecting it directly would give. *)
Theorem out_set_parameters_last_wins (T1 T2 : Transport) (g : hal_state)
    (card1 device1 : option Z) (card2 device2 : Z) (caps : pcm_params) :
  0 <= card2 -> 0 <= device2 ->
  pcm_params_get T2 card2 device2 PCM_OUT = Some caps ->
  out_set_parameters P T2 (snd (out_set_parameters P T1 g card1 device1))
    (Some card2) (Some device2)
  = out_set_parameters P T2 g (Some card2) (Some device2).
Proof.
  intros Hc Hd Hcaps.
  rewrite !(out_set_parameters_resolved T2 _ card2 device2 caps Hc Hd Hcaps).
  assert (Hkept :
    let g1 := snd (out_set_parameters P T1 g card1 device1) in
    AudioDevice.in_card (adev g1) = AudioDevice.in_card (adev g) /\
    AudioDevice.in_device (adev g1) = AudioDevice.in_device (adev g) /\
    AudioDevice.standby (adev g1) = AudioDevice.standby (adev g) /\
    PcmConfig.start_threshold (cached_output_hardware_config g1)
    = PcmConfig.start_threshold (cached_output_hardware_config g) /\
    PcmConfig.stop_threshold (cached_output_hardware_config g1)
    = PcmConfig.stop_threshold (cached_output_hardware_config g)).
  { cbv zeta. unfold out_set_parameters. cbv zeta.
    destruct card1, device1;
      cbn [AudioDevice.out_card AudioDevice.out_device AudioDevice.in_card
           AudioDevice.in_device AudioDevice.standby andb];
      repeat match goal with
        | |- context [if ?c then _ else _] => destruct c eqn:?
        end;
      cbn [fst snd set_cache set_adev adev cached_output_hardware_config
           AudioDevice.in_card AudioDevice.in_device AudioDevice.standby];
      unfold read_alsa_device_config;
      repeat match goal with
        | |- context [if ?c then _ else _] => destruct c
        | |- context [match ?o with Some _ => _ | None => _ end] => destruct o
        end;
      repeat split. }
  cbv zeta in Hkept. destruct Hkept as (H1 & H2 & H3 & H4 & H5).
  rewrite H1, H2, H3, H4, H5. reflexivity.
Qed.

(** X13. After [adev_close], whatever device had been selected, the next
    [adev_open_output_stream] that allocates its stream installs the
    default configuration and reports 44100 Hz; the validity flag stays
    false. *)
Theorem adev_close_then_open_restores_default (T : Transport) (g : hal_state)
    (config : audio_config) :
  calloc T 1 (sizeof_stream_out P) <> NULL ->
  let closed := snd (adev_close g) in
  let r := adev_open_output_stream P T closed config in
  output_hardware_config_is_cached closed = false /\
  cached_output_hardware_config closed = cached_output_hardware_config g /\
  cached_output_hardware_config (snd (fst (fst r))) = default_alsa_out_config P /\
  output_hardware_config_is_cached (snd (fst (fst r))) = false /\
  snd (fst r) =
    AudioConfig.mk 44100 (AUDIO_CHANNEL_OUT_STEREO P) (AUDIO_FORMAT_PCM_16_BIT P).
Proof.
  intros Halloc closed r. subst r closed.
  rewrite (adev_open_output_stream_allocated T _ config Halloc).
  cbn. repeat split.
Qed.

(** X14. An [out_set_parameters] that names a card and device for which
    the transport reports no capability set returns [-EINVAL], records
    the routing, keeps the stale configuration and clears the validity
    flag, so that the next [adev_open_output_stream] falls back to the
    default configuration. *)
Theorem out_set_parameters_failure_invalidates (T T' : Transport) (g : hal_state)
    (card device : Z) (config : audio_config) :
  0 <= card -> 0 <= device ->
  pcm_params_get T card device PCM_OUT = None ->
  calloc T' 1 (sizeof_stream_out P) <> NULL ->
  let selected := out_set_parameters P T g (Some card) (Some device) in
  let r := adev_open_output_stream P T' (snd selected) config in
  fst selected = - EINVAL P /\
  AudioDevice.out_card (adev (snd selected)) = card /\
  AudioDevice.out_device (adev (snd selected)) = device /\
  cached_output_hardware_config (snd selected) = cached_output_hardware_config g /\
  output_hardware_config_is_cached (snd selected) = false /\
  cached_output_hardware_config (snd (fst (fst r))) = default_alsa_out_config P /\
  AudioConfig.sample_rate (snd (fst r)) = 44100.
Proof.
  intros Hc Hd Hcaps Halloc selected r.
  assert (Hsel : selected =
    (- EINVAL P,
     {| adev :=
          AudioDevice.mk card device (AudioDevice.in_card (adev g))
            (AudioDevice.in_device (adev g)) (AudioDevice.standby (adev g));
        cached_output_hardware_config := cached_output_hardware_config g;
        output_hardware_config_is_cached := false |})).
  { subst selected. unfold out_set_parameters. cbv zeta.
    cbn [AudioDevice.out_card AudioDevice.out_device AudioDevice.in_card
         AudioDevice.in_device AudioDevice.standby andb].
    destruct (Z.geb_spec card 0) as [_|Hlt]; [|lia].
    destruct (Z.geb_spec device 0) as [_|Hlt]; [|lia].
    cbn [andb]. unfold read_alsa_device_config.
    destruct (Z.ltb_spec card 0) as [Hlt|_]; [lia|].
    destruct (Z.ltb_spec device 0) as [Hlt|_]; [lia|].
    cbn [orb]. rewrite Hcaps. cbn [fst snd].
    pose proof (errno_positive P) as (He & _).
    destruct (Z.eqb_spec (- EINVAL P) 0) as [H0|_]; [lia|].
    reflexivity. }
  subst r. rewrite Hsel. cbn [fst snd].
  rewrite (adev_open_output_stream_allocated T' _ config Halloc).
  cbn. repeat split.
Qed.

End CacheLifecycle.

(** ** Routing parameters and the input stream's configuration *)

Section Routing.

Variable P : Platform.

Lemma pcm_format_s16_not_others :
  PCM_FORMAT_S16_LE P <> PCM_FORMAT_S32_LE P /\
  PCM_FORMAT_S16_LE P <> PCM_FORMAT_S8 P /\
  PCM_FORMAT_S16_LE P <> PCM_FORMAT_S24_LE P /\
  PCM_FORMAT_S16_LE P <> PCM_FORMAT_S24_3LE P.
Proof.
  pose proof (pcm_format_distinct P) as H.
  inversion H as [|? ? Hnotin _]. subst.
  repeat split; intros Heq; apply Hnotin; rewrite Heq; cbn; auto.
Qed.

(** X15. A [set_parameters] call that carries neither the card nor the
    device key: on an output stream it changes nothing and returns 0; on
    an input stream it still resolves the device the input side is routed
    to, installing its configuration in the stream and returning the
    resolver's status, and changes nothing only while that routing has a
    negative coordinate. *)
Theorem set_parameters_without_routing_keys (T : Transport) :
  (forall g : hal_state, out_set_parameters P T g None None = (0, g)) /\
  (forall (d : audio_device) (s : stream_in),
     0 <= AudioDevice.in_card d -> 0 <= AudioDevice.in_device d ->
     let r := read_alsa_device_config P T (AudioDevice.in_card d)
                (AudioDevice.in_device d) PCM_IN (StreamIn.alsa_pcm_config s) in
     let r' := in_set_parameters P T d s None None in
     fst (fst r') = fst r /\
     snd (fst r') = d /\
     StreamIn.alsa_pcm_config (snd r') = snd r) /\
  (forall (d : audio_device) (s : stream_in),
     AudioDevice.in_card d < 0 \/ AudioDevice.in_device d < 0 ->
     in_set_parameters P T d s None None = (0, d, s)).
Proof.
  split; [|split].
  - intros g. unfold out_set_parameters. cbv zeta. cbn [andb].
    now rewrite set_adev_same.
  - intros d s Hc Hd r r'. subst r r'. unfold in_set_parameters.
    destruct (Z.geb_spec (AudioDevice.in_card d) 0) as [_|Hlt]; [|lia].
    destruct (Z.geb_spec (AudioDevice.in_device d) 0) as [_|Hlt]; [|lia].
    cbn [andb fst snd StreamIn.alsa_pcm_config]. repeat split.
  - intros d s Hneg. unfold in_set_parameters.
    destruct (Z.geb_spec (AudioDevice.in_card d) 0) as [Hc|_];
      destruct (Z.geb_spec (AudioDevice.in_device d) 0) as [Hd|_];
      cbn [andb]; try reflexivity. lia.
Qed.

(** X16. After [in_set_parameters] has selected a card and device whose
    capability set the transport reports, the input stream reports the
    device's minimum rate, stereo exactly when the minimum channel count
    is 2 and mono otherwise, still 16-bit PCM, and a buffer of the
    maximum of PERIODS frames; its handle and its standby flag are as
    before and the output routing of the device is untouched. *)
Theorem in_set_parameters_then_getters (T : Transport) (d : audio_device)
    (s : stream_in) (card device : Z) (caps : pcm_params) :
  0 <= card -> 0 <= device ->
  pcm_params_get T card device PCM_IN = Some caps ->
  let r := in_set_parameters P T d s (Some card) (Some device) in
  let d' := snd (fst r) in
  let s' := snd r in
  fst (fst r) = 0 /\
  in_get_sample_rate s' = pcm_params_get_min caps PCM_PARAM_RATE /\
  in_get_channels P s' =
    (if pcm_params_get_min caps PCM_PARAM_CHANNELS =? 2
     then AUDIO_CHANNEL_IN_STEREO P else AUDIO_CHANNEL_IN_MONO P) /\
  in_get_format P s' = AUDIO_FORMAT_PCM_16_BIT P /\
  in_get_buffer_size P s' =
    to_size_t P
      (pcm_params_get_max caps PCM_PARAM_PERIODS
       * audio_stream_frame_size P (in_get_format P s') (in_get_channels P s')) /\
  StreamIn.pcm s' = StreamIn.pcm s /\
  StreamIn.standby s' = StreamIn.standby s /\
  AudioDevice.in_card d' = card /\ AudioDevice.in_device d' = device /\
  AudioDevice.out_card d' = AudioDevice.out_card d /\
  AudioDevice.out_device d' = AudioDevice.out_device d.
Proof.
  intros Hc Hd Hcaps r d' s'. subst d' s' r.
  unfold in_set_parameters.
  cbn [AudioDevice.in_card AudioDevice.in_device].
  destruct (Z.geb_spec card 0) as [_|Hlt]; [|lia].
  destruct (Z.geb_spec device 0) as [_|Hlt]; [|lia].
  cbn [andb]. unfold read_alsa_device_config.
  destruct (Z.ltb_spec card 0) as [Hlt|_]; [lia|].
  destruct (Z.ltb_spec device 0) as [Hlt|_]; [lia|].
  cbn [orb]. rewrite Hcaps. cbn [fst snd].
  unfold in_get_sample_rate, in_get_channels, in_get_format, in_get_buffer_size.
  cbn [StreamIn.alsa_pcm_config StreamIn.pcm StreamIn.standby PcmConfig.rate
       PcmConfig.channels PcmConfig.period_size AudioDevice.in_card
       AudioDevice.in_device AudioDevice.out_card AudioDevice.out_device].
  repeat split.
Qed.

(** X17. When the stream object is allocated, [adev_open_input_stream]
    returns 0 with a stream in standby on the default input
    configuration at the requested rate (44100 Hz when the request is 0):
    the stream reports that rate, stereo and 16-bit PCM, and the caller's
    configuration gets the 16-bit format while its rate and mask are
    kept.  When the allocation fails it returns [-ENOMEM], stores no
    stream and leaves the caller's configuration as it was. *)
Theorem adev_open_input_stream_reports (T : Transport) (hal_config : audio_config) :
  let r := adev_open_input_stream P T hal_config in
  (calloc T 1 (sizeof_stream_in P) = NULL ->
   r = (- ENOMEM P, hal_config, None)) /\
  (calloc T 1 (sizeof_stream_in P) <> NULL ->
   exists s,
     r = (0,
          AudioConfig.mk (AudioConfig.sample_rate hal_config)
            (AudioConfig.channel_mask hal_config) (AUDIO_FORMAT_PCM_16_BIT P),
          Some s) /\
     StreamIn.standby s = true /\
     StreamIn.requested_rate s = AudioConfig.sample_rate hal_config /\
     in_get_sample_rate s =
       (if AudioConfig.sample_rate hal_config =? 0 then 44100
        else AudioConfig.sample_rate hal_config) /\
     in_get_channels P s = AUDIO_CHANNEL_IN_STEREO P /\
     in_get_format P s = AUDIO_FORMAT_PCM_16_BIT P /\
     in_get_buffer_size P s =
       to_size_t P
         (1024 * audio_stream_frame_size P (AUDIO_FORMAT_PCM_16_BIT P)
                   (AUDIO_CHANNEL_IN_STEREO P))).
Proof.
  cbv zeta. unfold adev_open_input_stream.
  destruct (Z.eqb_spec (calloc T 1 (sizeof_stream_in P)) NULL) as [Hnull|Hok].
  - split; [reflexivity | intros; contradiction].
  - split; [intros; contradiction|]. intros _.
    destruct pcm_format_s16_not_others as (H32 & H8 & H24 & H243).
    cbn [PcmConfig.format default_alsa_in_config].
    unfold default_alsa_in_config. cbn [PcmConfig.format].
    destruct (Z.eqb_spec (PCM_FORMAT_S16_LE P) (PCM_FORMAT_S32_LE P)); [contradiction|].
    destruct (Z.eqb_spec (PCM_FORMAT_S16_LE P) (PCM_FORMAT_S8 P)); [contradiction|].
    destruct (Z.eqb_spec (PCM_FORMAT_S16_LE P) (PCM_FORMAT_S24_LE P)); [contradiction|].
    destruct (Z.eqb_spec (PCM_FORMAT_S16_LE P) (PCM_FORMAT_S24_3LE P)); [contradiction|].
    eexists. split; [reflexivity|].
    unfold in_get_sample_rate, in_get_channels, in_get_format, in_get_buffer_size.
    cbn [StreamIn.standby StreamIn.requested_rate StreamIn.alsa_pcm_config].
    destruct (Z.eqb_spec (AudioConfig.sample_rate hal_config) 0) as [H0|H0];
      cbn [negb PcmConfig.rate PcmConfig.channels PcmConfig.period_size];
      repeat split.
Qed.

End Routing.

(** ** What reaches the transport after a single conversion *)

Section SingleConversion.

Variable P : Platform.



End SingleConversion.



(** ** Further examples on the sample target *)

(** Closing the stream object at address 8192, before any write and right
    after its first write. *)
Lemma adev_close_output_stream_releases_example :
  let g := sample_hal (default_alsa_out_config android_ilp32) true in
  let r := out_write android_ilp32 usb_dac g sample_stream_out sample_mem 1000 8 in
  (StreamOut.standby sample_stream_out = true /\
   open_succeeds usb_dac g /\
   ow_ret r = Returns 8) /\
  adev_close_output_stream 8192 sample_stream_out = [EvFree NULL; EvFree 8192] /\
  adev_close_output_stream 8192 (ow_out r) =
    [EvPcmClose 4096; EvFree 65536; EvFree 8192].
Proof.
  cbv zeta.
  set (g := sample_hal (default_alsa_out_config android_ilp32) true).
  assert (Hok : open_succeeds usb_dac g) by (split; [discriminate | reflexivity]).
  assert (Hret : ow_ret (out_write android_ilp32 usb_dac g sample_stream_out
                           sample_mem 1000 8) = Returns 8) by reflexivity.
  split; [exact (conj eq_refl (conj Hok Hret))|].
  exact (conj
           (proj1 (adev_close_output_stream_releases android_ilp32)
              8192 sample_stream_out eq_refl)
           (proj2 (adev_close_output_stream_releases android_ilp32)
              usb_dac g 8192 sample_stream_out sample_mem 1000 8 8
              eq_refl Hok Hret)).
Defined.

(** Two samples widened into a buffer that starts one byte after the
    source. *)
Lemma convert_16_to_24_3_overlap_example :
  (0 <= 2 /\ 6 * 2 <= INT_MAX /\ (1000 <= 1001 \/ 1001 + 3 * 2 <= 1000)) /\
  let r := convert_16_to_24_3 android_ilp32 sample_mem 1000 2 1001 in
  fst r 1001 = x00 /\ fst r 1002 = x34 /\ fst r 1003 = x12 /\
  fst r 1005 = xcd /\ fst r 1000 = x34 /\ fst r 1007 = x80.
Proof.
  assert (Hhyp : 0 <= 2 /\ 6 * 2 <= INT_MAX /\
                 (1000 <= 1001 \/ 1001 + 3 * 2 <= 1000))
    by (unfold INT_MAX; lia).
  split; [exact Hhyp|].
  destruct Hhyp as (H1 & H2 & H3).
  pose proof (convert_16_to_24_3_overlap_and_frame android_ilp32 sample_mem
                1000 2 1001 H1 H2 H3) as H.
  cbv zeta in H. destruct H as (Hgroups & Hframe & _).
  destruct (Hgroups 0 ltac:(lia)) as (G0 & G1 & G2).
  destruct (Hgroups 1 ltac:(lia)) as (_ & G4 & _).
  cbv zeta.
  exact (conj G0 (conj G1 (conj G2 (conj G4
          (conj (Hframe 1000 ltac:(lia)) (Hframe 1007 ltac:(lia))))))).
Defined.

(** One stereo frame expanded into a buffer that starts two bytes after
    the source. *)
Lemma convert_2chan16_to_4chan16_overlap_example :
  (0 <= 2 /\ 2 mod 2 = 0 /\ 4 * 2 <= INT_MAX /\
   (1000 <= 1002 \/ 1002 + 4 * 2 <= 1000)) /\
  let r := convert_2chan16_to_4chan16 android_ilp32 sample_mem 1000 2 1002 in
  fst r 1002 = x34 /\ fst r 1003 = x12 /\ fst r 1004 = xcd /\ fst r 1005 = xab /\
  fst r 1006 = x00 /\ fst r 1009 = x00 /\ fst r 1001 = x12.
Proof.
  assert (Hhyp : 0 <= 2 /\ 2 mod 2 = 0 /\ 4 * 2 <= INT_MAX /\
                 (1000 <= 1002 \/ 1002 + 4 * 2 <= 1000))
    by (unfold INT_MAX; repeat split; try reflexivity; lia).
  split; [exact Hhyp|].
  destruct Hhyp as (H1 & H2 & H3 & H4).
  pose proof (convert_2chan16_to_4chan16_overlap_and_frame android_ilp32 sample_mem
                1000 2 1002 H1 H2 H3 H4) as H.
  cbv zeta in H. destruct H as (Hframes & Hframe & _).
  destruct (Hframes 0 ltac:(cbn; lia)) as (Hcopy & Hzero).
  cbv zeta.
  exact (conj (Hcopy 0 ltac:(lia)) (conj (Hcopy 1 ltac:(lia))
          (conj (Hcopy 2 ltac:(lia)) (conj (Hcopy 3 ltac:(lia))
          (conj (Hzero 4 ltac:(lia)) (conj (Hzero 7 ltac:(lia))
          (Hframe 1001 ltac:(lia)))))))).
Defined.

(** One sample, the second of the sample memory, expanded to address
    2000: it lands before the output buffer. *)
Lemma convert_2chan16_to_4chan16_odd_count_example :
  (0 < 1 /\ 1 mod 2 = 1 /\ 4 * (1 + 1) <= INT_MAX /\
   (1002 + 2 <= 2000 \/ 2000 + 4 * 1 + 2 <= 1002)) /\
  let r := convert_2chan16_to_4chan16 android_ilp32 sample_mem 1002 1 2000 in
  snd r = 4 /\
  fst r 1996 = x34 /\ fst r 1997 = x12 /\ fst r 1998 = xcd /\ fst r 1999 = xab /\
  load16 (fst r) 2000 = 0 /\ load16 (fst r) 2002 = 0.
Proof.
  assert (Hhyp : 0 < 1 /\ 1 mod 2 = 1 /\ 4 * (1 + 1) <= INT_MAX /\
                 (1002 + 2 <= 2000 \/ 2000 + 4 * 1 + 2 <= 1002))
    by (unfold INT_MAX; repeat split; try reflexivity; lia).
  split; [exact Hhyp|].
  destruct Hhyp as (H1 & H2 & H3 & H4).
  pose proof (convert_2chan16_to_4chan16_odd_count android_ilp32 sample_mem
                1002 1 2000 H1 H2 H3 H4) as H.
  cbv zeta in H. destruct H as (Hret & _ & B0 & B1 & B2 & B3 & L0 & L1).
  cbv zeta.
  exact (conj Hret (conj B0 (conj B1 (conj B2 (conj B3 (conj L0 L1)))))).
Defined.


(** Two stereo frames written to the default stereo 16-bit device: the
    caller's buffer goes to the transport as it is. *)
Lemma out_write_pass_through_example :
  let g := sample_hal (default_alsa_out_config android_ilp32) false in
  let r := out_write android_ilp32 usb_dac g sample_stream_out sample_mem 1000 8 in
  (to_int (PcmConfig.channels (cached_output_hardware_config g)) <> 4 /\
   PcmConfig.format (cached_output_hardware_config g)
   <> PCM_FORMAT_S24_3LE android_ilp32) /\
  ow_mem r = sample_mem /\
  filter is_pcm_write (ow_events r) = [EvPcmWrite 4096 1000 8].
Proof.
  cbv zeta.
  set (g := sample_hal (default_alsa_out_config android_ilp32) false).
  assert (H1 : to_int (PcmConfig.channels (cached_output_hardware_config g)) <> 4)
    by discriminate.
  assert (H2 : PcmConfig.format (cached_output_hardware_config g)
               <> PCM_FORMAT_S24_3LE android_ilp32) by discriminate.
  split; [exact (conj H1 H2)|].
  pose proof (out_write_pass_through android_ilp32 usb_dac g sample_stream_out
                sample_mem 1000 8 H1 H2) as H.
  cbv zeta in H. destruct H as (Hmem & Hwrite).
  exact (conj Hmem (Hwrite eq_refl)).
Defined.

(** Two stereo frames written to the four-channel packed 24-bit device:
    the caller's frames at address 1000 are still there. *)
Lemma out_write_stores_only_in_conversion_buffer_example :
  let g := sample_hal quad_24bit_config true in
  let r := out_write android_ilp32 usb_dac g sample_stream_out sample_mem 1000 8 in
  let cb := StreamOut.conversion_buffer (ow_out r) in
  (0 <= 8 /\ 8 mod 4 = 0 /\ 6 * 8 <= INT_MAX /\
   (cb + 3 * 8 <= 1000 \/ 1000 + 8 <= cb)) /\
  ow_mem r 1000 = x34 /\ ow_mem r 1003 = xab /\ ow_mem r 65535 = x00.
Proof.
  cbv zeta.
  set (g := sample_hal quad_24bit_config true).
  set (r := out_write android_ilp32 usb_dac g sample_stream_out sample_mem 1000 8).
  assert (Hcb : StreamOut.conversion_buffer (ow_out r) = 65536) by reflexivity.
  assert (H1 : 0 <= 8) by lia.
  assert (H2 : 8 mod 4 = 0) by reflexivity.
  assert (H3 : 6 * 8 <= INT_MAX) by (unfold INT_MAX; lia).
  assert (H4 : StreamOut.conversion_buffer (ow_out r) + 3 * 8 <= 1000 \/
               1000 + 8 <= StreamOut.conversion_buffer (ow_out r))
    by (rewrite Hcb; right; lia).
  split; [exact (conj H1 (conj H2 (conj H3 H4)))|].
  pose proof (out_write_stores_only_in_conversion_buffer android_ilp32 usb_dac g
                sample_stream_out sample_mem 1000 8 H1 H2 H3 H4) as H.
  fold r in H. cbv zeta in H. destruct H as (Hframe & Hcaller).
  refine (conj (Hcaller 1000 ltac:(lia)) (conj (Hcaller 1003 ltac:(lia)) _)).
  apply (Hframe 65535). left. rewrite Hcb. lia.
Defined.

(** The write that activates a stream on the four-channel packed 24-bit
    device allocates 12288 bytes and passes 24 of them. *)
Lemma conversion_buffer_holds_a_full_write_example :
  let g := sample_hal quad_24bit_config true in
  let r := out_write android_ilp32 usb_dac g sample_stream_out sample_mem 1000 8 in
  (StreamOut.standby sample_stream_out = true /\ open_succeeds usb_dac g /\
   6 * out_get_buffer_size android_ilp32 g <= SIZE_MAX android_ilp32 /\
   0 <= 8 <= out_get_buffer_size android_ilp32 g /\
   8 mod 2 = 0 /\ 6 * 8 <= INT_MAX) /\
  StreamOut.conversion_buffer_size (ow_out r) = 3 * 4096 /\
  24 <= 3 * 8 /\
  24 <= StreamOut.conversion_buffer_size (ow_out r).
Proof.
  cbv zeta.
  set (g := sample_hal quad_24bit_config true).
  set (r := out_write android_ilp32 usb_dac g sample_stream_out sample_mem 1000 8).
  assert (Hsize : out_get_buffer_size android_ilp32 g = 4096) by reflexivity.
  assert (H1 : StreamOut.standby sample_stream_out = true) by reflexivity.
  assert (H2 : open_succeeds usb_dac g) by (split; [discriminate | reflexivity]).
  assert (H3 : 6 * out_get_buffer_size android_ilp32 g <= SIZE_MAX android_ilp32)
    by (rewrite Hsize; unfold SIZE_MAX; cbn; lia).
  assert (H4 : 0 <= 8 <= out_get_buffer_size android_ilp32 g)
    by (rewrite Hsize; lia).
  assert (H5 : 8 mod 2 = 0) by reflexivity.
  assert (H6 : 6 * 8 <= INT_MAX) by (unfold INT_MAX; lia).
  split; [exact (conj H1 (conj H2 (conj H3 (conj H4 (conj H5 H6)))))|].
  pose proof (conversion_buffer_holds_a_full_write android_ilp32 usb_dac g
                sample_stream_out sample_mem 1000 8 H1 H2 H3 H4 H5 H6) as H.
  fold r in H. cbv zeta in H. destruct H as (Hbuf & Hcount).
  assert (Hin : In (EvPcmWrite 4096 65536 24) (ow_events r))
    by (right; right; left; reflexivity).
  destruct (Hcount 4096 65536 24 Hin) as (Hc1 & Hc2).
  exact (conj Hbuf (conj Hc1 Hc2)).
Defined.

(** A stream that was opened, written to and put in standby: one open,
    one close, a handle that was never null. *)
Lemma out_stream_handle_discipline_example :
  let g := sample_hal quad_24bit_config true in
  let r := out_write android_ilp32 usb_dac g sample_stream_out sample_mem 1000 8 in
  let s := snd (fst (out_standby (ow_out r))) in
  let trace := ([] ++ ow_events r) ++ snd (out_standby (ow_out r)) in
  out_reachable android_ilp32 s trace /\
  (forall e h, In e trace -> event_handle e = Some h -> h <> NULL) /\
  (length (filter is_pcm_close trace) + (if StreamOut.standby s then 0 else 1)
   <= length (filter is_pcm_open trace))%nat.
Proof.
  cbv zeta.
  set (g := sample_hal quad_24bit_config true).
  assert (Hopen : out_reachable android_ilp32 sample_stream_out []).
  { apply (out_reachable_open android_ilp32 usb_dac g (AudioConfig.mk 44100 3 1)
             0 g (AudioConfig.mk 48000 3 1)).
    reflexivity. }
  pose proof (out_reachable_write android_ilp32 usb_dac g sample_mem 1000 8
                _ _ Hopen) as Hwrite.
  pose proof (out_reachable_standby android_ilp32 _ _ Hwrite) as Hstandby.
  split; [exact Hstandby|].
  destruct (out_stream_handle_discipline android_ilp32 _ _ Hstandby)
    as (_ & Hhandles & Hbalance).
  exact (conj Hhandles Hbalance).
Defined.

(** A device that is never ready, then one that is: the handle obtained
    first is closed, and the second write activates the stream. *)
Lemma out_write_refused_open_is_retried_example :
  let g := sample_hal quad_24bit_config true in
  let r := out_write android_ilp32 not_ready_device g sample_stream_out
             sample_mem 1000 8 in
  let r' := out_write android_ilp32 usb_dac g (ow_out r) sample_mem 1000 8 in
  (StreamOut.standby sample_stream_out = true /\ open_fails not_ready_device g) /\
  filter is_pcm_close (ow_events r) = [EvPcmClose 4096] /\
  out_standby (ow_out r) = (0, ow_out r, []) /\
  StreamOut.standby (ow_out r') = false /\
  StreamOut.pcm (ow_out r') = 4096.
Proof.
  cbv zeta.
  set (g := sample_hal quad_24bit_config true).
  assert (H1 : StreamOut.standby sample_stream_out = true) by reflexivity.
  assert (H2 : open_fails not_ready_device g) by (right; reflexivity).
  split; [exact (conj H1 H2)|].
  pose proof (out_write_refused_open_is_retried android_ilp32 not_ready_device g
                sample_stream_out sample_mem 1000 8 H1 H2) as H.
  cbv zeta in H. destruct H as (Hclose & _ & _ & Hstandby & Hretry).
  assert (Hok : open_succeeds usb_dac g) by (split; [discriminate | reflexivity]).
  destruct (Hretry usb_dac g sample_mem 1000 8 Hok) as (Hactive & Hpcm).
  exact (conj Hclose (conj Hstandby (conj Hactive Hpcm))).
Defined.

(** A stream opened on the cached four-channel 24-bit device is reported
    as stereo 16-bit at 48000 Hz. *)
Lemma adev_open_output_stream_reports_boundary_format_example :
  calloc usb_dac 1 (sizeof_stream_out android_ilp32) <> NULL /\
  snd (fst (adev_open_output_stream android_ilp32 usb_dac
              (sample_hal quad_24bit_config true) (AudioConfig.mk 44100 51 4)))
  = AudioConfig.mk 48000 3 1.
Proof.
  assert (Hhyp : calloc usb_dac 1 (sizeof_stream_out android_ilp32) <> NULL)
    by discriminate.
  split; [exact Hhyp|].
  pose proof (adev_open_output_stream_reports_boundary_format android_ilp32 usb_dac
                (sample_hal quad_24bit_config true) (AudioConfig.mk 44100 51 4)
                Hhyp) as H.
  cbv zeta in H. destruct H as (_ & _ & Hmask & Hfmt & _ & Hrate & _).
  destruct (snd (fst (adev_open_output_stream android_ilp32 usb_dac
                        (sample_hal quad_24bit_config true)
                        (AudioConfig.mk 44100 51 4)))) as [rate mask fmt].
  cbn [AudioConfig.channel_mask AudioConfig.format AudioConfig.sample_rate] in *.
  rewrite Hmask, Hfmt, Hrate. reflexivity.
Defined.

(** Selecting the sample device and opening a stream: 8000 Hz is
    reported and the buffer is 8 frames of 4 bytes. *)
Lemma out_set_parameters_then_open_example :
  let g := sample_hal (default_alsa_out_config android_ilp32) false in
  let selected := out_set_parameters android_ilp32 usb_dac g (Some 1) (Some 0) in
  let r := adev_open_output_stream android_ilp32 usb_dac (snd selected)
             (AudioConfig.mk 44100 3 1) in
  (0 <= 1 /\ 0 <= 0 /\
   pcm_params_get usb_dac 1 0 PCM_OUT = Some usb_dac_params /\
   calloc usb_dac 1 (sizeof_stream_out android_ilp32) <> NULL) /\
  fst selected = 0 /\
  snd (fst r) = AudioConfig.mk 8000 3 1 /\
  out_get_buffer_size android_ilp32 (snd (fst (fst r))) = 32.
Proof.
  cbv zeta.
  assert (H1 : 0 <= 1) by lia.
  assert (H2 : 0 <= 0) by lia.
  assert (H3 : pcm_params_get usb_dac 1 0 PCM_OUT = Some usb_dac_params)
    by reflexivity.
  assert (H4 : calloc usb_dac 1 (sizeof_stream_out android_ilp32) <> NULL)
    by discriminate.
  split; [exact (conj H1 (conj H2 (conj H3 H4)))|].
  pose proof (out_set_parameters_then_open android_ilp32 usb_dac usb_dac
                (sample_hal (default_alsa_out_config android_ilp32) false)
                1 0 usb_dac_params (AudioConfig.mk 44100 3 1) H1 H2 H3 H4) as H.
  cbv zeta in H. destruct H as (Hret & _ & _ & Hconfig & Hsize).
  exact (conj Hret (conj Hconfig Hsize)).
Defined.

(** Selecting the sample device after a card that reports nothing gives
    the state that selecting it directly gives. *)
Lemma out_set_parameters_last_wins_example :
  (0 <= 1 /\ 0 <= 0 /\
   pcm_params_get usb_dac 1 0 PCM_OUT = Some usb_dac_params) /\
  let g := sample_hal quad_24bit_config true in
  out_set_parameters android_ilp32 usb_dac
    (snd (out_set_parameters android_ilp32 no_device g (Some 2) None))
    (Some 1) (Some 0)
  = out_set_parameters android_ilp32 usb_dac g (Some 1) (Some 0).
Proof.
  assert (H1 : 0 <= 1) by lia.
  assert (H2 : 0 <= 0) by lia.
  assert (H3 : pcm_params_get usb_dac 1 0 PCM_OUT = Some usb_dac_params)
    by reflexivity.
  split; [exact (conj H1 (conj H2 H3))|].
  exact (out_set_parameters_last_wins android_ilp32 no_device usb_dac
           (sample_hal quad_24bit_config true) (Some 2) None 1 0 usb_dac_params
           H1 H2 H3).
Defined.

(** Closing the device and opening a stream again: the four-channel
    configuration gives way to the default one. *)
Lemma adev_close_then_open_restores_default_example :
  calloc usb_dac 1 (sizeof_stream_out android_ilp32) <> NULL /\
  let closed := snd (adev_close (sample_hal quad_24bit_config true)) in
  let r := adev_open_output_stream android_ilp32 usb_dac closed
             (AudioConfig.mk 48000 51 4) in
  cached_output_hardware_config closed = quad_24bit_config /\
  cached_output_hardware_config (snd (fst (fst r)))
  = PcmConfig.mk 2 44100 1024 4 0 0 0 /\
  snd (fst r) = AudioConfig.mk 44100 3 1.
Proof.
  assert (Hhyp : calloc usb_dac 1 (sizeof_stream_out android_ilp32) <> NULL)
    by discriminate.
  split; [exact Hhyp|].
  pose proof (adev_close_then_open_restores_default android_ilp32 usb_dac
                (sample_hal quad_24bit_config true) (AudioConfig.mk 48000 51 4)
                Hhyp) as H.
  cbv zeta in H. destruct H as (_ & Hstale & Hdefault & _ & Hconfig).
  exact (conj Hstale (conj Hdefault Hconfig)).
Defined.

(** Selecting a card that reports nothing: the status is -22, the old
    configuration stays but is no longer valid, and the next stream is
    opened on the default one. *)
Lemma out_set_parameters_failure_invalidates_example :
  (0 <= 2 /\ 0 <= 0 /\
   pcm_params_get no_device 2 0 PCM_OUT = None /\
   calloc usb_dac 1 (sizeof_stream_out android_ilp32) <> NULL) /\
  let g := sample_hal quad_24bit_config true in
  let selected := out_set_parameters android_ilp32 no_device g (Some 2) (Some 0) in
  let r := adev_open_output_stream android_ilp32 usb_dac (snd selected)
             (AudioConfig.mk 48000 51 4) in
  fst selected = - 22 /\
  cached_output_hardware_config (snd selected) = quad_24bit_config /\
  output_hardware_config_is_cached (snd selected) = false /\
  AudioConfig.sample_rate (snd (fst r)) = 44100.
Proof.
  assert (H1 : 0 <= 2) by lia.
  assert (H2 : 0 <= 0) by lia.
  assert (H3 : pcm_params_get no_device 2 0 PCM_OUT = None) by reflexivity.
  assert (H4 : calloc usb_dac 1 (sizeof_stream_out android_ilp32) <> NULL)
    by discriminate.
  split; [exact (conj H1 (conj H2 (conj H3 H4)))|].
  pose proof (out_set_parameters_failure_invalidates android_ilp32 no_device usb_dac
                (sample_hal quad_24bit_config true) 2 0 (AudioConfig.mk 48000 51 4)
                H1 H2 H3 H4) as H.
  cbv zeta in H. destruct H as (Hret & _ & _ & Hstale & Hflag & _ & Hrate).
  exact (conj Hret (conj Hstale (conj Hflag Hrate))).
Defined.

(** Selecting the sample device for input: 8000 Hz, and mono, since its
    minimum channel count is 1. *)
Lemma in_set_parameters_then_getters_example :
  (0 <= 1 /\ 0 <= 0 /\
   pcm_params_get usb_dac 1 0 PCM_IN = Some usb_dac_params) /\
  let r := in_set_parameters android_ilp32 usb_dac sample_device sample_stream_in
             (Some 1) (Some 0) in
  fst (fst r) = 0 /\
  in_get_sample_rate (snd r) = 8000 /\
  in_get_channels android_ilp32 (snd r) = 16 /\
  StreamIn.pcm (snd r) = NULL.
Proof.
  assert (H1 : 0 <= 1) by lia.
  assert (H2 : 0 <= 0) by lia.
  assert (H3 : pcm_params_get usb_dac 1 0 PCM_IN = Some usb_dac_params)
    by reflexivity.
  split; [exact (conj H1 (conj H2 H3))|].
  pose proof (in_set_parameters_then_getters android_ilp32 usb_dac sample_device
                sample_stream_in 1 0 usb_dac_params H1 H2 H3) as H.
  cbv zeta in H. destruct H as (Hret & Hrate & Hch & _ & _ & Hpcm & _).
  exact (conj Hret (conj Hrate (conj Hch Hpcm))).
Defined.
